(** * Udemy platform client: session building, catalogue and curriculum
      crawling, video resolution

    A shallow embedding of [src/platforms/udemy.py] and the properties its
    specification states about it, followed by properties of the same code
    that the specification does not state, and by the counters of the
    progress view of [src/gui/views/progress_view.py].

    Conventions of the embedding.
    - A Python [str] is a Rocq [string]; the characters are ASCII (cookie
      headers, URLs and quality labels are), so [str.strip], [str.lower] and
      [int] are the ASCII restrictions of the Python builtins.
    - A decoded JSON document is a [json] value; Python's [None] is [JNull],
      a [dict] is an association list read by its first binding of a key
      (the keys of a decoded object are distinct).  JSON numbers are
      integers: no field the code reads carries a fraction.
    - A Python exception is [Raise e]; [try ... except] is a [match] on the
      result.
    - The HTTP boundary is a [world]: the responses the server is going to
      give, in order, the requests sent so far, and the error log.
    - [str] and [repr] are modelled ([py_str]); [json.loads] and
      [json.dumps] are parameters of the functions that call them. *)

From Stdlib Require Import ZArith Ascii String DecimalString List Bool Lia Permutation
  Sorted.
From stdpp Require Import base option list strings gmap.

Set Warnings "-register-all".
Local Open Scope Z_scope.

(** ** Python strings *)

Module Py.

(** [str.isspace] on ASCII: TAB, LF, VT, FF, CR, FS, GS, RS, US and space. *)
Definition is_space (a : ascii) : bool :=
  let n := nat_of_ascii a in
  (Nat.leb 9 n && Nat.leb n 13) || (Nat.leb 28 n && Nat.leb n 32).

Fixpoint lstrip (p : ascii -> bool) (s : string) : string :=
  match s with
  | EmptyString => EmptyString
  | String a s' => if p a then lstrip p s' else s
  end.

Fixpoint rstrip (p : ascii -> bool) (s : string) : string :=
  match s with
  | EmptyString => EmptyString
  | String a s' =>
      match rstrip p s' with
      | EmptyString => if p a then EmptyString else String a EmptyString
      | r => String a r
      end
  end.

Definition strip_by (p : ascii -> bool) (s : string) : string :=
  rstrip p (lstrip p s).

(** [s.strip()] *)
Definition strip (s : string) : string := strip_by is_space s.

Fixpoint mem (a : ascii) (cs : string) : bool :=
  match cs with
  | EmptyString => false
  | String c cs' => Ascii.eqb a c || mem a cs'
  end.

(** [s.strip(chars)] *)
Definition strip_chars (chars s : string) : string :=
  strip_by (fun a => mem a chars) s.

(** [s.split(sep)] for a one-character separator, the only kind the
    source uses. *)
Fixpoint split (sep : ascii) (s : string) : list string :=
  match s with
  | EmptyString => [EmptyString]
  | String a s' =>
      if Ascii.eqb a sep then EmptyString :: split sep s'
      else match split sep s' with
           | h :: t => String a h :: t
           | [] => [String a EmptyString]
           end
  end.

(** [s.split(sep, 1)] *)
Fixpoint split1 (sep : ascii) (s : string) : list string :=
  match s with
  | EmptyString => [EmptyString]
  | String a s' =>
      if Ascii.eqb a sep then [EmptyString; s']
      else match split1 sep s' with
           | h :: t => String a h :: t
           | [] => [String a EmptyString]
           end
  end.

(** [s.startswith(p)] *)
Definition startswith (s p : string) : bool := String.prefix p s.

(** [sub in s] *)
Fixpoint contains (sub s : string) : bool :=
  String.prefix sub s
  || match s with
     | EmptyString => false
     | String _ s' => contains sub s'
     end.

(** [s.replace(old, new)] for a one-character [old]. *)
Fixpoint replace (old : ascii) (new s : string) : string :=
  match s with
  | EmptyString => EmptyString
  | String a s' =>
      if Ascii.eqb a old then new +:+ replace old new s'
      else String a (replace old new s')
  end.

Definition lower_char (a : ascii) : ascii :=
  let n := nat_of_ascii a in
  if Nat.leb 65 n && Nat.leb n 90 then ascii_of_nat (n + 32) else a.

(** [s.lower()] *)
Fixpoint lower (s : string) : string :=
  match s with
  | EmptyString => EmptyString
  | String a s' => String (lower_char a) (lower s')
  end.

(** [s[n:]] *)
Fixpoint drop (n : nat) (s : string) : string :=
  match n, s with
  | O, _ => s
  | S _, EmptyString => EmptyString
  | S n', String _ s' => drop n' s'
  end.

(** [sep.join(parts)] *)
Fixpoint join (sep : string) (parts : list string) : string :=
  match parts with
  | [] => EmptyString
  | [p] => p
  | p :: rest => p +:+ sep +:+ join sep rest
  end.

Definition is_digit (a : ascii) : bool :=
  let n := nat_of_ascii a in Nat.leb 48 n && Nat.leb n 57.

Definition digit_val (a : ascii) : Z := Z.of_nat (nat_of_ascii a) - 48.

(** The digit part of an integer literal: decimal digits, single
    underscores allowed between two digits. [prev] tells whether the
    character before was a digit. *)
Fixpoint digits (acc : Z) (prev : bool) (s : string) : option Z :=
  match s with
  | EmptyString => if prev then Some acc else None
  | String a s' =>
      if is_digit a then digits (10 * acc + digit_val a) true s'
      else if Ascii.eqb a "_" then
             (if prev then digits acc false s' else None)
      else None
  end.

(** The whitespace [int] skips around an ASCII literal is C's [isspace]:
    TAB, LF, VT, FF, CR and space, not the separators FS to US. *)
Definition is_c_space (a : ascii) : bool :=
  let n := nat_of_ascii a in
  (Nat.leb 9 n && Nat.leb n 13) || Nat.eqb n 32.

Fixpoint count_digits (s : string) : nat :=
  match s with
  | EmptyString => O
  | String a s' => if is_digit a then S (count_digits s') else count_digits s'
  end.

(** [sys.int_max_str_digits], at its default. *)
Definition max_str_digits : nat := 4300.

(** [int(s)]: surrounding whitespace, an optional sign, then the digits,
    no more of them than the interpreter's limit; [None] is [ValueError]. *)
Definition int (s : string) : option Z :=
  let literal :=
    match strip_by is_c_space s with
    | String "+" r => digits 0 false r
    | String "-" r => Z.opp <$> digits 0 false r
    | t => digits 0 false t
    end in
  if Nat.ltb max_str_digits (count_digits s) then None else literal.

(** [l[-2]] *)
Definition second_to_last {A} (l : list A) : option A :=
  if Nat.leb 2 (length l) then l !! (length l - 2)%nat else None.

End Py.

(** ** Exceptions *)

Inductive exn : Set :=
| AttributeError | TypeError | IndexError | KeyError | ValueError
| RequestException.

Inductive result (A : Type) : Type :=
| Ok (a : A)
| Raise (e : exn).
Arguments Ok {A} a.
Arguments Raise {A} e.

#[global] Instance result_ret : MRet result := fun _ a => Ok a.
#[global] Instance result_bind : MBind result := fun _ _ f m =>
  match m with
  | Ok a => f a
  | Raise e => Raise e
  end.

Definition is_ok {A} (r : result A) : bool :=
  match r with Ok _ => true | Raise _ => false end.

(** [for x in l: f(x)] collecting the values, stopping at the first
    exception. *)
Fixpoint for_each {A B} (f : A -> result B) (l : list A) : result (list B) :=
  match l with
  | [] => Ok []
  | x :: l' => y ← f x; ys ← for_each f l'; Ok (y :: ys)
  end.

(** ** Decoded JSON *)

Inductive json : Type :=
| JNull
| JBool (b : bool)
| JNum (n : Z)
| JStr (s : string)
| JArr (l : list json)
| JObj (d : list (string * json)).

Definition dict : Type := list (string * json).

Module Json.

(** Python truthiness. *)
Definition truthy (v : json) : bool :=
  match v with
  | JNull => false
  | JBool b => b
  | JNum n => negb (n =? 0)
  | JStr s => negb (String.eqb s "")
  | JArr l => match l with [] => false | _ => true end
  | JObj d => match d with [] => false | _ => true end
  end.

Fixpoint assoc (k : string) (d : dict) : option json :=
  match d with
  | [] => None
  | (k', v) :: d' => if String.eqb k k' then Some v else assoc k d'
  end.

(** [d.get(k, default)] on a dict. *)
Definition dict_get (d : dict) (k : string) (default : json) : json :=
  match assoc k d with
  | Some v => v
  | None => default
  end.

(** [v.get(k, default)]: only a dict has the method. *)
Definition get_default (v : json) (k : string) (default : json) : result json :=
  match v with
  | JObj d => Ok (dict_get d k default)
  | _ => Raise AttributeError
  end.

(** [v.get(k)] *)
Definition get (v : json) (k : string) : result json := get_default v k JNull.

(** [v == "s"] for a string constant. *)
Definition eq_str (v : json) (s : string) : bool :=
  match v with
  | JStr t => String.eqb t s
  | _ => false
  end.

Fixpoint chars (s : string) : list json :=
  match s with
  | EmptyString => []
  | String a s' => JStr (String a EmptyString) :: chars s'
  end.

(** [for x in v]: the elements of a list, the characters of a string, the
    keys of a dict; nothing else is iterable. *)
Definition iter (v : json) : result (list json) :=
  match v with
  | JArr l => Ok l
  | JStr s => Ok (chars s)
  | JObj d => Ok (map (fun kv => JStr (fst kv)) d)
  | _ => Raise TypeError
  end.

(** ["s" in v] *)
Definition has_str (s : string) (v : json) : result bool :=
  match v with
  | JStr t => Ok (Py.contains s t)
  | JArr l => Ok (existsb (fun x => eq_str x s) l)
  | JObj d => Ok (existsb (fun kv => String.eqb (fst kv) s) d)
  | _ => Raise TypeError
  end.

(** [v[0]] *)
Definition item0 (v : json) : result json :=
  match v with
  | JArr (x :: _) => Ok x
  | JArr [] => Raise IndexError
  | JStr (String a _) => Ok (JStr (String a EmptyString))
  | JStr EmptyString => Raise IndexError
  | JObj _ => Raise KeyError
  | _ => Raise TypeError
  end.

Definition is_dict (v : json) : bool :=
  match v with JObj _ => true | _ => false end.

End Json.

(** ** [str] and [repr] of a decoded value *)

Module Repr.

Definition dquote : ascii := ascii_of_nat 34.
Definition squote : ascii := "'".
Definition backslash : ascii := ascii_of_nat 92.

(** An integer in decimal, as [str] prints it. *)
Definition decimal (n : Z) : string :=
  DecimalString.NilZero.string_of_int (Z.to_int n).

Definition hex_digit (n : nat) : ascii :=
  if Nat.ltb n 10 then ascii_of_nat (48 + n) else ascii_of_nat (87 + n).

(** One character inside the quotes of [repr(s)]. *)
Definition escape (quote a : ascii) : string :=
  let n := nat_of_ascii a in
  if Ascii.eqb a quote || Ascii.eqb a backslash
  then String backslash (String a EmptyString)
  else if Nat.eqb n 9 then String backslash "t"
  else if Nat.eqb n 10 then String backslash "n"
  else if Nat.eqb n 13 then String backslash "r"
  else if Nat.ltb n 32 || Nat.eqb n 127
  then String backslash
         (String "x" (String (hex_digit (Nat.div n 16))
                             (String (hex_digit (Nat.modulo n 16)) EmptyString)))
  else String a EmptyString.

Fixpoint escape_all (quote : ascii) (s : string) : string :=
  match s with
  | EmptyString => EmptyString
  | String a s' => escape quote a +:+ escape_all quote s'
  end.

(** [repr(s)]: single quotes, unless the string has a single quote and
    no double quote. *)
Definition repr_str (s : string) : string :=
  let quote := if Py.mem squote s && negb (Py.mem dquote s)
               then dquote else squote in
  String quote (escape_all quote s +:+ String quote EmptyString).

Fixpoint repr (v : json) : string :=
  match v with
  | JNull => "None"
  | JBool b => if b then "True" else "False"
  | JNum n => decimal n
  | JStr s => repr_str s
  | JArr l => "[" +:+ Py.join ", " (map repr l) +:+ "]"
  | JObj d =>
      "{" +:+ Py.join ", "
                (map (fun '(k, x) => repr_str k +:+ ": " +:+ repr x) d)
          +:+ "}"
  end.

End Repr.

(** [str(v)], also what an f-string does to [v]. *)
Definition py_str (v : json) : string :=
  match v with
  | JStr s => s
  | _ => Repr.repr v
  end.

(** ** The HTTP boundary *)

(** What one call [session.get(url, params=p)], [raise_for_status()],
    [resp.json()] sends.  [req_params] is [None] when [params=None]. *)
Record request : Type := Request {
  req_url : json;
  req_params : option dict
}.

(** The responses still to come (a decoded body, or the exception one of
    the three calls raises), the requests sent so far, and what
    [logging.error] recorded: the subject of the message and the exception.
    A request that finds no response left fails as a transport error. *)
Record world : Type := World {
  pending : list (result json);
  sent : list request;
  logged : list (json * exn)
}.

Definition http_get (rq : request) (w : world) : result json * world :=
  match pending w with
  | [] => (Raise RequestException, World [] (sent w ++ [rq]) (logged w))
  | r :: rest => (r, World rest (sent w ++ [rq]) (logged w))
  end.

Definition log_error (subject : json) (e : exn) (w : world) : world :=
  World (pending w) (sent w) (logged w ++ [(subject, e)]).

(** ** [UdemyTokenFetcher] *)

Module UdemyTokenFetcher.

Definition required : list string :=
  ["cf_clearance"; "csrftoken"; "ud_cache_user"; "dj_session_id"].

(** [[part.strip() for part in cookie_header.split(";") if part.strip()]] *)
Definition cookie_parts (cookie_header : string) : list string :=
  List.filter (fun part => negb (String.eqb part ""))
              (map Py.strip (Py.split ";" cookie_header)).

(** [any(part.startswith(f"{req}=") for part in cookie_parts)] *)
Definition any_startswith (req : string) (cookie_parts : list string) : bool :=
  existsb (fun part => Py.startswith part (req +:+ "=")) cookie_parts.

Fixpoint check_required (required cookie_parts : list string) : bool :=
  match required with
  | [] => true
  | req :: rest =>
      if negb (any_startswith req cookie_parts) then false
      else check_required rest cookie_parts
  end.

Definition _has_required_cookies (cookie_header : string) : bool :=
  check_required required (cookie_parts cookie_header).

(** The cookie string of the polling path:
    ["; ".join([f"{c['name']}={c['value']}" for c in cookies])] *)
Definition cookie_str (cookies : list (string * string)) : string :=
  Py.join "; " (map (fun c => fst c +:+ "=" +:+ snd c) cookies).

(** The dict [_build_cookie_payload] serialises, on the storages its two
    getters returned. *)
Definition cookie_payload (local_storage session_storage : json)
           (cookie_header : string) : json :=
  JObj [ ("token_type", JStr "cookie");
         ("cookie", JStr cookie_header);
         ("local_storage", local_storage);
         ("session_storage", session_storage) ].

(** [_build_cookie_payload]; [json_dumps] is [json.dumps]. *)
Definition _build_cookie_payload (json_dumps : json -> string)
           (local_storage session_storage : json) (cookie_header : string) : string :=
  json_dumps (cookie_payload local_storage session_storage cookie_header).

End UdemyTokenFetcher.

(** ** [UdemyPlatform] *)

(** [requests]' case-insensitive header dict: the lower-cased name maps to
    the name as last written and the value. *)
Abbreviation headers := (gmap string (string * json)).

Definition set_header (name : string) (value : json) (h : headers) : headers :=
  <[Py.lower name := (name, value)]> h.

Definition header (name : string) (h : headers) : option json :=
  snd <$> h !! Py.lower name.

(** What [authenticate] leaves in the platform object. *)
Record session : Type := Session {
  session_headers : headers;
  _captured_local_storage : json;
  _captured_session_storage : json
}.

(** A course descriptor, the dict [fetch_courses] builds: keys ["id"],
    ["name"], ["url"], ["image"], ["slug"]. *)
Record Course : Type := MkCourse {
  course_id : string;
  course_name : json;
  course_url : string;
  course_image : json;
  course_slug : string
}.

(** The lesson and module dicts of [fetch_course_content]. *)
Record Lesson : Type := MkLesson {
  lesson_id : string;
  lesson_name : json;
  lesson_asset : json;
  lesson_supplementary_assets : json
}.

Record ModuleEntry : Type := MkModule {
  module_id : string;
  module_name : json;
  module_lessons : list Lesson
}.

(** String methods called on a value that may not be a string. *)
Definition str_split (v : json) (sep : ascii) : result (list string) :=
  match v with
  | JStr s => Ok (Py.split sep s)
  | _ => Raise AttributeError
  end.

Definition str_strip_chars (v : json) (chars : string) : result string :=
  match v with
  | JStr s => Ok (Py.strip_chars chars s)
  | _ => Raise AttributeError
  end.

Section UdemyPlatform.

(** [json.loads] *)
Variable json_loads : string -> result json.

(** *** Session building *)

(** The [for p in parts] loop of the CSRF block, up to its [break]. *)
Fixpoint find_csrf (parts : list string) : result (option string) :=
  match parts with
  | [] => Ok None
  | p :: rest =>
      let p := Py.strip p in
      if Py.startswith p "csrftoken=" then
        match Py.split1 "=" p !! 1%nat with
        | Some csrf => Ok (Some csrf)
        | None => Raise IndexError
        end
      else find_csrf rest
  end.

(** The loop filling [kv]; [k, v = p.split("=", 1)] needs two parts. *)
Fixpoint fill_kv (parts : list string) (kv : gmap string string)
  : result (gmap string string) :=
  match parts with
  | [] => Ok kv
  | p :: rest =>
      if Py.contains "=" p then
        match Py.split1 "=" p with
        | [k; v] => fill_kv rest (<[k := v]> kv)
        | _ => Raise ValueError
        end
      else fill_kv rest kv
  end.

Definition _set_if_present (kv : gmap string string)
           (header_name cookie_key : string) (h : headers) : headers :=
  match kv !! cookie_key with
  | Some value =>
      if negb (String.eqb value "") then set_header header_name (JStr value) h
      else h
  | None => h
  end.

(** The ten [_set_if_present] calls, in order. *)
Definition cache_headers : list (string * string) :=
  [ ("X-Udemy-Cache-Release", "ud_cache_release");
    ("X-Udemy-Cache-User", "ud_cache_user");
    ("X-Udemy-Cache-Brand", "ud_cache_brand");
    ("X-Udemy-Cache-Marketplace-Country", "ud_cache_marketplace_country");
    ("X-Udemy-Cache-Price-Country", "ud_cache_price_country");
    ("X-Udemy-Cache-Version", "ud_cache_version");
    ("X-Udemy-Cache-Language", "ud_cache_language");
    ("X-Udemy-Cache-Device", "ud_cache_device");
    ("X-Udemy-Cache-Campaign-Code", "ud_cache_campaign_code");
    ("X-Udemy-Client-Id", "client_id") ].

Definition set_cache_headers (kv : gmap string string) (h : headers) : headers :=
  fold_left (fun h hc => _set_if_present kv (fst hc) (snd hc) h) cache_headers h.

(** In both [try] blocks every statement that can raise comes before the
    first header is written, so [except Exception: pass] leaves the
    headers as they were before the block. *)
Definition _apply_cookie_headers (cookie_content : json) (h : headers)
  : result headers :=
  let h := set_header "Cookie" cookie_content h in
  let h := set_header "X-Requested-With" (JStr "XMLHttpRequest") h in
  let h := set_header "Accept" (JStr "application/json, text/plain, */*") h in
  let h := set_header "X-Udemy-Cache-Logged-In" (JStr "1") h in
  has_csrf ← Json.has_str "csrftoken=" cookie_content;
  let h :=
    if has_csrf : bool then
      match parts ← str_split cookie_content ";"; find_csrf parts with
      | Ok (Some csrf) => set_header "X-CSRFToken" (JStr csrf) h
      | Ok None => h
      | Raise _ => h
      end
    else h in
  let h :=
    match
      segs ← str_split cookie_content ";";
      fill_kv (List.filter (fun seg => negb (String.eqb seg ""))
                           (map Py.strip segs)) ∅
    with
    | Ok kv => set_cache_headers kv h
    | Raise _ => h
    end in
  Ok h.

Definition _try_parse_cookie_payload (token_data : string) : option dict :=
  match json_loads token_data with
  | Ok (JObj parsed) =>
      if Json.eq_str (Json.dict_get parsed "token_type" JNull) "cookie"
         && Json.truthy (Json.dict_get parsed "cookie" JNull)
      then Some parsed else None
  | _ => None
  end.

(** [x or {}] *)
Definition or_empty_dict (v : json) : json :=
  if Json.truthy v then v else JObj [].

(** [authenticate], from the resolved [token_data] on: [default_headers]
    are the headers of a fresh [requests.Session()], [user_agent] is
    [self._settings.user_agent]. *)
Definition authenticate (default_headers : headers)
           (user_agent token_data : string) : result session :=
  let h := set_header "User-Agent" (JStr user_agent) default_headers in
  let h := set_header "Referer"
             (JStr "https://www.udemy.com/home/my-courses/learning/") h in
  let h := set_header "Accept-Language" (JStr "pt-BR") h in
  let h := set_header "Sec-GPC" (JStr "1") h in
  let payload := _try_parse_cookie_payload token_data in
  let '(cookie_content, local_storage, session_storage) :=
    match payload with
    | Some p =>
        if Json.truthy (JObj p) && Json.truthy (Json.dict_get p "cookie" JNull)
        then (Json.dict_get p "cookie" JNull,
              or_empty_dict (Json.dict_get p "local_storage" (JObj [])),
              or_empty_dict (Json.dict_get p "session_storage" (JObj [])))
        else if Py.startswith token_data "Cookie:"
        then (JStr (Py.drop 7 token_data), JObj [], JObj [])
        else (JNull, JObj [], JObj [])
    | None =>
        if Py.startswith token_data "Cookie:"
        then (JStr (Py.drop 7 token_data), JObj [], JObj [])
        else (JNull, JObj [], JObj [])
    end in
  h' ← (if Json.truthy cookie_content then
          _apply_cookie_headers cookie_content h
        else if Py.startswith (Py.lower token_data) "bearer " then
          Ok (set_header "Authorization" (JStr token_data) h)
        else _apply_cookie_headers (JStr token_data) h);
  Ok (Session h' local_storage session_storage).

(** *** Course listing *)

Definition listing_url : string :=
  "https://www.udemy.com/api-2.0/users/me/subscribed-courses/".

Definition listing_params : dict :=
  [ ("ordering", JStr "-last_accessed");
    ("fields[course]", JStr "id,title,url,image_480x270");
    ("page", JNum 1);
    ("page_size", JNum 100);
    ("is_archived", JBool false) ].

(** [result.get("url", "").strip("/").split("/")[-2] if result.get("url")
    else ""] *)
Definition slug_of (row : json) : result string :=
  u ← Json.get row "url";
  if Json.truthy u then
    u' ← Json.get_default row "url" (JStr "");
    stripped ← str_strip_chars u' "/";
    match Py.second_to_last (Py.split "/" stripped) with
    | Some seg => Ok seg
    | None => Raise IndexError
    end
  else Ok EmptyString.

(** The dict appended to [all_courses] for one row of [results]. *)
Definition course_of_result (row : json) : result Course :=
  id ← Json.get row "id";
  title ← Json.get row "title";
  url ← Json.get row "url";
  image ← Json.get row "image_480x270";
  slug ← slug_of row;
  Ok (MkCourse (py_str id) title ("https://www.udemy.com" +:+ py_str url)
               image slug).

(** ["api-2.0/users/me/subscribed-courses/" in url and "page=" not in url] *)
Definition is_initial (url : json) : result bool :=
  on_listing ← Json.has_str "api-2.0/users/me/subscribed-courses/" url;
  if on_listing : bool then
    paged ← Json.has_str "page=" url; Ok (negb paged)
  else Ok false.

(** The rows of one page: [data.get("results", [])], iterated and
    projected. *)
Definition page_courses (data : json) : result (list Course) :=
  results ← Json.get_default data "results" (JArr []);
  rows ← Json.iter results;
  for_each course_of_result rows.

(** The [while url:] loop of [fetch_courses]; each turn takes the next
    response of the world. *)
Fixpoint courses_loop (rs : list (result json)) (url : json)
         (all_courses : list Course) (sent : list request)
         (logged : list (json * exn)) {struct rs}
  : result (list Course) * world :=
  if negb (Json.truthy url) then (Ok all_courses, World rs sent logged)
  else
    match is_initial url with
    | Raise e => (Raise e, World rs sent logged)
    | Ok initial =>
        let rq := Request url (if initial then Some listing_params else None) in
        match rs with
        | [] => (Raise RequestException, World [] (sent ++ [rq]) logged)
        | Raise e :: rs' => (Raise e, World rs' (sent ++ [rq]) logged)
        | Ok data :: rs' =>
            match cs ← page_courses data;
                  next ← Json.get data "next"; Ok (cs, next) with
            | Raise e => (Raise e, World rs' (sent ++ [rq]) logged)
            | Ok (cs, next) =>
                courses_loop rs' next (all_courses ++ cs) (sent ++ [rq]) logged
            end
        end
    end.

(** [fetch_courses] on an authenticated session. *)
Definition fetch_courses (w : world) : result (list Course) * world :=
  courses_loop (pending w) (JStr listing_url) [] (sent w) (logged w).

(** *** Curriculum *)

Definition curriculum_url (course_id : string) : string :=
  "https://www.udemy.com/api-2.0/courses/" +:+ course_id
    +:+ "/subscriber-curriculum-items/".

Definition curriculum_params : dict :=
  [ ("curriculum_types", JStr "chapter,lecture,quiz,practice");
    ("page_size", JNum 200);
    ("fields[lecture]",
     JStr "title,object_index,is_published,sort_order,created,asset,supplementary_assets");
    ("fields[chapter]", JStr "title,object_index,is_published,sort_order");
    ("fields[asset]",
     JStr "title,filename,asset_type,status,time_estimation,is_external");
    ("caching_intent", JStr "True") ].

(** The [while current_url:] loop of [_fetch_curriculum]. *)
Fixpoint curriculum_loop (rs : list (result json)) (current_url : json)
         (first_call : bool) (items : list json) (sent : list request)
         (logged : list (json * exn)) {struct rs}
  : result (list json) * world :=
  if negb (Json.truthy current_url) then (Ok items, World rs sent logged)
  else
    let rq := Request current_url
                (if first_call then Some curriculum_params else None) in
    match rs with
    | [] => (Raise RequestException, World [] (sent ++ [rq]) logged)
    | Raise e :: rs' => (Raise e, World rs' (sent ++ [rq]) logged)
    | Ok data :: rs' =>
        match results ← Json.get_default data "results" (JArr []);
              more ← Json.iter results;
              next ← Json.get data "next"; Ok (more, next) with
        | Raise e => (Raise e, World rs' (sent ++ [rq]) logged)
        | Ok (more, next) =>
            curriculum_loop rs' next false (items ++ more) (sent ++ [rq]) logged
        end
    end.

Definition _fetch_curriculum (course_id : string) (w : world)
  : result (list json) * world :=
  curriculum_loop (pending w) (JStr (curriculum_url course_id)) true []
                  (sent w) (logged w).

(** *** Module tree *)

(** [any(item.get("_class") == "chapter" for item in curriculum)]: the
    generator stops at the first chapter. *)
Fixpoint any_chapter (curriculum : list json) : result bool :=
  match curriculum with
  | [] => Ok false
  | item :: rest =>
      _class ← Json.get item "_class";
      if Json.eq_str _class "chapter" then Ok true else any_chapter rest
  end.

Definition default_module (course : Course) : ModuleEntry :=
  MkModule ("c_" +:+ course_id course +:+ "_default") (course_name course) [].

Definition startup_module (course : Course) : ModuleEntry :=
  MkModule ("c_" +:+ course_id course +:+ "_startup") (JStr "Introduction") [].

Definition chapter_module (item : dict) : ModuleEntry :=
  MkModule (py_str (Json.dict_get item "id" JNull))
           (Json.dict_get item "title" JNull) [].

Definition lesson_of (item : dict) : Lesson :=
  MkLesson (py_str (Json.dict_get item "id" JNull))
           (Json.dict_get item "title" JNull)
           (Json.dict_get item "asset" JNull)
           (Json.dict_get item "supplementary_assets" JNull).

(** [module["lessons"].append(lesson)] *)
Definition add_lesson (lesson : Lesson) (m : ModuleEntry) : ModuleEntry :=
  MkModule (module_id m) (module_name m) (module_lessons m ++ [lesson]).

(** The [for item in curriculum] loop.  [modules] is
    [final_structure["modules"]]; [current_module] refers to one of its
    elements, by position, or is [None].  The loop stops at the first
    exception and leaves the modules written so far. *)
Fixpoint group_items (course : Course) (curriculum : list json)
         (current_module : option nat) (modules : list ModuleEntry)
  : list ModuleEntry * option exn :=
  match curriculum with
  | [] => (modules, None)
  | JObj item :: rest =>
      let _class := Json.dict_get item "_class" JNull in
      if Json.eq_str _class "chapter" then
        group_items course rest (Some (length modules))
                    (modules ++ [chapter_module item])
      else if Json.eq_str _class "lecture" then
        let '(current, modules) :=
          match current_module with
          | Some i => (i, modules)
          | None => (length modules, modules ++ [startup_module course])
          end in
        group_items course rest (Some current)
                    (alter (add_lesson (lesson_of item)) current modules)
      else group_items course rest current_module modules
  | _ :: _ => (modules, Some AttributeError)
  end.

(** The body of [for course in courses]: the [try] block and its
    [except Exception] handler. *)
Definition course_step (st : list ModuleEntry * world) (course : Course)
  : list ModuleEntry * world :=
  let '(modules, w) := st in
  match _fetch_curriculum (course_id course) w with
  | (Raise e, w') => (modules, log_error (course_name course) e w')
  | (Ok curriculum, w') =>
      match any_chapter curriculum with
      | Raise e => (modules, log_error (course_name course) e w')
      | Ok has_chapter =>
          let '(current_module, modules) :=
            if negb has_chapter
            then (Some (length modules), modules ++ [default_module course])
            else (None, modules) in
          match group_items course curriculum current_module modules with
          | (modules', None) => (modules', w')
          | (modules', Some e) =>
              (modules', log_error (course_name course) e w')
          end
      end
  end.

(** [fetch_course_content]: the modules of [final_structure], and the
    world it leaves. *)
Definition fetch_course_content (courses : list Course) (w : world)
  : list ModuleEntry * world :=
  fold_left course_step courses ([], w).

(** *** Video resolution *)

(** [try: res = int(label.replace("p", "")) except: res = 0] *)
Definition resolution (label : json) : Z :=
  match label with
  | JStr s =>
      match Py.int (Py.replace "p" "" s) with
      | Some res => res
      | None => 0
      end
  | _ => 0
  end.

(** The resolution the loop computes for an entry that is a dict:
    [src.get("label", "0")], parsed. *)
Definition entry_resolution (src : dict) : Z :=
  resolution (Json.dict_get src "label" (JStr "0")).

(** The [for src in media_sources] loop. *)
Fixpoint pick_best (media_sources : list json) (best : json) (max_res : Z)
  : result json :=
  match media_sources with
  | [] => Ok best
  | src :: rest =>
      label ← Json.get_default src "label" (JStr "0");
      let res := resolution label in
      if res >? max_res then pick_best rest src res
      else pick_best rest best max_res
  end.

Definition asset_url (asset_id : json) : string :=
  "https://www.udemy.com/api-2.0/assets/" +:+ py_str asset_id +:+ "/".

Definition video_params : dict :=
  [ ("fields[asset]", JStr "stream_urls,download_urls,media_sources") ].

(** The [media_sources] branch: [Some] is its [return], [None] falls
    through to [download_urls]. *)
Definition from_media_sources (data : json) : result (option (json * json)) :=
  media_sources ← Json.get data "media_sources";
  if Json.truthy media_sources then
    srcs ← Json.iter media_sources;
    best ← pick_best srcs JNull (-1);
    if Json.truthy best then
      src ← Json.get best "src";
      label ← Json.get best "label";
      Ok (Some (src, label))
    else Ok None
  else Ok None.

Definition from_download_urls (data : json) : result (option (json * json)) :=
  download_urls ← Json.get data "download_urls";
  if Json.truthy download_urls && Json.is_dict download_urls then
    videos ← Json.get_default download_urls "Video" (JArr []);
    if Json.truthy videos then
      first ← Json.item0 videos;
      file ← Json.get first "file";
      Ok (Some (file, JStr "Download"))
    else Ok None
  else Ok None.

(** The body of the [try] block, after [data = resp.json()]. *)
Definition video_details (data : json) : result (option (json * json)) :=
  chosen ← from_media_sources data;
  match chosen with
  | Some r => Ok (Some r)
  | None => from_download_urls data
  end.

(** [_get_video_details]: the pair returned, [(None, "")] when nothing
    was found or an exception was logged. *)
Definition _get_video_details (asset_id : json) (w : world)
  : (json * json) * world :=
  let '(resp, w') :=
    http_get (Request (JStr (asset_url asset_id)) (Some video_params)) w in
  match data ← resp; video_details data with
  | Ok (Some r) => (r, w')
  | Ok None => ((JNull, JStr ""), w')
  | Raise e => ((JNull, JStr ""), log_error asset_id e w')
  end.

(** *** Lesson details *)

(** Modelled from the spec: the classes [Video], [Attachment] and
    [LessonContent] of [src.app.models], which are not among the sources;
    the fields are the keyword arguments [fetch_lesson_details] passes and
    the two lists it appends to. *)
Record Video : Type := MkVideo {
  video_id : string;
  video_url : json;
  video_order : Z;
  video_title : string;
  video_size : Z;
  video_duration : json
}.

Record Attachment : Type := MkAttachment {
  attachment_id : string;
  attachment_url : json;
  attachment_filename : json;
  attachment_order : Z;
  attachment_extension : string;
  attachment_size : Z
}.

Record LessonContent : Type := MkContent {
  videos : list Video;
  attachments : list Attachment
}.

Definition attachment_params : dict := [ ("fields[asset]", JStr "download_urls") ].

(** The body of the [try] block of [_get_attachment_url], after
    [data = resp.json()]. *)
Definition attachment_file (data : json) : result json :=
  d_urls ← Json.get data "download_urls";
  if Json.truthy d_urls && Json.is_dict d_urls then
    files ← Json.get_default d_urls "File" (JArr []);
    if Json.truthy files then
      first ← Json.item0 files;
      Json.get first "file"
    else Ok JNull
  else Ok JNull.

(** [_get_attachment_url]: every exception is swallowed, nothing is
    logged. *)
Definition _get_attachment_url (asset_id : json) (w : world) : json * world :=
  let '(resp, w') :=
    http_get (Request (JStr (asset_url asset_id)) (Some attachment_params)) w in
  match data ← resp; attachment_file data with
  | Ok u => (u, w')
  | Raise _ => (JNull, w')
  end.

(** [filename.split(".")[-1] if "." in filename else ""] *)
Definition extension_of (filename : json) : result string :=
  dotted ← Json.has_str "." filename;
  if dotted : bool then
    parts ← str_split filename ".";
    match last parts with
    | Some ext => Ok ext
    | None => Raise IndexError
    end
  else Ok EmptyString.

(** [x or 0] *)
Definition or_zero (v : json) : json := if Json.truthy v then v else JNum 0.

(** The video block of [fetch_lesson_details]: the videos appended. *)
Definition lesson_videos (lesson : Lesson) (w : world) : result (list Video) * world :=
  let asset := lesson_asset lesson in
  if Json.truthy asset then
    match Json.get asset "asset_type" with
    | Raise e => (Raise e, w)
    | Ok asset_type =>
        if Json.eq_str asset_type "Video" then
          match Json.get asset "id", Json.get_default asset "time_estimation" (JNum 0) with
          | Ok asset_id, Ok estimation =>
              if Json.truthy asset_id then
                let '((video_url, quality), w') := _get_video_details asset_id w in
                if Json.truthy video_url then
                  (Ok [MkVideo (py_str asset_id) video_url 1
                               (py_str (lesson_name lesson) +:+ " - " +:+ py_str quality)
                               0 (or_zero estimation)], w')
                else (Ok [], w')
              else (Ok [], w)
          | Raise e, _ => (Raise e, w)
          | _, Raise e => (Raise e, w)
          end
        else (Ok [], w)
    end
  else (Ok [], w).

(** The [for idx, supp in enumerate(supp_assets, 1)] loop: [done] is
    [content.attachments] so far. *)
Fixpoint lesson_attachments (supp_assets : list json) (idx : Z)
         (done : list Attachment) (w : world) : result (list Attachment) * world :=
  match supp_assets with
  | [] => (Ok done, w)
  | supp :: rest =>
      match Json.get supp "asset_type" with
      | Raise e => (Raise e, w)
      | Ok asset_type =>
          if Json.eq_str asset_type "File" then
            match Json.get supp "id", Json.get supp "filename" with
            | Ok supp_id, Ok filename =>
                let '(u, w') := _get_attachment_url supp_id w in
                if Json.truthy u then
                  match extension_of filename with
                  | Raise e => (Raise e, w')
                  | Ok extension =>
                      lesson_attachments rest (idx + 1)
                        (done ++ [MkAttachment (py_str supp_id) u filename idx
                                               extension 0]) w'
                  end
                else lesson_attachments rest (idx + 1) done w'
            | Raise e, _ => (Raise e, w)
            | _, Raise e => (Raise e, w)
            end
          else lesson_attachments rest (idx + 1) done w
      end
  end.

(** [fetch_lesson_details] on a lesson of the tree ([course_slug],
    [course_id] and [module_id] are not read). *)
Definition fetch_lesson_details (lesson : Lesson) (w : world)
  : result LessonContent * world :=
  match lesson_videos lesson w with
  | (Raise e, w1) => (Raise e, w1)
  | (Ok vs, w1) =>
      match Json.iter (lesson_supplementary_assets lesson) with
      | Raise e => (Raise e, w1)
      | Ok supp_assets =>
          match lesson_attachments supp_assets 1 [] w1 with
          | (Raise e, w2) => (Raise e, w2)
          | (Ok atts, w2) => (Ok (MkContent vs atts), w2)
          end
      end
  end.

End UdemyPlatform.

(** ** [ProgressView] *)

Module ProgressView.

(** What the methods of the view read and write: the text of
    [progress_label], whether [cancel_button] is enabled, the value last
    handed to [progress_bar], the lines appended to [log_output], the
    number of emissions of [cancel_requested] (its slots are outside the
    class), and the two counters. *)
Record view : Type := View {
  progress_label : string;
  cancel_button : bool;
  progress_bar : Z;
  log_output : list string;
  cancel_requested : nat;
  _total_lessons : Z;
  _completed_lessons : Z
}.

(** [__init__] *)
Definition init : view := View "0 de 0 aulas" false 0 [] 0 0 0.

Definition log_message (message : string) (v : view) : view :=
  View (progress_label v) (cancel_button v) (progress_bar v)
       (log_output v ++ [message]) (cancel_requested v)
       (_total_lessons v) (_completed_lessons v).

Definition _on_cancel_clicked (v : view) : view :=
  log_message "🛑 Cancelamento solicitado..."
    (View (progress_label v) false (progress_bar v) (log_output v)
          (S (cancel_requested v)) (_total_lessons v) (_completed_lessons v)).

Definition set_progress (value : Z) (v : view) : view :=
  View (progress_label v) (cancel_button v) value (log_output v)
       (cancel_requested v) (_total_lessons v) (_completed_lessons v).

(** [f"{self._completed_lessons} de {self._total_lessons} aulas"] *)
Definition label_text (completed total : Z) : string :=
  Repr.decimal completed +:+ " de " +:+ Repr.decimal total +:+ " aulas".

Definition update_progress_label (v : view) : view :=
  View (label_text (_completed_lessons v) (_total_lessons v))
       (cancel_button v) (progress_bar v) (log_output v) (cancel_requested v)
       (_total_lessons v) (_completed_lessons v).

Definition set_total_lessons (total : Z) (v : view) : view :=
  update_progress_label
    (View (progress_label v) (cancel_button v) (progress_bar v) (log_output v)
          (cancel_requested v) total 0).

Definition increment_completed_lessons (v : view) : view :=
  update_progress_label
    (View (progress_label v) (cancel_button v) (progress_bar v) (log_output v)
          (cancel_requested v) (_total_lessons v) (_completed_lessons v + 1)).

Definition set_download_active (active : bool) (v : view) : view :=
  View (progress_label v) active (progress_bar v) (log_output v)
       (cancel_requested v) (_total_lessons v) (_completed_lessons v).

(** A call of a method of the view, and a sequence of calls on it. *)
Inductive call : Type :=
| OnCancelClicked
| LogMessage (message : string)
| SetProgress (value : Z)
| SetTotalLessons (total : Z)
| IncrementCompletedLessons
| UpdateProgressLabel
| SetDownloadActive (active : bool).

Definition dispatch (v : view) (c : call) : view :=
  match c with
  | OnCancelClicked => _on_cancel_clicked v
  | LogMessage message => log_message message v
  | SetProgress value => set_progress value v
  | SetTotalLessons total => set_total_lessons total v
  | IncrementCompletedLessons => increment_completed_lessons v
  | UpdateProgressLabel => update_progress_label v
  | SetDownloadActive active => set_download_active active v
  end.

Definition run (calls : list call) (v : view) : view := fold_left dispatch calls v.

Definition is_increment (c : call) : bool :=
  match c with IncrementCompletedLessons => true | _ => false end.

Definition is_reset (c : call) : bool :=
  match c with SetTotalLessons _ => true | _ => false end.

End ProgressView.

(** ** Vocabulary of the statements *)

(** *** Cookie headers *)

Fixpoint all_space (s : string) : Prop :=
  match s with
  | EmptyString => True
  | String a s' => Py.is_space a = true /\ all_space s'
  end.

(** A cookie is present in a header when its name, followed by [=], stands
    at the start of the header or after a [;], up to whitespace. *)
Definition cookie_present (name cookie_header : string) : Prop :=
  exists before ws after,
    cookie_header = before +:+ ws +:+ name +:+ "=" +:+ after
    /\ (before = "" \/ exists b, before = b +:+ ";")
    /\ all_space ws.

(** A name the check can look for: no [;] inside, and a first character
    that [strip] keeps. *)
Definition plain_name (name : string) : Prop :=
  Py.mem ";" name = false
  /\ exists c rest, name = String c rest /\ Py.is_space c = false.

(** A cookie of the browser's jar, name and value: the name has no [;]
    and no [=] and starts with a character [strip] keeps, the value has
    no [;]. *)
Definition cookie_ok (c : string * string) : Prop :=
  plain_name (fst c) /\ Py.mem "=" (fst c) = false /\ Py.mem ";" (snd c) = false.

(** [f"{c['name']}={c['value']}"] *)
Definition cookie_pair (c : string * string) : string := fst c +:+ "=" +:+ snd c.

(** A complete jar with one more cookie, and the same jar in another
    order. *)
Definition jar : list (string * string) :=
  [("csrftoken", "x"); ("ud_cache_user", "y"); ("cf_clearance", "z");
   ("dj_session_id", "w"); ("ud_locale", "en_US")].

Definition jar_reordered : list (string * string) :=
  [("ud_locale", "en_US"); ("dj_session_id", "w"); ("cf_clearance", "z");
   ("ud_cache_user", "y"); ("csrftoken", "x")].

(** *** Headers *)

(** The headers [authenticate] writes first. *)
Definition base_headers (default_headers : headers) (user_agent : string) : headers :=
  set_header "Sec-GPC" (JStr "1")
    (set_header "Accept-Language" (JStr "pt-BR")
       (set_header "Referer" (JStr "https://www.udemy.com/home/my-courses/learning/")
          (set_header "User-Agent" (JStr user_agent) default_headers))).

(** The four headers every cookie session gets. *)
Definition cookie_headers (cookie_content : json) (h : headers) : headers :=
  set_header "X-Udemy-Cache-Logged-In" (JStr "1")
    (set_header "Accept" (JStr "application/json, text/plain, */*")
       (set_header "X-Requested-With" (JStr "XMLHttpRequest")
          (set_header "Cookie" cookie_content h))).

(** The names of the headers [authenticate] writes first. *)
Definition base_names : list string :=
  ["User-Agent"; "Referer"; "Accept-Language"; "Sec-GPC"].

(** The names of the four headers every cookie session gets. *)
Definition cookie_names : list string :=
  ["Cookie"; "X-Requested-With"; "Accept"; "X-Udemy-Cache-Logged-In"].

(** Every header but the named ones reads as before; header names are
    compared without case, as the session compares them. *)
Definition untouched (names : list string) (before after : headers) : Prop :=
  forall name, ~ In (Py.lower name) (map Py.lower names) ->
               header name after = header name before.

Definition spec_cookie : string :=
  "csrftoken=x; ud_cache_user=y; cf_clearance=z; dj_session_id=w".

(** The decoded payload with [token_type] "cookie" and that cookie. *)
Definition spec_payload : json :=
  JObj [("token_type", JStr "cookie"); ("cookie", JStr spec_cookie)].

(** A decoder that knows one document. *)
Definition loads_payload (s : string) : result json :=
  if String.eqb s "payload" then Ok spec_payload else Raise ValueError.

(** *** Pages *)

(** The envelope of a page. *)
Definition page_next (d : dict) : json := Json.dict_get d "next" JNull.

Definition page_results (d : dict) : json := Json.dict_get d "results" (JArr []).

(** The rows of a page whose [results] is a list (or is absent). *)
Definition rows (d : dict) : list json :=
  match page_results d with
  | JArr l => l
  | _ => []
  end.

Definition has_rows (d : dict) : Prop := exists l, page_results d = JArr l.

Definition all_rows (pages : list dict) : list json := concat (map rows pages).

(** [next] is a URL: the crawl goes on. *)
Definition continues (d : dict) : Prop :=
  exists u, page_next d = JStr u /\ u <> "".

(** [next] is null, absent, or another falsy value: the crawl stops. *)
Definition ends (d : dict) : Prop := Json.truthy (page_next d) = false.

(** The responses of a server that answers with these pages. *)
Definition bodies (pages : list dict) : list (result json) :=
  map (fun d => Ok (JObj d)) pages.

(** The request [fetch_courses] sends for a URL. *)
Definition listing_request (url : string) : request :=
  Request (JStr url)
          (if Py.contains "api-2.0/users/me/subscribed-courses/" url
              && negb (Py.contains "page=" url)
           then Some listing_params else None).

Definition next_url (d : dict) : string :=
  match page_next d with
  | JStr u => u
  | _ => ""
  end.

Definition page (results : list json) (next : json) : dict :=
  [("results", JArr results); ("next", next)].

(** Two cursor URLs a listing page may carry, and a row of the listing. *)
Definition cursor_without_page : string :=
  "https://www.udemy.com/api-2.0/users/me/subscribed-courses/?cursor=abc".

Definition cursor_with_page : string :=
  "https://www.udemy.com/api-2.0/users/me/subscribed-courses/?page=2&page_size=100".

Definition course_row (url : json) : json :=
  JObj [("id", JNum 7); ("title", JStr "Python"); ("url", url);
        ("image_480x270", JStr "https://img/7.jpg")].

(** *** Curriculum items *)

Definition is_chapter (item : dict) : bool :=
  Json.eq_str (Json.dict_get item "_class" JNull) "chapter".

Definition is_lecture (item : dict) : bool :=
  Json.eq_str (Json.dict_get item "_class" JNull) "lecture".

(** The lessons of the lecture items of a feed, in feed order. *)
Definition lessons_of (items : list dict) : list Lesson :=
  map lesson_of (List.filter is_lecture items).

Definition with_lessons (m : ModuleEntry) (ls : list Lesson) : ModuleEntry :=
  MkModule (module_id m) (module_name m) (module_lessons m ++ ls).

(** [current_module] after the modules gained a prefix. *)
Definition shift (n : nat) (current : option nat) : option nat :=
  (fun i => (n + i)%nat) <$> current.

Definition feed_item (class : string) (id : Z) (title : string) : dict :=
  [("_class", JStr class); ("id", JNum id); ("title", JStr title)].

Definition java : Course :=
  MkCourse "42" (JStr "Java") "https://www.udemy.com/course/java/" JNull "java".

Definition rust : Course :=
  MkCourse "43" (JStr "Rust") "https://www.udemy.com/course/rust/" JNull "rust".

(** *** Media sources *)

(** A label that is absent, not a string, or not an integer literal once
    its "p" are removed. *)
Definition label_unusable (e : dict) : Prop :=
  match Json.assoc "label" e with
  | None => True
  | Some (JStr s) => Py.int (Py.replace "p" "" s) = None
  | Some _ => True
  end.

Definition source (label url : string) : dict :=
  [("label", JStr label); ("src", JStr url)].

(** *** The shape of a tree *)

(** The items before the first chapter. *)
Fixpoint leading (items : list dict) : list dict :=
  match items with
  | [] => []
  | it :: rest => if is_chapter it then [] else it :: leading rest
  end.

(** One module per chapter item, holding the lectures that follow it up to
    the next chapter. *)
Fixpoint chapters_tree (items : list dict) : list ModuleEntry :=
  match items with
  | [] => []
  | it :: rest =>
      if is_chapter it
      then with_lessons (chapter_module it) (lessons_of (leading rest))
             :: chapters_tree rest
      else chapters_tree rest
  end.

(** The module in front of the chapters: the default module of a feed
    without chapter, the startup module when lectures come first. *)
Definition head_modules (course : Course) (items : list dict) : list ModuleEntry :=
  if existsb is_chapter items then
    match lessons_of (leading items) with
    | [] => []
    | ls => [with_lessons (startup_module course) ls]
    end
  else [with_lessons (default_module course) (lessons_of items)].

(** An item the builder interprets. *)
Definition interpreted (item : dict) : bool := is_chapter item || is_lecture item.

(** A feed with a quiz, and the same feed cut by a string where an item
    should be. *)
Definition feed_with_quiz : list dict :=
  [feed_item "chapter" 1 "Basics"; feed_item "lecture" 2 "Hello";
   feed_item "quiz" 3 "Check"; feed_item "lecture" 4 "Loops";
   feed_item "chapter" 5 "More"; feed_item "lecture" 6 "Traits"].

Definition feed_world (items : list json) : world :=
  World [Ok (JObj (page items JNull))] [] [].

(** The world after the one request of a one-page curriculum of java. *)
Definition java_fetched : world :=
  World [] [Request (JStr (curriculum_url "42")) (Some curriculum_params)] [].

Definition cut_after_chapter : list json :=
  map JObj [feed_item "chapter" 1 "Basics"; feed_item "lecture" 2 "Hello"]
    ++ JStr "oops" :: [JObj (feed_item "lecture" 4 "Loops")].

Definition cut_before_chapter : list json :=
  map JObj [feed_item "lecture" 2 "Hello"]
    ++ JNum 0 :: [JObj (feed_item "chapter" 3 "Basics")].

(** *** Course URLs *)

(** A path segment: not empty, no [/] inside. *)
Definition segment (s : string) : Prop := s <> "" /\ Py.mem "/" s = false.

(** *** Lessons *)

Definition is_file (supp : dict) : bool :=
  Json.eq_str (Json.dict_get supp "asset_type" JNull) "File".

Definition is_video (asset : dict) : bool :=
  Json.eq_str (Json.dict_get asset "asset_type" JNull) "Video".

(** The request [_get_attachment_url] sends for a supplementary asset. *)
Definition attachment_request (supp : dict) : request :=
  Request (JStr (asset_url (Json.dict_get supp "id" JNull))) (Some attachment_params).

Definition video_request (asset : dict) : request :=
  Request (JStr (asset_url (Json.dict_get asset "id" JNull))) (Some video_params).

(** The video request of a lesson, if it makes one. *)
Definition video_requests (asset : json) : list request :=
  match asset with
  | JObj a =>
      if is_video a && Json.truthy (Json.dict_get a "id" JNull)
      then [video_request a] else []
  | _ => []
  end.

(** A supplementary asset whose filename is a string. *)
Definition named (supp : dict) : Prop :=
  exists s, Json.dict_get supp "filename" JNull = JStr s.

(** An attachment and the supplementary asset it was built from: the
    asset at the position the attachment's order names, counted from 1. *)
Definition attachment_from (supp_assets : list json) (a : Attachment) : Prop :=
  1 <= attachment_order a
  /\ exists supp,
       supp_assets !! Z.to_nat (attachment_order a - 1) = Some (JObj supp)
       /\ is_file supp = true
       /\ attachment_id a = py_str (Json.dict_get supp "id" JNull)
       /\ attachment_filename a = Json.dict_get supp "filename" JNull
       /\ Json.truthy (attachment_url a) = true.

(** A lesson with a video, a link and two files, and the answers to its
    three requests. *)
Definition lesson_with_files : Lesson :=
  MkLesson "7" (JStr "Intro")
    (JObj [("asset_type", JStr "Video"); ("id", JNum 11)])
    (JArr [JObj [("asset_type", JStr "File"); ("id", JNum 21);
                 ("filename", JStr "slides.tar.gz")];
           JObj [("asset_type", JStr "ExternalLink"); ("id", JNum 22)];
           JObj [("asset_type", JStr "File"); ("id", JNum 23);
                 ("filename", JStr "README")]]).

Definition file_answer (u : string) : result json :=
  Ok (JObj [("download_urls", JObj [("File", JArr [JObj [("file", JStr u)]])])]).

Definition lesson_world : world :=
  World [Ok (JObj [("media_sources",
                    JArr [JObj [("src", JStr "v.m3u8"); ("label", JStr "720p")]])]);
         file_answer "a"; file_answer "b"] [] [].

(** *** Serialised payloads *)

(** A serialiser and a decoder that agree on one document. *)
Definition dumps_one (v : json) : string := "payload".

Definition loads_one (v : json) (s : string) : result json :=
  if String.eqb s "payload" then Ok v else Raise ValueError.

(** * Proofs *)

(** ** The bind of [result] *)

Lemma bind_ok {A B} (a : A) (f : A -> result B) : (Ok a ≫= f) = f a.
Proof. reflexivity. Qed.

Lemma bind_raise {A B} (e : exn) (f : A -> result B) : (Raise e ≫= f) = Raise e.
Proof. reflexivity. Qed.

(** ** Strings *)

Lemma app_cons (x : ascii) (a b : string) :
  String x a +:+ b = String x (a +:+ b).
Proof. reflexivity. Qed.

Lemma app_nil_l (a : string) : "" +:+ a = a.
Proof. reflexivity. Qed.

(** [String.append] does not unfold under [simpl]; [sapp] pushes it inside. *)
Ltac sapp := rewrite ?app_cons, ?app_nil_l in *.

Section Strings.


Lemma app_assoc_s (a b c : string) : (a +:+ b) +:+ c = a +:+ (b +:+ c).
Proof.
  induction a as [|x a IH]; [reflexivity|]. rewrite !app_cons. now f_equal.
Qed.

Lemma app_nil_r_s (a : string) : a +:+ "" = a.
Proof.
  induction a as [|x a IH]; [reflexivity|]. rewrite app_cons. now f_equal.
Qed.

Lemma prefix_app (p t : string) : String.prefix p (p +:+ t) = true.
Proof.
  induction p as [|x p IH]; sapp; simpl; [now destruct t|].
  destruct (ascii_dec x x); [exact IH | congruence].
Qed.

Lemma prefix_inv (p s : string) :
  String.prefix p s = true -> exists t, s = p +:+ t.
Proof.
  revert s. induction p as [|x p IH]; intros s H.
  - now exists s.
  - destruct s as [|y s]; simpl in H; [discriminate|].
    destruct (ascii_dec x y) as [->|]; [|discriminate].
    destruct (IH _ H) as [t ->]. now exists t.
Qed.

Lemma prefix_nonempty (p s : string) :
  p <> "" -> String.prefix p s = true -> s <> "".
Proof. intros Hp H ->. destruct p; [congruence | discriminate]. Qed.

(** [lstrip] removes a run of matching characters. *)
Lemma lstrip_split (s : string) :
  exists ws, s = ws +:+ Py.lstrip Py.is_space s /\ all_space ws.
Proof.
  induction s as [|a s (ws & Heq & Hws)]; [now exists ""|].
  simpl. destruct (Py.is_space a) eqn:Ha.
  - exists (String a ws). sapp. split; [now rewrite <- Heq | now split].
  - now exists "".
Qed.

Lemma lstrip_all_space (ws s : string) :
  all_space ws -> Py.lstrip Py.is_space (ws +:+ s) = Py.lstrip Py.is_space s.
Proof.
  induction ws as [|a ws IH]; [reflexivity|]. intros [Ha Hws].
  sapp. simpl. rewrite Ha. now apply IH.
Qed.

(** [rstrip] keeps a prefix. *)
Lemma rstrip_split (p : ascii -> bool) (s : string) :
  exists ws, s = Py.rstrip p s +:+ ws.
Proof.
  induction s as [|a s (ws & Heq)]; [now exists ""|].
  simpl. destruct (Py.rstrip p s) as [|b r] eqn:Hr.
  - destruct (p a).
    + now exists (String a s).
    + exists s. reflexivity.
  - exists ws. sapp. now rewrite <- Heq.
Qed.

(** [rstrip] does not cut into a prefix that ends with a character it
    keeps. *)
Lemma rstrip_keeps_prefix (p : ascii -> bool) (q : string) (c : ascii) (t : string) :
  p c = false ->
  String.prefix (q +:+ String c "") (Py.rstrip p (q +:+ String c t)) = true.
Proof.
  intros Hc. induction q as [|a q IH]; sapp.
  - simpl. destruct (Py.rstrip p t) as [|b r]; [rewrite Hc|]; simpl;
      destruct (ascii_dec c c); try congruence; try reflexivity.
  - simpl Py.rstrip.
    destruct (Py.rstrip p (q +:+ String c t)) as [|b r] eqn:Hr.
    + destruct q; discriminate.
    + simpl. destruct (ascii_dec a a); [exact IH | congruence].
Qed.

(** Splitting at a separator splits the pieces. *)
Lemma split_nonempty (sep : ascii) (s : string) : Py.split sep s <> [].
Proof.
  induction s as [|a s IH]; simpl; [discriminate|].
  destruct (Ascii.eqb a sep); [discriminate|].
  destruct (Py.split sep s); [congruence | discriminate].
Qed.

Lemma split_app_sep (sep : ascii) (b t : string) :
  Py.split sep (b +:+ String sep t) = Py.split sep b ++ Py.split sep t.
Proof.
  induction b as [|a b IH]; sapp; simpl.
  - now rewrite Ascii.eqb_refl.
  - destruct (Ascii.eqb a sep); [now rewrite IH|].
    rewrite IH. destruct (Py.split sep b) eqn:Hb; [|reflexivity].
    now apply split_nonempty in Hb.
Qed.

(** A string without the separator stays in the first piece. *)
Lemma split_app_head (sep : ascii) (x t : string) :
  Py.mem sep x = false ->
  exists h tl, Py.split sep (x +:+ t) = (x +:+ h) :: tl.
Proof.
  induction x as [|a x IH]; sapp; simpl; intros Hx.
  - destruct (Py.split sep t) as [|h tl] eqn:Ht; [now apply split_nonempty in Ht|].
    now exists h, tl.
  - apply orb_false_iff in Hx as [Ha Hx]. rewrite Ascii.eqb_sym in Ha.
    rewrite Ha. destruct (IH Hx) as (h & tl & ->). now exists h, tl.
Qed.

(** The first piece starts the string; every later piece follows a
    separator. *)
Lemma split_cons_inv (sep : ascii) (s h : string) (tl : list string) :
  Py.split sep s = h :: tl ->
  (exists after, s = h +:+ after)
  /\ (forall seg, In seg tl ->
        exists b after, s = b +:+ String sep (seg +:+ after)).
Proof.
  revert h tl. induction s as [|a s IH]; simpl; intros h tl Hs.
  - inversion Hs; subst. split; [now exists ""|]. intros seg [].
  - destruct (Py.split sep s) as [|h' tl'] eqn:Hs'; [now apply split_nonempty in Hs'|].
    destruct (IH _ _ eq_refl) as [[after' Hhd] Htl].
    destruct (Ascii.eqb_spec a sep) as [->|Hne]; inversion Hs; subst h tl; clear Hs.
    + split; [now exists (String sep s)|].
      intros seg [<-|Hin].
      * exists "", after'. sapp. now rewrite <- Hhd.
      * destruct (Htl _ Hin) as (b & after & ->). now exists (String sep b), after.
    + split; [exists after'; sapp; now rewrite <- Hhd|].
      intros seg Hin. destruct (Htl _ Hin) as (b & after & ->).
      now exists (String a b), after.
Qed.

Lemma split_elem (sep : ascii) (s seg : string) :
  In seg (Py.split sep s) ->
  exists before after,
    s = before +:+ seg +:+ after
    /\ (before = "" \/ exists b, before = b +:+ String sep "").
Proof.
  destruct (Py.split sep s) as [|h tl] eqn:Hs; [intros []|].
  destruct (split_cons_inv _ _ _ _ Hs) as [[after Hhd] Htl].
  intros [<-|Hin].
  - exists "", after. auto.
  - destruct (Htl _ Hin) as (b & after' & ->).
    exists (b +:+ String sep ""), after'. split; [|right; now exists b].
    now rewrite app_assoc_s.
Qed.

Lemma mem_app (c : ascii) (a b : string) :
  Py.mem c (a +:+ b) = Py.mem c a || Py.mem c b.
Proof.
  induction a as [|x a IH]; [reflexivity|]. sapp. simpl.
  now rewrite IH, orb_assoc.
Qed.

Lemma all_space_no_semicolon (ws : string) :
  all_space ws -> Py.mem ";" ws = false.
Proof.
  induction ws as [|a ws IH]; [reflexivity|]. intros [Ha Hws].
  change (Py.mem ";" (String a ws)) with (Ascii.eqb ";" a || Py.mem ";" ws).
  rewrite (IH Hws), orb_false_r.
  destruct (Ascii.eqb_spec ";" a) as [<-|]; [discriminate Ha | reflexivity].
Qed.

End Strings.

(** * The required-cookie check *)

Section RequiredCookies.

Import UdemyTokenFetcher.

Lemma in_cookie_parts (cookie_header part : string) :
  In part (cookie_parts cookie_header) <->
  part <> "" /\ exists seg, In seg (Py.split ";" cookie_header) /\ part = Py.strip seg.
Proof.
  unfold cookie_parts. rewrite filter_In, in_map_iff, negb_true_iff.
  rewrite String.eqb_neq. split.
  - intros [(seg & <- & Hin) Hne]. eauto.
  - intros [Hne (seg & Hin & ->)]. eauto.
Qed.

(** The code finds a part starting with [name=] exactly when the header
    carries the name, followed by [=], at its start or after a [;], up to
    whitespace. *)
Lemma any_startswith_present (name cookie_header : string) :
  plain_name name ->
  any_startswith name (cookie_parts cookie_header) = true <->
  cookie_present name cookie_header.
Proof.
  intros [Hsemi (c & rest & Hname & Hc)]. unfold any_startswith.
  rewrite existsb_exists. split.
  - intros (part & Hin & Hpre). apply in_cookie_parts in Hin as [_ (seg & Hin & ->)].
    unfold Py.startswith, Py.strip, Py.strip_by in Hpre.
    destruct (lstrip_split seg) as (ws & Hseg & Hws).
    destruct (rstrip_split Py.is_space (Py.lstrip Py.is_space seg)) as (ws' & Hl).
    apply prefix_inv in Hpre as [t Ht].
    apply split_elem in Hin as (before & after & Hh & Hb).
    exists before, ws, (t +:+ ws' +:+ after). split; [|auto].
    rewrite Hh, Hseg, Hl, Ht. now rewrite !app_assoc_s.
  - intros (before & ws & after & Hh & Hb & Hws).
    set (x := ws +:+ name +:+ "=").
    assert (Hx : Py.mem ";" x = false).
    { unfold x. rewrite !mem_app, Hsemi, (all_space_no_semicolon _ Hws). reflexivity. }
    destruct (split_app_head ";" x after Hx) as (h0 & tl & Hsplit).
    assert (Hin : In (x +:+ h0) (Py.split ";" cookie_header)).
    { assert (Hh' : cookie_header = before +:+ x +:+ after).
      { rewrite Hh. unfold x. now rewrite !app_assoc_s. }
      destruct Hb as [->|[b ->]].
      - rewrite Hh'. sapp. rewrite Hsplit. now left.
      - rewrite Hh', app_assoc_s. sapp. rewrite split_app_sep, Hsplit.
        apply in_or_app. right. now left. }
    assert (Hstrip : String.prefix (name +:+ "=") (Py.strip (x +:+ h0)) = true).
    { unfold Py.strip, Py.strip_by, x. rewrite !app_assoc_s.
      rewrite lstrip_all_space by assumption.
      rewrite Hname. sapp. simpl Py.lstrip. rewrite Hc.
      rewrite <- !app_cons, <- Hname. apply rstrip_keeps_prefix. reflexivity. }
    exists (Py.strip (x +:+ h0)). split; [|exact Hstrip].
    apply in_cookie_parts. split; [|eauto].
    eapply prefix_nonempty; [|exact Hstrip]. rewrite Hname. discriminate.
Qed.

Lemma check_required_forall (reqs parts : list string) :
  check_required reqs parts = true <->
  forall req, In req reqs -> any_startswith req parts = true.
Proof.
  induction reqs as [|r reqs IH]; simpl.
  - split; [intros _ ? [] | reflexivity].
  - destruct (any_startswith r parts) eqn:Hr; simpl.
    + rewrite IH. split; [intros H ? [<-|?]; auto | auto].
    + split; [discriminate|]. intros H. rewrite <- Hr. apply H. now left.
Qed.

Lemma required_plain (name : string) : In name required -> plain_name name.
Proof.
  intros H. repeat (destruct H as [<-|H]; [split; [reflexivity|eauto]|]).
  destruct H.
Qed.

(** The check on an arbitrary header. *)
Lemma has_required_cookies_true (cookie_header : string) :
  _has_required_cookies cookie_header = true <->
  forall name, In name required -> cookie_present name cookie_header.
Proof.
  unfold _has_required_cookies. rewrite check_required_forall.
  split; intros H name Hin; specialize (H name Hin);
    now apply (any_startswith_present _ _ (required_plain _ Hin)).
Qed.

Lemma check_required_false (reqs parts : list string) :
  check_required reqs parts = false ->
  exists req, In req reqs /\ any_startswith req parts = false.
Proof.
  induction reqs as [|r reqs IH]; simpl; [discriminate|].
  destruct (any_startswith r parts) eqn:Hr; simpl.
  - intros H. destruct (IH H) as (n & Hn & Hn'). eauto.
  - eauto.
Qed.

Lemma split_no_sep (sep : ascii) (x : string) :
  Py.mem sep x = false -> Py.split sep x = [x].
Proof.
  induction x as [|a x IH]; [reflexivity|].
  change (Py.mem sep (String a x)) with (Ascii.eqb sep a || Py.mem sep x).
  intros H. apply orb_false_iff in H as [Ha Hx]. cbn [Py.split].
  rewrite Ascii.eqb_sym, Ha, (IH Hx). reflexivity.
Qed.

Lemma split_first (sep : ascii) (x t : string) :
  Py.mem sep x = false ->
  Py.split sep (x +:+ String sep t) = x :: Py.split sep t.
Proof. intros Hx. now rewrite split_app_sep, (split_no_sep _ _ Hx). Qed.

Lemma cookie_pair_no_semicolon (c : string * string) :
  cookie_ok c -> Py.mem ";" (cookie_pair c) = false.
Proof.
  intros [[Hk _] [_ Hv]]. unfold cookie_pair. rewrite !mem_app, Hk, Hv. reflexivity.
Qed.

(** The pieces of the joined string are the cookies, each after the first
    with the space of the separator in front. *)
Lemma split_cookie_str (c : string * string) (jar : list (string * string)) :
  Forall cookie_ok (c :: jar) ->
  Py.split ";" (cookie_str (c :: jar)) =
  cookie_pair c :: map (fun c' => " " +:+ cookie_pair c') jar.
Proof.
  revert c. induction jar as [|c' jar IH]; intros c Hok.
  - apply Forall_cons in Hok as [Hc _]. unfold cookie_str. cbn [map Py.join].
    now apply split_no_sep, cookie_pair_no_semicolon.
  - apply Forall_cons in Hok as [Hc Hok]. unfold cookie_str in *.
    cbn [map Py.join] in *. fold (cookie_pair c).
    change ("; " +:+ ?t) with (String ";" (" " +:+ t)).
    rewrite split_first by now apply cookie_pair_no_semicolon.
    f_equal.
    change (" " +:+ ?t) with (String " " t).
    specialize (IH c' Hok). cbn [map] in IH |- *.
    destruct (map (fun c0 => fst c0 +:+ "=" +:+ snd c0) jar) as [|p ps] eqn:Hm.
    + cbn [Py.split]. change (Ascii.eqb " " ";") with false. cbn iota.
      cbn [Py.join] in IH. fold (cookie_pair c') in *. rewrite IH.
      destruct jar; [reflexivity | discriminate].
    + cbn [Py.split]. change (Ascii.eqb " " ";") with false. cbn iota.
      fold (cookie_pair c') in *. rewrite IH. reflexivity.
Qed.

Lemma strip_leading_space (x : string) : Py.strip (" " +:+ x) = Py.strip x.
Proof. reflexivity. Qed.

(** [strip] keeps the name and the [=] of a cookie. *)
Lemma strip_cookie_pair (c : string * string) :
  cookie_ok c -> exists t, Py.strip (cookie_pair c) = fst c +:+ "=" +:+ t.
Proof.
  intros [[_ (a & rest & Hname & Ha)] _]. unfold Py.strip, Py.strip_by, cookie_pair.
  rewrite Hname. sapp. simpl Py.lstrip. rewrite Ha.
  rewrite <- !app_cons.
  pose proof (rstrip_keeps_prefix Py.is_space (String a rest) "=" (snd c) eq_refl) as H.
  apply prefix_inv in H as [t Ht].
  change (String a rest +:+ "=" +:+ snd c) with (String a rest +:+ String "=" (snd c)).
  rewrite Ht. exists t. now rewrite app_assoc_s.
Qed.

Lemma cookie_parts_cookie_str (jar : list (string * string)) :
  Forall cookie_ok jar ->
  cookie_parts (cookie_str jar) = map (fun c => Py.strip (cookie_pair c)) jar.
Proof.
  intros Hok. destruct jar as [|c jar]; [reflexivity|].
  unfold cookie_parts. rewrite (split_cookie_str _ _ Hok).
  change (map Py.strip (cookie_pair c :: ?l))
    with (Py.strip (cookie_pair c) :: map Py.strip l).
  rewrite map_map.
  assert (Hkeep : forall l : list (string * string), Forall cookie_ok l ->
            List.filter (fun part => negb (String.eqb part ""))
                        (map (fun c' => Py.strip (cookie_pair c')) l)
            = map (fun c' => Py.strip (cookie_pair c')) l).
  { induction 1 as [|x l Hx _ IH]; [reflexivity|]. cbn [map List.filter].
    destruct (strip_cookie_pair x Hx) as [t Ht]. rewrite Ht at 1.
    destruct Hx as [[_ (a & rest & Hname & _)] _]. rewrite Hname at 1. sapp.
    cbn [String.eqb negb]. now rewrite IH. }
  rewrite <- (Hkeep (c :: jar) Hok) at 1. f_equal.
Qed.

(** Two names without [=] that start the same cookie are the same. *)
Lemma name_of_prefix (n k t : string) :
  Py.mem "=" n = false -> Py.mem "=" k = false ->
  String.prefix (n +:+ "=") (k +:+ "=" +:+ t) = true -> n = k.
Proof.
  revert k. induction n as [|a n IH]; intros k Hn Hk H.
  - destruct k as [|b k]; [reflexivity|]. exfalso. sapp. cbn [String.prefix] in H.
    destruct (ascii_dec "=" b) as [<-|]; [|discriminate].
    change (Py.mem "=" (String "=" k)) with (Ascii.eqb "=" "=" || Py.mem "=" k) in Hk.
    discriminate Hk.
  - change (Py.mem "=" (String a n)) with (Ascii.eqb "=" a || Py.mem "=" n) in Hn.
    apply orb_false_iff in Hn as [Ha Hn].
    destruct k as [|b k]; sapp; cbn [String.prefix] in H.
    + destruct (ascii_dec a "=") as [->|]; [|discriminate]. discriminate Ha.
    + destruct (ascii_dec a b) as [->|]; [|discriminate].
      change (Py.mem "=" (String b k)) with (Ascii.eqb "=" b || Py.mem "=" k) in Hk.
      apply orb_false_iff in Hk as [_ Hk]. f_equal. now apply IH.
Qed.

(** On the cookie string of a jar the check looks the names up. *)
Lemma any_startswith_jar (name : string) (jar : list (string * string)) :
  Py.mem "=" name = false ->
  Forall cookie_ok jar ->
  any_startswith name (cookie_parts (cookie_str jar)) = true <->
  In name (map fst jar).
Proof.
  intros Hname Hok. rewrite (cookie_parts_cookie_str _ Hok).
  unfold any_startswith. rewrite existsb_exists. split.
  - intros (part & Hin & Hpre). apply in_map_iff in Hin as (c & <- & Hc).
    rewrite Forall_forall in Hok. pose proof (Hok c (proj2 (list_elem_of_In _ _) Hc)) as Hcok.
    destruct (strip_cookie_pair c Hcok) as [t Ht]. unfold Py.startswith in Hpre.
    rewrite Ht in Hpre. apply name_of_prefix in Hpre; [|assumption|apply Hcok].
    subst name. now apply in_map.
  - intros Hin. apply in_map_iff in Hin as (c & <- & Hc).
    exists (Py.strip (cookie_pair c)). split; [now apply in_map_iff; eauto|].
    rewrite Forall_forall in Hok. pose proof (Hok c (proj2 (list_elem_of_In _ _) Hc)) as Hcok.
    destruct (strip_cookie_pair c Hcok) as [t ->]. unfold Py.startswith.
    rewrite <- app_assoc_s. apply prefix_app.
Qed.

(** The cookie string built from a jar is complete exactly when the jar
    holds the four required names. *)
Lemma has_required_cookies_jar (jar : list (string * string)) :
  Forall cookie_ok jar ->
  _has_required_cookies (cookie_str jar) = true <->
  forall name, In name required -> In name (map fst jar).
Proof.
  intros Hok. unfold _has_required_cookies. rewrite check_required_forall.
  split; intros H name Hin; specialize (H name Hin);
    apply (any_startswith_jar name jar); try assumption;
    clear -Hin; unfold required in Hin;
    repeat (destruct Hin as [<-|Hin]; [reflexivity|]); destruct Hin.
Qed.

(** The order of the cookies does not matter. *)
Corollary has_required_cookies_permutation (jar jar' : list (string * string)) :
  Forall cookie_ok jar -> Permutation jar jar' ->
  _has_required_cookies (cookie_str jar') = _has_required_cookies (cookie_str jar).
Proof.
  intros Hok Hperm.
  assert (Hok' : Forall cookie_ok jar').
  { rewrite Forall_forall in *. intros c Hc. apply Hok.
    apply list_elem_of_In. apply list_elem_of_In in Hc.
    eapply Permutation_in; [symmetry|]; eassumption. }
  apply eq_true_iff_eq.
  rewrite (has_required_cookies_jar _ Hok), (has_required_cookies_jar _ Hok').
  split; intros H name Hin; specialize (H name Hin);
    (eapply Permutation_in; [|exact H]); apply Permutation_map;
    [symmetry|]; assumption.
Qed.

(** Other cookies do not matter. *)
Corollary has_required_cookies_more (jar extra : list (string * string)) :
  Forall cookie_ok (extra ++ jar) ->
  _has_required_cookies (cookie_str jar) = true ->
  _has_required_cookies (cookie_str (extra ++ jar)) = true.
Proof.
  intros Hok H. apply Forall_app in Hok as Hboth. destruct Hboth as [_ Hjar].
  apply (has_required_cookies_jar _ Hok). intros name Hin.
  rewrite map_app. apply in_or_app. right.
  now apply (has_required_cookies_jar _ Hjar).
Qed.


(** ** C7: the completeness check answers true exactly when
    cf_clearance, csrftoken, ud_cache_user and dj_session_id are all
    present in the header, and false exactly when one of the four is
    missing; on the cookie string of a jar the answer is the same for
    every order of the cookies, and stays true when cookies are added. *)
Theorem has_required_cookies_complete :
  (forall cookie_header,
      (_has_required_cookies cookie_header = true <->
       cookie_present "cf_clearance" cookie_header
       /\ cookie_present "csrftoken" cookie_header
       /\ cookie_present "ud_cache_user" cookie_header
       /\ cookie_present "dj_session_id" cookie_header)
      /\ (_has_required_cookies cookie_header = false <->
          ~ cookie_present "cf_clearance" cookie_header
          \/ ~ cookie_present "csrftoken" cookie_header
          \/ ~ cookie_present "ud_cache_user" cookie_header
          \/ ~ cookie_present "dj_session_id" cookie_header))
  /\ (forall cookies cookies',
        Forall cookie_ok cookies -> Permutation cookies cookies' ->
        _has_required_cookies (cookie_str cookies')
        = _has_required_cookies (cookie_str cookies))
  /\ (forall cookies extra,
        Forall cookie_ok (extra ++ cookies) ->
        _has_required_cookies (cookie_str cookies) = true ->
        _has_required_cookies (cookie_str (extra ++ cookies)) = true).
Proof.
  split; [|split].
  - intros cookie_header.
    assert (Hfour : (forall name, In name required -> cookie_present name cookie_header)
                    <-> cookie_present "cf_clearance" cookie_header
                        /\ cookie_present "csrftoken" cookie_header
                        /\ cookie_present "ud_cache_user" cookie_header
                        /\ cookie_present "dj_session_id" cookie_header).
    { unfold required. split.
      - intros H. repeat split; apply H; cbn; auto.
      - intros (H1 & H2 & H3 & H4) name [<-|[<-|[<-|[<-|[]]]]]; assumption. }
    split.
    + rewrite <- Hfour. apply has_required_cookies_true.
    + split.
      * intros Hfalse. unfold _has_required_cookies in Hfalse.
        apply check_required_false in Hfalse as (name & Hin & Hno).
        assert (Habsent : ~ cookie_present name cookie_header).
        { intros Hp.
          apply (any_startswith_present _ _ (required_plain _ Hin)) in Hp.
          congruence. }
        unfold required in Hin.
        destruct Hin as [<-|[<-|[<-|[<-|[]]]]]; auto.
      * intros Hmissing. apply not_true_iff_false. intros Ht.
        pose proof (proj1 (has_required_cookies_true cookie_header) Ht) as Hall.
        apply (proj1 Hfour) in Hall as (H1 & H2 & H3 & H4).
        destruct Hmissing as [H|[H|[H|H]]]; contradiction.
  - apply has_required_cookies_permutation.
  - apply has_required_cookies_more.
Qed.

Lemma jar_ok : Forall cookie_ok jar.
Proof.
  repeat constructor; cbn; eauto.
Qed.

(** The jar read backwards is complete; a header without dj_session_id
    is not. *)
Lemma has_required_cookies_complete_witness :
  _has_required_cookies (cookie_str jar_reordered) = true
  /\ _has_required_cookies "csrftoken=x; ud_cache_user=y; cf_clearance=z" = false.
Proof.
  destruct has_required_cookies_complete as (Hexact & Hperm & _). split.
  - rewrite (Hperm jar jar_reordered).
    + reflexivity.
    + exact jar_ok.
    + change jar_reordered with (rev jar). apply Permutation_rev.
  - apply (proj2 (Hexact "csrftoken=x; ud_cache_user=y; cf_clearance=z")).
    right. right. right. intros Hp.
    apply (any_startswith_present "dj_session_id") in Hp;
      [discriminate Hp | split; [reflexivity | eauto]].
Defined.

Example has_required_cookies_spec_cookie :
  _has_required_cookies spec_cookie = true
  /\ _has_required_cookies "csrftoken=x; ud_cache_user=y; cf_clearance=z" = false.
Proof. split; reflexivity. Qed.

End RequiredCookies.

(** ** Session building *)

Section SessionBuilding.

Import UdemyTokenFetcher.

Variable json_loads : string -> result json.

Lemma header_set_ne (name other : string) (v : json) (h : headers) :
  Py.lower other <> Py.lower name ->
  header name (set_header other v h) = header name h.
Proof. intros Hne. unfold header, set_header. now rewrite lookup_insert_ne. Qed.

Lemma header_set_eq (name : string) (v : json) (h : headers) :
  header name (set_header name v h) = Some v.
Proof. unfold header, set_header. now rewrite lookup_insert_eq. Qed.

(** A one-character needle. *)
Lemma contains_char_cons (c a : ascii) (p : string) :
  Py.contains (String c "") (String a p) =
  Ascii.eqb a c || Py.contains (String c "") p.
Proof.
  change (Py.contains (String c "") (String a p))
    with (String.prefix (String c "") (String a p) || Py.contains (String c "") p).
  f_equal. cbn [String.prefix].
  destruct (ascii_dec c a) as [->|Hne].
  - rewrite Ascii.eqb_refl. now destruct p.
  - symmetry. apply Ascii.eqb_neq. congruence.
Qed.

(** [split("=", 1)] gives two parts exactly when there is an [=]. *)
Lemma split1_has (p : string) :
  Py.contains "=" p = true ->
  exists k v, Py.split1 "=" p = [k; v] /\ p = k +:+ "=" +:+ v.
Proof.
  induction p as [|a p IH]; [discriminate|].
  rewrite contains_char_cons. cbn [Py.split1].
  destruct (Ascii.eqb_spec a "=") as [->|Hne].
  - intros _. now exists "", p.
  - cbn [orb]. intros H. destruct (IH H) as (k & v & -> & ->).
    now exists (String a k), v.
Qed.

Lemma fill_kv_ok (parts : list string) (kv : gmap string string) :
  exists kv', fill_kv parts kv = Ok kv'.
Proof.
  revert kv. induction parts as [|p parts IH]; intros kv; [now exists kv|].
  cbn [fill_kv]. destruct (Py.contains "=" p) eqn:Hp; [|apply IH].
  destruct (split1_has p Hp) as (k & v & -> & _). apply IH.
Qed.

(** A key of [kv] comes from a part that starts with the key and [=]. *)
Lemma fill_kv_lookup (parts : list string) (kv kv' : gmap string string)
      (key value : string) :
  fill_kv parts kv = Ok kv' ->
  kv' !! key = Some value ->
  kv !! key = Some value \/ any_startswith key parts = true.
Proof.
  revert kv. induction parts as [|p parts IH]; intros kv Hfill Hget.
  - inversion Hfill; subst. now left.
  - cbn [fill_kv] in Hfill.
    change (any_startswith key (p :: parts))
      with (Py.startswith p (key +:+ "=") || any_startswith key parts).
    destruct (Py.contains "=" p) eqn:Hp.
    + destruct (split1_has p Hp) as (k & v & Hs & Hpkv). rewrite Hs in Hfill.
      destruct (IH _ Hfill Hget) as [Hk|Hany]; [|right; now rewrite Hany, orb_true_r].
      destruct (decide (k = key)) as [->|Hne].
      * right. apply orb_true_iff. left. unfold Py.startswith.
        rewrite Hpkv, <- app_assoc_s. apply prefix_app.
      * left. now rewrite lookup_insert_ne in Hk.
    + destruct (IH _ Hfill Hget) as [Hk|Hany]; [now left|].
      right. now rewrite Hany, orb_true_r.
Qed.

Lemma set_if_present_absent (kv : gmap string string) (hdr key : string) (h : headers) :
  kv !! key = None -> _set_if_present kv hdr key h = h.
Proof. intros H. unfold _set_if_present. now rewrite H. Qed.

Lemma header_set_if_present_ne (kv : gmap string string) (name hdr key : string)
      (h : headers) :
  Py.lower hdr <> Py.lower name ->
  header name (_set_if_present kv hdr key h) = header name h.
Proof.
  intros Hne. unfold _set_if_present. destruct (kv !! key) as [v|]; [|reflexivity].
  destruct (negb _); [now apply header_set_ne | reflexivity].
Qed.

Lemma header_fold_set_if_present (kv : gmap string string) (name : string)
      (table : list (string * string)) (h : headers) :
  (forall hdr key, In (hdr, key) table ->
                   Py.lower hdr = Py.lower name -> kv !! key = None) ->
  header name (fold_left (fun h hc => _set_if_present kv (fst hc) (snd hc) h) table h)
  = header name h.
Proof.
  revert h. induction table as [|[hdr key] table IH]; intros h Hkv; [reflexivity|].
  cbn [fold_left fst snd]. rewrite IH by (intros; eapply Hkv; [right|]; eauto).
  destruct (decide (Py.lower hdr = Py.lower name)) as [Heq|Hne].
  - rewrite set_if_present_absent; [reflexivity|]. eapply Hkv; [left|]; eauto.
  - now apply header_set_if_present_ne.
Qed.

(** A header that is none of the derived ones keeps its value. *)
Lemma set_cache_headers_keeps (name : string) (kv : gmap string string) (h : headers) :
  Forall (fun hc => Py.lower (fst hc) <> Py.lower name) cache_headers ->
  header name (set_cache_headers kv h) = header name h.
Proof.
  intros Hne. unfold set_cache_headers. apply header_fold_set_if_present.
  intros hdr key Hin Hlow. exfalso.
  rewrite List.Forall_forall in Hne. exact (Hne _ Hin Hlow).
Qed.

(** The header names of the table are distinct, also up to case. *)
Lemma cache_headers_inj (hdr key hdr' key' : string) :
  In (hdr, key) cache_headers -> In (hdr', key') cache_headers ->
  Py.lower hdr' = Py.lower hdr -> key' = key.
Proof.
  unfold cache_headers. intros H H'.
  repeat (destruct H as [H|H]; [inversion H; subst hdr key; clear H|]);
    try destruct H;
    repeat (destruct H' as [H'|H']; [inversion H'; subst hdr' key'; clear H'|]);
    try destruct H'; intros Heq; try reflexivity; vm_compute in Heq; discriminate Heq.
Qed.

Lemma cache_key_plain (hdr key : string) :
  In (hdr, key) cache_headers -> plain_name key.
Proof.
  unfold cache_headers. intros H.
  repeat (destruct H as [H|H];
          [inversion H; subst hdr key; split; [reflexivity | eauto]|]).
  destruct H.
Qed.

Lemma cache_header_not_fixed (hdr key : string) :
  In (hdr, key) cache_headers ->
  Forall (fun other => Py.lower other <> Py.lower hdr)
         ["Cookie"; "X-Requested-With"; "Accept"; "X-Udemy-Cache-Logged-In";
          "X-CSRFToken"].
Proof.
  unfold cache_headers. intros H.
  repeat (destruct H as [H|H];
          [inversion H; subst hdr key;
           repeat constructor; intros Heq; vm_compute in Heq; discriminate Heq|]).
  destruct H.
Qed.

Lemma find_csrf_ok (parts : list string) : exists r, find_csrf parts = Ok r.
Proof.
  induction parts as [|p parts IH]; [now exists None|]. cbn [find_csrf].
  destruct (Py.startswith (Py.strip p) "csrftoken=") eqn:Hp; [|exact IH].
  unfold Py.startswith in Hp. apply prefix_inv in Hp as [t ->].
  now exists (Some t).
Qed.

Lemma find_csrf_absent (parts : list string) :
  existsb (fun p => Py.startswith (Py.strip p) "csrftoken=") parts = false ->
  find_csrf parts = Ok None.
Proof.
  induction parts as [|p parts IH]; [reflexivity|]. cbn [existsb find_csrf].
  intros H. apply orb_false_iff in H as [-> H]. now apply IH.
Qed.

(** What [_apply_cookie_headers] does to a cookie string: neither [try]
    block raises. *)
Lemma apply_cookie_headers_str (c : string) (h : headers) :
  exists csrf kv,
    find_csrf (Py.split ";" c) = Ok csrf
    /\ fill_kv (cookie_parts c) ∅ = Ok kv
    /\ _apply_cookie_headers (JStr c) h =
       Ok (set_cache_headers kv
             (match csrf with
              | Some token =>
                  if Py.contains "csrftoken=" c
                  then set_header "X-CSRFToken" (JStr token) (cookie_headers (JStr c) h)
                  else cookie_headers (JStr c) h
              | None => cookie_headers (JStr c) h
              end)).
Proof.
  destruct (find_csrf_ok (Py.split ";" c)) as [csrf Hcsrf].
  destruct (fill_kv_ok (cookie_parts c) ∅) as [kv Hkv].
  exists csrf, kv. repeat split; try assumption.
  unfold _apply_cookie_headers. cbn [Json.has_str str_split]. rewrite !bind_ok.
  fold (cookie_parts c). rewrite Hcsrf, Hkv. fold (cookie_headers (JStr c) h).
  destruct (Py.contains "csrftoken=" c), csrf; reflexivity.
Qed.

Lemma apply_cookie_headers_omits (c : string) (h h' : headers) (hdr key : string) :
  In (hdr, key) cache_headers ->
  _apply_cookie_headers (JStr c) h = Ok h' ->
  ~ cookie_present key c ->
  header hdr h' = header hdr h.
Proof.
  intros Hin Happly Habsent.
  destruct (apply_cookie_headers_str c h) as (csrf & kv & Hcsrf & Hkv & Heq).
  rewrite Heq in Happly. inversion Happly; subst h'; clear Happly.
  pose proof (cache_header_not_fixed _ _ Hin) as Hfixed.
  repeat (apply Forall_cons in Hfixed as [? Hfixed]).
  unfold set_cache_headers. rewrite header_fold_set_if_present.
  - assert (Hbase : header hdr (cookie_headers (JStr c) h) = header hdr h).
    { unfold cookie_headers. now rewrite !header_set_ne by assumption. }
    destruct csrf as [token|]; [|exact Hbase].
    destruct (Py.contains "csrftoken=" c); [|exact Hbase].
    now rewrite header_set_ne by assumption.
  - intros hdr' key' Hin' Hlow.
    rewrite (cache_headers_inj _ _ _ _ Hin Hin' Hlow).
    destruct (kv !! key) as [v|] eqn:Hv; [|reflexivity]. exfalso.
    destruct (fill_kv_lookup _ _ _ _ _ Hkv Hv) as [Hempty|Hany];
      [now rewrite lookup_empty in Hempty|].
    apply Habsent.
    now apply (any_startswith_present _ _ (cache_key_plain _ _ Hin)).
Qed.

Lemma apply_cookie_headers_no_csrf (c : string) (h h' : headers) :
  _apply_cookie_headers (JStr c) h = Ok h' ->
  ~ cookie_present "csrftoken" c ->
  header "X-CSRFToken" h' = header "X-CSRFToken" h.
Proof.
  intros Happly Habsent.
  destruct (apply_cookie_headers_str c h) as (csrf & kv & Hcsrf & Hkv & Heq).
  rewrite Heq in Happly. inversion Happly; subst h'; clear Happly.
  assert (Hnone : csrf = None).
  { destruct (existsb (fun p => Py.startswith (Py.strip p) "csrftoken=")
                      (Py.split ";" c)) eqn:Hex.
    - exfalso. apply Habsent.
      apply (any_startswith_present "csrftoken" c);
        [split; [reflexivity | eauto]|].
      apply existsb_exists in Hex as (p & Hp & Hpre).
      unfold any_startswith. apply existsb_exists. exists (Py.strip p).
      split; [|exact Hpre]. apply in_cookie_parts. split; [|eauto].
      eapply prefix_nonempty; [|exact Hpre]. discriminate.
    - rewrite (find_csrf_absent _ Hex) in Hcsrf. now inversion Hcsrf. }
  subst csrf. unfold set_cache_headers. rewrite header_fold_set_if_present.
  - unfold cookie_headers.
    now rewrite !header_set_ne by (intros Hq; vm_compute in Hq; discriminate Hq).
  - intros hdr key Hin Hlow. exfalso. revert Hlow. unfold cache_headers in Hin.
    repeat (destruct Hin as [Hin|Hin];
            [inversion Hin; subst hdr key; intros Hq; vm_compute in Hq;
             discriminate Hq|]).
    destruct Hin.
Qed.

Lemma authenticate_bearer (default_headers : headers) (user_agent : string) (e : exn) :
  json_loads "Bearer abc123" = Raise e ->
  authenticate json_loads default_headers user_agent "Bearer abc123" =
  Ok (Session (set_header "Authorization" (JStr "Bearer abc123")
                          (base_headers default_headers user_agent))
              (JObj []) (JObj [])).
Proof.
  intros Hloads. unfold authenticate, _try_parse_cookie_payload.
  rewrite Hloads. reflexivity.
Qed.

Lemma authenticate_cookie_payload (default_headers : headers)
      (user_agent token_data : string) :
  json_loads token_data = Ok spec_payload ->
  authenticate json_loads default_headers user_agent token_data =
  Ok (Session
        (set_header "X-Udemy-Cache-User" (JStr "y")
           (set_header "X-CSRFToken" (JStr "x")
              (cookie_headers (JStr spec_cookie)
                              (base_headers default_headers user_agent))))
        (JObj []) (JObj [])).
Proof.
  intros Hloads. unfold authenticate, _try_parse_cookie_payload.
  rewrite Hloads. vm_compute. reflexivity.
Qed.

(** [authenticate] returns whenever the cookie it finds is a string. *)
Lemma authenticate_ok (default_headers : headers) (user_agent token_data : string) :
  (forall p, _try_parse_cookie_payload json_loads token_data = Some p ->
             exists c, Json.dict_get p "cookie" JNull = JStr c) ->
  exists s, authenticate json_loads default_headers user_agent token_data = Ok s.
Proof.
  intros Hstr. unfold authenticate.
  fold (base_headers default_headers user_agent).
  set (h := base_headers default_headers user_agent).
  assert (Happly : forall c ls ss,
             exists s, (h' ← _apply_cookie_headers (JStr c) h; Ok (Session h' ls ss))
                       = Ok s).
  { intros c ls ss. destruct (apply_cookie_headers_str c h) as (? & ? & _ & _ & ->).
    rewrite bind_ok. eauto. }
  destruct (_try_parse_cookie_payload json_loads token_data) as [p|].
  - destruct (Hstr p eq_refl) as [c ->].
    destruct (Json.truthy (JObj p) && Json.truthy (JStr c)) eqn:Ht.
    + apply andb_true_iff in Ht as [_ ->]. apply Happly.
    + destruct (Py.startswith token_data "Cookie:").
      * destruct (Json.truthy (JStr (Py.drop 7 token_data))); [apply Happly|].
        destruct (Py.startswith (Py.lower token_data) "bearer "); [eauto | apply Happly].
      * cbn [Json.truthy].
        destruct (Py.startswith (Py.lower token_data) "bearer "); [eauto | apply Happly].
  - destruct (Py.startswith token_data "Cookie:").
    + destruct (Json.truthy (JStr (Py.drop 7 token_data))); [apply Happly|].
      destruct (Py.startswith (Py.lower token_data) "bearer "); [eauto | apply Happly].
    + cbn [Json.truthy].
      destruct (Py.startswith (Py.lower token_data) "bearer "); [eauto | apply Happly].
Qed.

Ltac other_header :=
  let Hq := fresh "Hq" in
  intros Hq;
  match goal with
  | Hnot : ~ In _ _ |- _ => apply Hnot; rewrite <- Hq; vm_compute; tauto
  end.

(** ** C8: on the raw string "Bearer abc123" the session reads
    "Bearer abc123" under Authorization, and every header but that one
    and the four base headers reads as the fresh session had it: no
    cookie header, no CSRF header, no derived header.  On the cookie
    payload the session reads the cookie string under Cookie, "x" under
    X-CSRFToken, "y" under X-Udemy-Cache-User, the three fixed companions
    of a cookie session, and every other header, Authorization and the
    headers of the absent cookies among them, as the fresh session had
    it.  On a cookie string, however malformed, header derivation returns,
    and leaves out the header of every cookie that is absent. *)
Theorem session_building (default_headers : headers) (user_agent : string) :
  json_loads "Bearer abc123" = Raise ValueError ->
  (exists s,
      authenticate json_loads default_headers user_agent "Bearer abc123" = Ok s
      /\ s = Session (set_header "Authorization" (JStr "Bearer abc123")
                                 (base_headers default_headers user_agent))
                     (JObj []) (JObj [])
      /\ header "Authorization" (session_headers s) = Some (JStr "Bearer abc123")
      /\ header "User-Agent" (session_headers s) = Some (JStr user_agent)
      /\ untouched ("Authorization" :: base_names)
                   default_headers (session_headers s))
  /\ (forall token_data,
        json_loads token_data = Ok spec_payload ->
        exists s,
          authenticate json_loads default_headers user_agent token_data = Ok s
          /\ s = Session
                   (set_header "X-Udemy-Cache-User" (JStr "y")
                      (set_header "X-CSRFToken" (JStr "x")
                         (cookie_headers (JStr spec_cookie)
                            (base_headers default_headers user_agent))))
                   (JObj []) (JObj [])
          /\ header "Cookie" (session_headers s) = Some (JStr spec_cookie)
          /\ header "X-CSRFToken" (session_headers s) = Some (JStr "x")
          /\ header "X-Udemy-Cache-User" (session_headers s) = Some (JStr "y")
          /\ header "X-Requested-With" (session_headers s)
             = Some (JStr "XMLHttpRequest")
          /\ header "Accept" (session_headers s)
             = Some (JStr "application/json, text/plain, */*")
          /\ header "X-Udemy-Cache-Logged-In" (session_headers s) = Some (JStr "1")
          /\ untouched ("X-CSRFToken" :: "X-Udemy-Cache-User"
                          :: cookie_names ++ base_names)
                       default_headers (session_headers s))
  /\ (forall token_data,
        (forall p, _try_parse_cookie_payload json_loads token_data = Some p ->
                   exists c, Json.dict_get p "cookie" JNull = JStr c) ->
        exists s, authenticate json_loads default_headers user_agent token_data = Ok s)
  /\ (forall (c : string) (h : headers),
        exists h', _apply_cookie_headers (JStr c) h = Ok h'
          /\ (forall hdr key, In (hdr, key) cache_headers ->
                              ~ cookie_present key c ->
                              header hdr h' = header hdr h)
          /\ (~ cookie_present "csrftoken" c ->
              header "X-CSRFToken" h' = header "X-CSRFToken" h)).
Proof.
  intros Hbearer. split; [|split; [|split]].
  - eexists. split; [exact (authenticate_bearer _ _ _ Hbearer)|].
    split; [reflexivity|]. cbn [session_headers]. split; [apply header_set_eq|].
    split.
    + unfold base_headers.
      rewrite !header_set_ne by (intros Hq; vm_compute in Hq; discriminate Hq).
      apply header_set_eq.
    + intros name Hnot. unfold base_headers.
      now rewrite !header_set_ne by other_header.
  - intros token_data Hloads. eexists.
    split; [exact (authenticate_cookie_payload _ _ _ Hloads)|].
    split; [reflexivity|]. cbn [session_headers]. unfold cookie_headers.
    split; [|split; [|split; [|split; [|split; [|split]]]]].
    + rewrite !header_set_ne by (intros Hq; vm_compute in Hq; discriminate Hq).
      apply header_set_eq.
    + rewrite !header_set_ne by (intros Hq; vm_compute in Hq; discriminate Hq).
      apply header_set_eq.
    + apply header_set_eq.
    + rewrite !header_set_ne by (intros Hq; vm_compute in Hq; discriminate Hq).
      apply header_set_eq.
    + rewrite !header_set_ne by (intros Hq; vm_compute in Hq; discriminate Hq).
      apply header_set_eq.
    + rewrite !header_set_ne by (intros Hq; vm_compute in Hq; discriminate Hq).
      apply header_set_eq.
    + intros name Hnot. unfold base_headers.
      now rewrite !header_set_ne by other_header.
  - intros; now apply authenticate_ok.
  - intros c h. destruct (apply_cookie_headers_str c h) as (csrf & kv & _ & _ & Heq).
    eexists. split; [exact Heq|]. split.
    + intros hdr key Hin Habsent.
      now apply (apply_cookie_headers_omits c h _ hdr key Hin Heq).
    + intros Habsent. now apply (apply_cookie_headers_no_csrf c h _ Heq).
Qed.

End SessionBuilding.

(** The two tokens of the claim on a fresh session without headers. *)
Lemma session_building_witness :
  (exists s,
      authenticate loads_payload ∅ "UA" "Bearer abc123" = Ok s
      /\ header "Authorization" (session_headers s) = Some (JStr "Bearer abc123")
      /\ header "Cookie" (session_headers s) = None
      /\ header "X-CSRFToken" (session_headers s) = None)
  /\ (exists s,
        authenticate loads_payload ∅ "UA" "payload" = Ok s
        /\ header "Cookie" (session_headers s) = Some (JStr spec_cookie)
        /\ header "X-CSRFToken" (session_headers s) = Some (JStr "x")
        /\ header "X-Udemy-Cache-User" (session_headers s) = Some (JStr "y")
        /\ header "Authorization" (session_headers s) = None
        /\ header "X-Udemy-Cache-Brand" (session_headers s) = None).
Proof.
  destruct (session_building loads_payload ∅ "UA" eq_refl) as (Hbearer & Hcookie & _).
  split.
  - destruct Hbearer as (s & Hs & _ & Hauth & _ & Hrest).
    exists s. split; [exact Hs|]. split; [exact Hauth|].
    split; (rewrite Hrest; [reflexivity | vm_compute; intuition discriminate]).
  - destruct (Hcookie "payload" eq_refl)
      as (s & Hs & _ & Hc & Hcsrf & Huser & _ & _ & _ & Hrest).
    exists s. split; [exact Hs|]. split; [exact Hc|]. split; [exact Hcsrf|].
    split; [exact Huser|].
    split; (rewrite Hrest; [reflexivity | vm_compute; intuition discriminate]).
Defined.

(** ** Pagination *)

Section Pagination.

Lemma continues_truthy (d : dict) : continues d -> Json.truthy (page_next d) = true.
Proof.
  intros (u & -> & Hu). cbn. now apply negb_true_iff, String.eqb_neq.
Qed.

Lemma continues_next (d : dict) : continues d -> page_next d = JStr (next_url d).
Proof. intros (u & Hu & _). unfold next_url. now rewrite Hu. Qed.

Lemma has_rows_iter (d : dict) :
  has_rows d -> Json.iter (page_results d) = Ok (rows d).
Proof. intros [l Hl]. unfold rows. now rewrite Hl. Qed.

Lemma curriculum_loop_stop rs url first_call items snt lg :
  Json.truthy url = false ->
  curriculum_loop rs url first_call items snt lg = (Ok items, World rs snt lg).
Proof. intros H. destruct rs; cbn; now rewrite H. Qed.

Lemma curriculum_loop_page (d : dict) rs url first_call items snt lg :
  Json.truthy url = true ->
  has_rows d ->
  curriculum_loop (Ok (JObj d) :: rs) url first_call items snt lg =
  curriculum_loop rs (page_next d) false (items ++ rows d)
    (snt ++ [Request url (if first_call then Some curriculum_params else None)]) lg.
Proof.
  intros Hurl Hrows. cbn [curriculum_loop]. rewrite Hurl. cbn [negb].
  unfold Json.get, Json.get_default. rewrite bind_ok.
  fold (page_results d). rewrite (has_rows_iter _ Hrows), !bind_ok.
  reflexivity.
Qed.

(** The curriculum loop over a script that starts with pages whose
    [next] is a URL and then a page whose [next] is falsy. *)
Lemma curriculum_loop_pages (pages : list dict) (last : dict)
      (rest : list (result json)) url first_call items snt lg :
  Json.truthy url = true ->
  Forall continues pages -> ends last -> Forall has_rows (pages ++ [last]) ->
  curriculum_loop (bodies (pages ++ [last]) ++ rest) url first_call items snt lg =
  (Ok (items ++ all_rows (pages ++ [last])),
   World rest
         (snt ++ Request url (if first_call then Some curriculum_params else None)
              :: map (fun d => Request (page_next d) None) pages) lg).
Proof.
  intros Hurl Hcont Hend Hrows. revert url first_call items snt Hurl Hrows.
  induction Hcont as [|d pages Hd _ IH]; intros url first_call items snt Hurl Hrows.
  - cbn [app bodies map]. apply Forall_cons in Hrows as [Hlast _].
    rewrite curriculum_loop_page by assumption.
    rewrite curriculum_loop_stop by exact Hend.
    unfold all_rows. cbn [map concat]. now rewrite app_nil_r.
  - cbn [app bodies map]. apply Forall_cons in Hrows as [Hd' Hrows].
    rewrite curriculum_loop_page by assumption.
    fold (bodies (pages ++ [last])).
    rewrite IH by (auto using continues_truthy).
    unfold all_rows. cbn [map concat]. rewrite <- !app_assoc. reflexivity.
Qed.

Lemma for_each_app_ok {A B} (f : A -> result B) (a b : list A) (ys : list B) :
  for_each f (a ++ b) = Ok ys ->
  exists ya yb, for_each f a = Ok ya /\ for_each f b = Ok yb /\ ys = ya ++ yb.
Proof.
  revert ys. induction a as [|x a IH]; intros ys H.
  - exists [], ys. auto.
  - cbn [app for_each] in *. destruct (f x) as [y|e]; [|discriminate].
    rewrite bind_ok in *.
    destruct (for_each f (a ++ b)) as [ys'|e]; [|discriminate].
    rewrite bind_ok in H. inversion H; subst ys.
    destruct (IH _ eq_refl) as (ya & yb & -> & -> & ->).
    exists (y :: ya), yb. rewrite !bind_ok. auto.
Qed.

Lemma courses_loop_stop rs url all_courses snt lg :
  Json.truthy url = false ->
  courses_loop rs url all_courses snt lg = (Ok all_courses, World rs snt lg).
Proof. intros H. destruct rs; cbn; now rewrite H. Qed.

Lemma is_initial_str (u : string) :
  is_initial (JStr u) =
  Ok (Py.contains "api-2.0/users/me/subscribed-courses/" u
      && negb (Py.contains "page=" u)).
Proof.
  unfold is_initial. cbn [Json.has_str]. rewrite bind_ok.
  destruct (Py.contains "api-2.0/users/me/subscribed-courses/" u); reflexivity.
Qed.

Lemma courses_loop_page (d : dict) rs (u : string) all_courses snt lg cs :
  u <> "" ->
  has_rows d ->
  for_each course_of_result (rows d) = Ok cs ->
  courses_loop (Ok (JObj d) :: rs) (JStr u) all_courses snt lg =
  courses_loop rs (page_next d) (all_courses ++ cs) (snt ++ [listing_request u]) lg.
Proof.
  intros Hu Hrows Hcs. cbn [courses_loop Json.truthy].
  apply String.eqb_neq in Hu. rewrite Hu. cbn [negb].
  rewrite is_initial_str. unfold page_courses, Json.get, Json.get_default.
  rewrite bind_ok. fold (page_results d).
  rewrite (has_rows_iter _ Hrows), bind_ok, Hcs, !bind_ok. reflexivity.
Qed.

(** The listing loop over the same kind of script, when every row
    projects to a course. *)
Lemma courses_loop_pages (pages : list dict) (last : dict)
      (rest : list (result json)) (u : string) all_courses snt lg cs :
  u <> "" ->
  Forall continues pages -> ends last -> Forall has_rows (pages ++ [last]) ->
  for_each course_of_result (all_rows (pages ++ [last])) = Ok cs ->
  courses_loop (bodies (pages ++ [last]) ++ rest) (JStr u) all_courses snt lg =
  (Ok (all_courses ++ cs),
   World rest
         (snt ++ listing_request u :: map (fun d => listing_request (next_url d)) pages)
         lg).
Proof.
  intros Hu Hcont Hend Hrows. revert u all_courses snt cs Hu Hrows.
  induction Hcont as [|d pages Hd _ IH]; intros u all_courses snt cs Hu Hrows Hcs.
  - cbn [app bodies map] in *. apply Forall_cons in Hrows as [Hlast _].
    unfold all_rows in Hcs. cbn [map concat] in Hcs. rewrite app_nil_r in Hcs.
    rewrite (courses_loop_page _ _ _ _ _ _ cs) by assumption.
    now rewrite courses_loop_stop by exact Hend.
  - cbn [app bodies map] in *. apply Forall_cons in Hrows as [Hd' Hrows].
    unfold all_rows in Hcs. cbn [map concat] in Hcs.
    apply for_each_app_ok in Hcs as (ya & yb & Hya & Hyb & ->).
    rewrite (courses_loop_page _ _ _ _ _ _ ya) by assumption.
    fold (bodies (pages ++ [last])).
    rewrite (continues_next _ Hd).
    rewrite (IH (next_url d) _ _ yb); try assumption.
    + rewrite <- !app_assoc. reflexivity.
    + destruct Hd as (u' & Hu' & Hne). unfold next_url. now rewrite Hu'.
Qed.

(** ** C4, as amended: over pages whose [results] are lists and whose
    [next] is a URL, null or absent, listing and curriculum pagination
    take one response per page up to the first page whose [next] is
    falsy (null, absent or empty), leave the responses after it
    untouched, and return the rows of the pages taken, concatenated in
    request order (projected to courses by the listing). *)
Theorem pagination_concatenates_until_no_next (course_id : string)
        (pages : list dict) (last : dict) (rest : list (result json))
        (snt : list request) (lg : list (json * exn)) :
  let w := World (bodies (pages ++ [last]) ++ rest) snt lg in
  Forall continues pages -> ends last -> Forall has_rows (pages ++ [last]) ->
  (fst (_fetch_curriculum course_id w) = Ok (all_rows (pages ++ [last]))
   /\ pending (snd (_fetch_curriculum course_id w)) = rest
   /\ length (sent (snd (_fetch_curriculum course_id w)))
      = (length snt + length (pages ++ [last]))%nat)
  /\ (forall cs, for_each course_of_result (all_rows (pages ++ [last])) = Ok cs ->
      fst (fetch_courses w) = Ok cs
      /\ pending (snd (fetch_courses w)) = rest
      /\ length (sent (snd (fetch_courses w)))
         = (length snt + length (pages ++ [last]))%nat).
Proof.
  intros w Hcont Hend Hrows. split.
  - unfold _fetch_curriculum, w. cbn [pending sent logged].
    rewrite curriculum_loop_pages by (assumption || reflexivity).
    cbn [fst snd pending sent]. repeat split.
    rewrite !length_app. cbn [length]. rewrite List.length_map. lia.
  - intros cs Hcs. unfold fetch_courses, w. cbn [pending sent logged].
    rewrite (courses_loop_pages _ _ _ _ _ _ _ cs) by (assumption || discriminate).
    cbn [fst snd pending sent]. repeat split.
    rewrite !length_app. cbn [length]. rewrite List.length_map. lia.
Qed.

End Pagination.

(** Three pages of a curriculum, then three pages of a listing: URL, URL,
    null; the response after the third page is left alone. *)
Lemma pagination_concatenates_until_no_next_witness :
  fst (_fetch_curriculum "42"
         (World (bodies [page [JNum 1; JNum 2] (JStr "https://u/?page=2");
                         page [JNum 3] (JStr "https://u/?page=3");
                         page [JNum 4] JNull]
                 ++ [Ok (JObj (page [JNum 5] JNull))]) [] []))
  = Ok [JNum 1; JNum 2; JNum 3; JNum 4]
  /\ fst (fetch_courses
            (World (bodies [page [course_row (JStr "/course/a/learn/")]
                                 (JStr cursor_with_page);
                            page [] (JStr "https://u/?page=3");
                            page [course_row JNull] JNull]
                    ++ [Raise RequestException]) [] []))
     = Ok [MkCourse "7" (JStr "Python") "https://www.udemy.com/course/a/learn/"
                    (JStr "https://img/7.jpg") "a";
           MkCourse "7" (JStr "Python") "https://www.udemy.comNone"
                    (JStr "https://img/7.jpg") ""].
Proof.
  split.
  - refine (proj1 (proj1 (pagination_concatenates_until_no_next "42"
              [page [JNum 1; JNum 2] (JStr "https://u/?page=2");
               page [JNum 3] (JStr "https://u/?page=3")]
              (page [JNum 4] JNull) [Ok (JObj (page [JNum 5] JNull))] [] [] _ _ _))).
    + repeat constructor; eexists; (split; [reflexivity | discriminate]).
    + reflexivity.
    + repeat constructor; eexists; reflexivity.
  - refine (proj1 (proj2 (pagination_concatenates_until_no_next "42"
              [page [course_row (JStr "/course/a/learn/")] (JStr cursor_with_page);
               page [] (JStr "https://u/?page=3")]
              (page [course_row JNull] JNull) [Raise RequestException] [] [] _ _ _)
              _ _)).
    + repeat constructor; eexists; (split; [reflexivity | discriminate]).
    + reflexivity.
    + repeat constructor; eexists; reflexivity.
    + reflexivity.
Defined.

(** C4 as stated fails on a page whose [next] is the empty string: the
    crawl stops there, and [next] is neither null nor absent. *)
Lemma pagination_stops_on_empty_next :
  let first := page [JNum 1] (JStr "") in
  let second := page [JNum 2] JNull in
  let w := World (bodies [first; second]) [] [] in
  ~ (pending (snd (_fetch_curriculum "42" w)) = bodies [second] ->
     Json.assoc "next" first = None \/ Json.assoc "next" first = Some JNull).
Proof.
  intros first second w H. destruct (H eq_refl) as [H'|H']; discriminate H'.
Qed.

(** *** The listing's requests and rows *)

(** A cursor URL that names its page is followed as it is, without
    parameters, as every cursor of the curriculum is. *)
Example listing_follows_paged_cursor :
  sent (snd (fetch_courses
               (World (bodies [page [] (JStr cursor_with_page); page [] JNull]) [] [])))
  = [Request (JStr listing_url) (Some listing_params);
     Request (JStr cursor_with_page) None].
Proof. reflexivity. Qed.

(** C5: a cursor URL on the listing path that has no "page=" in it is
    taken for the initial URL, and the second request carries the initial
    parameters again; so it is for every such cursor. *)
Lemma listing_reattaches_params_to_cursor :
  sent (snd (fetch_courses
               (World (bodies [page [] (JStr cursor_without_page); page [] JNull]) [] [])))
  = [Request (JStr listing_url) (Some listing_params);
     Request (JStr cursor_without_page) (Some listing_params)]
  /\ forall u : string,
       Py.contains "api-2.0/users/me/subscribed-courses/" u = true ->
       Py.contains "page=" u = false ->
       sent (snd (fetch_courses
                    (World (bodies [page [] (JStr u); page [] JNull]) [] [])))
       = [Request (JStr listing_url) (Some listing_params);
          Request (JStr u) (Some listing_params)].
Proof.
  assert (Hgen : forall u : string,
             Py.contains "api-2.0/users/me/subscribed-courses/" u = true ->
             Py.contains "page=" u = false ->
             sent (snd (fetch_courses
                          (World (bodies [page [] (JStr u); page [] JNull]) [] [])))
             = [Request (JStr listing_url) (Some listing_params);
                Request (JStr u) (Some listing_params)]).
  { intros u Hpath Hpage.
    assert (Hu : u <> "") by (intros ->; discriminate Hpath).
    unfold fetch_courses. cbn [pending sent logged].
    change (bodies [page [] (JStr u); page [] JNull])
      with (bodies ([page [] (JStr u)] ++ [page [] JNull]) ++ []).
    rewrite (courses_loop_pages [page [] (JStr u)] (page [] JNull) [] listing_url
               [] [] [] []).
    - cbn [snd sent app map]. unfold listing_request at 2.
      change (next_url (page [] (JStr u))) with u.
      rewrite Hpath, Hpage. reflexivity.
    - discriminate.
    - constructor; [|constructor]. exists u. split; [reflexivity | exact Hu].
    - reflexivity.
    - repeat constructor; eexists; reflexivity.
    - reflexivity. }
  split; [|exact Hgen]. apply Hgen; reflexivity.
Qed.

(** The slug is the second-to-last segment of the stripped URL; a row
    without URL has the empty slug. *)
Example slug_of_course_url :
  slug_of (course_row (JStr "/course/python-bootcamp/learn/")) = Ok "python-bootcamp".
Proof. reflexivity. Qed.

Example slug_of_absent_url :
  slug_of (JObj [("id", JNum 7)]) = Ok ""
  /\ slug_of (course_row JNull) = Ok ""
  /\ slug_of (course_row (JStr "")) = Ok "".
Proof. repeat split. Qed.

(** C6: a URL of one segment has no second-to-last segment; the index
    raises, and the listing raises with it. *)
Lemma listing_aborts_on_one_segment_url :
  slug_of (course_row (JStr "/course/")) = Raise IndexError
  /\ fst (fetch_courses
            (World (bodies [page [course_row (JStr "/course/python/learn/");
                                  course_row (JStr "/course/")] JNull]) [] []))
     = Raise IndexError.
Proof. split; reflexivity. Qed.

(** ** The module tree *)

Section ModuleTree.

Variable course : Course.

Lemma group_items_dict (item : dict) rest current modules :
  group_items course (JObj item :: rest) current modules =
  if is_chapter item then
    group_items course rest (Some (length modules)) (modules ++ [chapter_module item])
  else if is_lecture item then
    match current with
    | Some i =>
        group_items course rest (Some i) (alter (add_lesson (lesson_of item)) i modules)
    | None =>
        group_items course rest (Some (length modules))
          (alter (add_lesson (lesson_of item)) (length modules)
                 (modules ++ [startup_module course]))
    end
  else group_items course rest current modules.
Proof.
  unfold is_chapter, is_lecture. cbn [group_items].
  destruct (Json.eq_str _ "chapter"); [reflexivity|].
  destruct (Json.eq_str _ "lecture"); [|reflexivity].
  now destruct current.
Qed.

Lemma alter_last {A} (f : A -> A) (done : list A) (m : A) :
  alter f (length done) (done ++ [m]) = done ++ [f m].
Proof.
  replace (length done) with (length done + 0)%nat by lia.
  now rewrite alter_app_r.
Qed.

Lemma with_lessons_add (m : ModuleEntry) (l : Lesson) (ls : list Lesson) :
  with_lessons (add_lesson l m) ls = with_lessons m (l :: ls).
Proof. unfold with_lessons, add_lesson. cbn. now rewrite <- app_assoc. Qed.

Lemma with_lessons_nil (m : ModuleEntry) : with_lessons m [] = m.
Proof. destruct m. unfold with_lessons. cbn. now rewrite app_nil_r. Qed.

(** The modules written before the loop starts are a frame: the loop
    only appends after them and only updates what it appended. *)
Lemma group_items_frame (curriculum : list json) (frame modules : list ModuleEntry)
      (current : option nat) :
  group_items course curriculum (shift (length frame) current) (frame ++ modules) =
  (frame ++ fst (group_items course curriculum current modules),
   snd (group_items course curriculum current modules)).
Proof.
  revert current modules.
  induction curriculum as [|item rest IH]; intros current modules; [reflexivity|].
  destruct item as [| | | | |item]; try reflexivity.
  rewrite !group_items_dict.
  destruct (is_chapter item).
  - rewrite <- IH. cbn [shift fmap option_fmap option_map].
    now rewrite length_app, app_assoc.
  - destruct (is_lecture item); [|apply IH].
    destruct current as [i|]; cbn [shift fmap option_fmap option_map].
    + rewrite alter_app_r. apply (IH (Some i)).
    + rewrite <- (IH (Some (length modules))).
      cbn [shift fmap option_fmap option_map].
      rewrite length_app, <- app_assoc, alter_app_r. reflexivity.
Qed.

(** Items before the first chapter, with a module already current: the
    lectures go to that module, the rest is skipped. *)
Lemma group_items_lectures (pre : list dict) (tail : list json)
      (done : list ModuleEntry) (m : ModuleEntry) :
  Forall (fun it => is_chapter it = false) pre ->
  group_items course (map JObj pre ++ tail) (Some (length done)) (done ++ [m]) =
  group_items course tail (Some (length done))
              (done ++ [with_lessons m (lessons_of pre)]).
Proof.
  intros Hpre. revert m.
  induction Hpre as [|it pre Hit _ IH]; intros m.
  - cbn. now rewrite with_lessons_nil.
  - cbn [map app]. rewrite group_items_dict, Hit. unfold lessons_of.
    cbn [List.filter]. destruct (is_lecture it); [|apply IH].
    rewrite alter_last, IH. cbn [map]. now rewrite with_lessons_add.
Qed.

(** Items before the first chapter, with no current module: the first
    lecture creates the startup module. *)
Lemma group_items_leading (pre : list dict) (tail : list json)
      (modules : list ModuleEntry) :
  Forall (fun it => is_chapter it = false) pre ->
  group_items course (map JObj pre ++ tail) None modules =
  match lessons_of pre with
  | [] => group_items course tail None modules
  | ls => group_items course tail (Some (length modules))
            (modules ++ [with_lessons (startup_module course) ls])
  end.
Proof.
  induction 1 as [|it pre Hit Hpre IH]; [reflexivity|].
  cbn [map app]. rewrite group_items_dict, Hit. unfold lessons_of in *.
  cbn [List.filter]. destruct (is_lecture it); [|exact IH].
  rewrite alter_last, group_items_lectures by assumption.
  cbn [map]. now rewrite with_lessons_add.
Qed.

(** A chapter item does not look at the current module. *)
Lemma group_items_chapter (ch : dict) rest current modules :
  is_chapter ch = true ->
  group_items course (JObj ch :: rest) current modules =
  group_items course (JObj ch :: rest) None modules.
Proof. intros H. now rewrite !group_items_dict, H. Qed.

Lemma any_chapter_dicts (items : list dict) :
  any_chapter (map JObj items) = Ok (existsb is_chapter items).
Proof.
  induction items as [|it items IH]; [reflexivity|].
  cbn [map any_chapter existsb]. unfold Json.get, Json.get_default.
  change (Ok (Json.dict_get it "_class" JNull) ≫= ?f)
    with (f (Json.dict_get it "_class" JNull)). cbv beta.
  fold (is_chapter it). destruct (is_chapter it); [reflexivity | exact IH].
Qed.

Lemma existsb_false_Forall {A} (p : A -> bool) (l : list A) :
  existsb p l = false <-> Forall (fun x => p x = false) l.
Proof.
  induction l as [|x l IH]; cbn; [split; [constructor | reflexivity]|].
  rewrite orb_false_iff, IH. split.
  - intros [? ?]. now constructor.
  - intros H. now inversion H.
Qed.

Lemma any_chapter_leading (pre : list dict) (ch : dict) (rest : list json) :
  is_chapter ch = true ->
  any_chapter (map JObj pre ++ JObj ch :: rest) = Ok true.
Proof.
  intros Hch. induction pre as [|it pre IH]; cbn [map app any_chapter];
    unfold Json.get, Json.get_default;
    change (Ok (Json.dict_get ?d "_class" JNull) ≫= ?f)
      with (f (Json.dict_get d "_class" JNull)); cbv beta.
  - fold (is_chapter ch). now rewrite Hch.
  - fold (is_chapter it). destruct (is_chapter it); [reflexivity | exact IH].
Qed.

(** One turn of [for course in courses] when the curriculum was
    fetched. *)
Lemma course_step_fetched (modules : list ModuleEntry) (w w' : world)
      (curriculum : list json) (has_chapter : bool) :
  _fetch_curriculum (course_id course) w = (Ok curriculum, w') ->
  any_chapter curriculum = Ok has_chapter ->
  course_step (modules, w) course =
  let start :=
    if has_chapter then (None, modules)
    else (Some (length modules), modules ++ [default_module course]) in
  let out := group_items course curriculum (fst start) (snd start) in
  (fst out,
   match snd out with
   | None => w'
   | Some e => log_error (course_name course) e w'
   end).
Proof.
  intros Hf Hany. unfold course_step. rewrite Hf, Hany.
  destruct has_chapter; cbn [negb fst snd];
    now destruct (group_items course curriculum _ _) as [ms [e|]].
Qed.

(** ** C2: a feed without chapter items gives one module, named after
    the course, holding the lessons of all the lecture items in feed
    order. *)
Theorem default_module_when_no_chapter (items : list dict) (w w' : world) :
  _fetch_curriculum (course_id course) w = (Ok (map JObj items), w') ->
  Forall (fun it => is_chapter it = false) items ->
  fetch_course_content [course] w =
  ([MkModule ("c_" +:+ course_id course +:+ "_default") (course_name course)
             (map lesson_of (List.filter is_lecture items))], w').
Proof.
  intros Hf Hno. unfold fetch_course_content. cbn [fold_left].
  rewrite (course_step_fetched _ _ _ _ false Hf).
  - pose proof (group_items_lectures items [] [] (default_module course) Hno) as H.
    rewrite app_nil_r in H. cbn [fst snd length app] in *. rewrite H.
    reflexivity.
  - rewrite any_chapter_dicts. f_equal. now apply existsb_false_Forall.
Qed.

(** Lectures before the first chapter: the loop starts the tree with the
    startup module and goes on from the chapter as if it started there. *)
Lemma group_items_startup (pre : list dict) (ch : dict) (rest : list json) :
  Forall (fun it => is_chapter it = false) pre ->
  is_chapter ch = true ->
  Exists (fun it => is_lecture it = true) pre ->
  group_items course (map JObj pre ++ JObj ch :: rest) None [] =
  (with_lessons (startup_module course) (lessons_of pre)
     :: fst (group_items course (JObj ch :: rest) None []),
   snd (group_items course (JObj ch :: rest) None [])).
Proof.
  intros Hno Hch Hlec. rewrite group_items_leading by assumption.
  destruct (lessons_of pre) as [|l ls] eqn:Hls.
  - exfalso. apply Exists_exists in Hlec as (it & Hin & Hit).
    unfold lessons_of in Hls. apply map_eq_nil in Hls.
    apply list_elem_of_In in Hin.
    assert (Hin' : In it (List.filter is_lecture pre)) by now apply filter_In.
    rewrite Hls in Hin'. destruct Hin'.
  - rewrite group_items_chapter by assumption.
    pose proof (group_items_frame (JObj ch :: rest)
                  [with_lessons (startup_module course) (l :: ls)] [] None) as H.
    cbn [shift fmap option_fmap option_map app] in H. cbn [app]. now rewrite H.
Qed.

(** ** C3: when lectures come before the first chapter of a feed that
    has one, the tree starts with a module named "Introduction" holding
    the lessons of those lectures in feed order, and the modules after it
    are those the loop builds from the first chapter on; the feed
    [lecture L0, chapter C1, lecture L1, lecture L2] gives two modules,
    the startup module with L0 and the module of C1 with L1 and L2. *)
Theorem startup_module_before_first_chapter :
  (forall (pre : list dict) (ch : dict) (rest : list json) (w w' : world),
      _fetch_curriculum (course_id course) w
        = (Ok (map JObj pre ++ JObj ch :: rest), w') ->
      Forall (fun it => is_chapter it = false) pre ->
      is_chapter ch = true ->
      Exists (fun it => is_lecture it = true) pre ->
      fst (fetch_course_content [course] w) =
      MkModule ("c_" +:+ course_id course +:+ "_startup") (JStr "Introduction")
               (map lesson_of (List.filter is_lecture pre))
      :: fst (group_items course (JObj ch :: rest) None []))
  /\ (forall (L0 C1 L1 L2 : dict) (w w' : world),
        _fetch_curriculum (course_id course) w
          = (Ok [JObj L0; JObj C1; JObj L1; JObj L2], w') ->
        is_lecture L0 = true -> is_chapter C1 = true ->
        is_lecture L1 = true -> is_lecture L2 = true ->
        fst (fetch_course_content [course] w) =
        [ MkModule ("c_" +:+ course_id course +:+ "_startup") (JStr "Introduction")
                   [lesson_of L0];
          MkModule (py_str (Json.dict_get C1 "id" JNull))
                   (Json.dict_get C1 "title" JNull)
                   [lesson_of L1; lesson_of L2] ]).
Proof.
  assert (Hgen : forall pre ch rest w w',
             _fetch_curriculum (course_id course) w
               = (Ok (map JObj pre ++ JObj ch :: rest), w') ->
             Forall (fun it => is_chapter it = false) pre ->
             is_chapter ch = true ->
             Exists (fun it => is_lecture it = true) pre ->
             fst (fetch_course_content [course] w) =
             MkModule ("c_" +:+ course_id course +:+ "_startup") (JStr "Introduction")
                      (map lesson_of (List.filter is_lecture pre))
             :: fst (group_items course (JObj ch :: rest) None [])).
  { intros pre ch rest w w' Hf Hno Hch Hlec.
    unfold fetch_course_content. cbn [fold_left].
    rewrite (course_step_fetched _ _ _ _ true Hf)
      by now apply any_chapter_leading.
    cbn [fst snd]. rewrite group_items_startup by assumption.
    reflexivity. }
  split; [exact Hgen|].
  intros L0 C1 L1 L2 w w' Hf H0 HC H1 H2.
  assert (Hnot : forall it, is_lecture it = true -> is_chapter it = false).
  { unfold is_lecture, is_chapter. intros it.
    destruct (Json.dict_get it "_class" JNull) as [| | |s| |]; try discriminate.
    cbn. intros Hs. apply String.eqb_eq in Hs. now subst s. }
  rewrite (Hgen [L0] C1 [JObj L1; JObj L2] w w' Hf).
  - cbn [List.filter]. rewrite H0. cbn [map]. f_equal.
    rewrite !group_items_dict, HC, (Hnot _ H1), (Hnot _ H2), H1, H2.
    reflexivity.
  - constructor; [now apply Hnot | constructor].
  - exact HC.
  - left. exact H0.
Qed.

End ModuleTree.

Section Batch.

Lemma curriculum_loop_logged rs url first_call items snt lg :
  logged (snd (curriculum_loop rs url first_call items snt lg)) = lg.
Proof.
  revert url first_call items snt.
  induction rs as [|r rs IH]; intros url first_call items snt; cbn [curriculum_loop].
  - now destruct (negb (Json.truthy url)).
  - destruct (negb (Json.truthy url)); [reflexivity|].
    destruct r as [data|e]; [|reflexivity].
    destruct (_ ≫= _) as [[more next]|e]; [apply IH | reflexivity].
Qed.

(** One course: the modules already written stay in front, untouched. *)
Lemma course_step_frame (frame modules : list ModuleEntry) (w : world) (c : Course) :
  course_step (frame ++ modules, w) c =
  (frame ++ fst (course_step (modules, w) c), snd (course_step (modules, w) c)).
Proof.
  unfold course_step.
  destruct (_fetch_curriculum (course_id c) w) as [[curriculum|e] w']; [|reflexivity].
  destruct (any_chapter curriculum) as [has_chapter|e]; [|reflexivity].
  destruct has_chapter; cbn [negb].
  - pose proof (group_items_frame c curriculum frame modules None) as H.
    cbn [shift fmap option_fmap option_map] in H. rewrite H.
    now destruct (group_items c curriculum None modules) as [ms [e|]].
  - pose proof (group_items_frame c curriculum frame
                  (modules ++ [default_module c]) (Some (length modules))) as H.
    cbn [shift fmap option_fmap option_map] in H.
    rewrite length_app, <- app_assoc, H.
    now destruct (group_items c curriculum _ (modules ++ _)) as [ms [e|]].
Qed.

Lemma fold_course_step_frame (courses : list Course) (frame modules : list ModuleEntry)
      (w : world) :
  fold_left course_step courses (frame ++ modules, w) =
  (frame ++ fst (fold_left course_step courses (modules, w)),
   snd (fold_left course_step courses (modules, w))).
Proof.
  revert modules w. induction courses as [|c courses IH]; intros modules w;
    [reflexivity|].
  cbn [fold_left]. rewrite course_step_frame.
  destruct (course_step (modules, w) c) as [ms w'] eqn:Hstep. cbn [fst snd].
  apply IH.
Qed.

(** The tree of a batch is the tree of its first part followed by the
    tree of the rest, fetched in the world the first part left. *)
Lemma fetch_course_content_app (first rest : list Course) (w : world) :
  fetch_course_content (first ++ rest) w =
  let done := fetch_course_content first w in
  (fst done ++ fst (fetch_course_content rest (snd done)),
   snd (fetch_course_content rest (snd done))).
Proof.
  unfold fetch_course_content. rewrite fold_left_app.
  destruct (fold_left course_step first ([], w)) as [ms w1]. cbn [fst snd].
  rewrite <- (app_nil_r ms) at 1. apply fold_course_step_frame.
Qed.

(** Nothing is ever removed from the log. *)
Lemma course_step_logged (modules : list ModuleEntry) (w : world) (c : Course) :
  exists more, logged (snd (course_step (modules, w) c)) = logged w ++ more.
Proof.
  unfold course_step, _fetch_curriculum.
  pose proof (curriculum_loop_logged (pending w)
                (JStr (curriculum_url (course_id c))) true [] (sent w) (logged w)) as Hl.
  destruct (curriculum_loop _ _ _ _ _ _) as [[curriculum|e] w']; cbn [snd] in Hl.
  - destruct (any_chapter curriculum) as [has_chapter|e].
    + destruct (if negb has_chapter then _ else _) as [cur ms].
      destruct (group_items c curriculum cur ms) as [ms' [e|]]; cbn; rewrite Hl;
        [eauto | exists []; now rewrite app_nil_r].
    + cbn. rewrite Hl. eauto.
  - cbn. rewrite Hl. eauto.
Qed.

Lemma fold_course_step_logged (courses : list Course) (modules : list ModuleEntry)
      (w : world) :
  exists more,
    logged (snd (fold_left course_step courses (modules, w))) = logged w ++ more.
Proof.
  revert modules w. induction courses as [|c courses IH]; intros modules w.
  - exists []. cbn. now rewrite app_nil_r.
  - cbn [fold_left]. destruct (course_step_logged modules w c) as [m1 H1].
    destruct (course_step (modules, w) c) as [ms w1]. cbn [snd] in H1.
    destruct (IH ms w1) as [m2 H2]. exists (m1 ++ m2).
    now rewrite H2, H1, app_assoc.
Qed.

(** ** C9: a course whose curriculum fetch raises adds no module; the
    exception is logged, not propagated, and the tree is the modules of
    the courses before it followed by those of the courses after it. *)
Theorem failed_course_is_skipped (before after : list Course) (course : Course)
        (w w' : world) (e : exn) :
  _fetch_curriculum (course_id course) (snd (fetch_course_content before w))
    = (Raise e, w') ->
  let resumed := log_error (course_name course) e w' in
  In (course_name course, e)
     (logged (snd (fetch_course_content (before ++ course :: after) w)))
  /\ fetch_course_content (before ++ course :: after) w =
     (fst (fetch_course_content before w) ++ fst (fetch_course_content after resumed),
      snd (fetch_course_content after resumed)).
Proof.
  intros Hf resumed.
  assert (Heq : fetch_course_content (before ++ course :: after) w =
                (fst (fetch_course_content before w)
                   ++ fst (fetch_course_content after resumed),
                 snd (fetch_course_content after resumed))).
  { rewrite fetch_course_content_app. cbn zeta.
    destruct (fetch_course_content before w) as [ms w1]. cbn [fst snd] in *.
    assert (Hstep : fetch_course_content (course :: after) w1
                    = fetch_course_content after resumed).
    { unfold fetch_course_content. cbn [fold_left]. unfold course_step at 2.
      now rewrite Hf. }
    now rewrite Hstep. }
  split; [|exact Heq]. rewrite Heq. cbn [snd].
  destruct (fold_course_step_logged after [] resumed) as [more Hmore].
  unfold fetch_course_content. rewrite Hmore. cbn [resumed log_error logged].
  apply in_or_app. left. apply in_or_app. right. now left.
Qed.

End Batch.

Lemma default_module_when_no_chapter_witness :
  fetch_course_content [java]
    (World [Ok (JObj (page (map JObj [feed_item "lecture" 1 "Hello"; feed_item "quiz" 2 "Check";
                                feed_item "lecture" 3 "Loops"]) JNull))] [] [])
  = ([MkModule "c_42_default" (JStr "Java")
               [MkLesson "1" (JStr "Hello") JNull JNull;
                MkLesson "3" (JStr "Loops") JNull JNull]],
     World [] [Request (JStr (curriculum_url "42")) (Some curriculum_params)] []).
Proof.
  apply (default_module_when_no_chapter java
           [feed_item "lecture" 1 "Hello"; feed_item "quiz" 2 "Check"; feed_item "lecture" 3 "Loops"]).
  - reflexivity.
  - repeat constructor.
Defined.

Lemma startup_module_before_first_chapter_witness :
  fst (fetch_course_content [java]
         (World [Ok (JObj (page [JObj (feed_item "lecture" 0 "L0");
                                 JObj (feed_item "chapter" 1 "C1");
                                 JObj (feed_item "lecture" 2 "L1");
                                 JObj (feed_item "lecture" 3 "L2")] JNull))] [] []))
  = [MkModule "c_42_startup" (JStr "Introduction")
              [MkLesson "0" (JStr "L0") JNull JNull];
     MkModule "1" (JStr "C1")
              [MkLesson "2" (JStr "L1") JNull JNull;
               MkLesson "3" (JStr "L2") JNull JNull]].
Proof.
  apply (proj1 (startup_module_before_first_chapter java)
           [feed_item "lecture" 0 "L0"]
           (feed_item "chapter" 1 "C1")
           [JObj (feed_item "lecture" 2 "L1"); JObj (feed_item "lecture" 3 "L2")] _
           (World [] [Request (JStr (curriculum_url "42")) (Some curriculum_params)] [])).
  - reflexivity.
  - repeat constructor.
  - reflexivity.
  - left. reflexivity.
Defined.

(** The first course's fetch fails on the transport; the second course's
    modules are in the tree. *)
Lemma failed_course_is_skipped_witness :
  fst (fetch_course_content [java; rust]
         (World [Raise RequestException;
                 Ok (JObj (page [JObj (feed_item "chapter" 1 "Ownership");
                                 JObj (feed_item "lecture" 2 "Borrowing")] JNull))] [] []))
  = [MkModule "1" (JStr "Ownership") [MkLesson "2" (JStr "Borrowing") JNull JNull]].
Proof.
  set (rust_page := JObj (page [JObj (feed_item "chapter" 1 "Ownership");
                                 JObj (feed_item "lecture" 2 "Borrowing")] JNull)).
  destruct (failed_course_is_skipped [] [rust] java
              (World [Raise RequestException; Ok rust_page] [] [])
              (World [Ok rust_page]
                     [Request (JStr (curriculum_url "42")) (Some curriculum_params)] [])
              RequestException eq_refl) as [_ H].
  change ([] ++ java :: [rust]) with [java; rust] in H.
  fold rust_page. rewrite H. reflexivity.
Defined.

(** ** Video resolution *)

Section VideoResolution.

Lemma pick_best_dict (e : dict) (rest : list json) (best : json) (m : Z) :
  pick_best (JObj e :: rest) best m =
  if entry_resolution e >? m then pick_best rest (JObj e) (entry_resolution e)
  else pick_best rest best m.
Proof. reflexivity. Qed.

(** Entries that do not exceed the running maximum leave [best] alone. *)
Lemma pick_best_keeps (post : list dict) (best : json) (m : Z) :
  Forall (fun x => entry_resolution x <= m) post ->
  pick_best (map JObj post) best m = Ok best.
Proof.
  induction 1 as [|x post Hx _ IH]; [reflexivity|].
  cbn [map]. rewrite pick_best_dict.
  destruct (Z.gtb_spec (entry_resolution x) m); [lia | exact IH].
Qed.

(** The loop returns the first entry of highest resolution, if that
    resolution beats the initial maximum. *)
Lemma pick_best_first_highest (pre : list dict) (e : dict) (post : list dict)
      (best : json) (m : Z) :
  m < entry_resolution e ->
  Forall (fun x => entry_resolution x < entry_resolution e) pre ->
  Forall (fun x => entry_resolution x <= entry_resolution e) post ->
  pick_best (map JObj (pre ++ e :: post)) best m = Ok (JObj e).
Proof.
  intros Hm Hpre Hpost. revert best m Hm.
  induction Hpre as [|x pre Hx _ IH]; intros best m Hm.
  - cbn [app map]. rewrite pick_best_dict.
    destruct (Z.gtb_spec (entry_resolution e) m); [|lia].
    now apply pick_best_keeps.
  - cbn [app map]. rewrite pick_best_dict.
    destruct (Z.gtb_spec (entry_resolution x) m); now apply IH.
Qed.

(** When no entry beats the initial maximum nothing is chosen. *)
Lemma pick_best_none (srcs : list dict) (m : Z) :
  Forall (fun x => entry_resolution x <= m) srcs ->
  pick_best (map JObj srcs) JNull m = Ok JNull.
Proof. apply pick_best_keeps. Qed.

(** When no entry has a resolution of 0 or more the [media_sources]
    branch returns nothing and [download_urls] is tried. *)
Lemma from_media_sources_all_negative (data : dict) (srcs : list dict) :
  Json.assoc "media_sources" data = Some (JArr (map JObj srcs)) ->
  Forall (fun x => entry_resolution x <= -1) srcs ->
  from_media_sources (JObj data) = Ok None.
Proof.
  intros Hms Hneg. unfold from_media_sources.
  unfold Json.get, Json.get_default, Json.dict_get. rewrite Hms, bind_ok.
  destruct (Json.truthy (JArr (map JObj srcs))); [|reflexivity].
  cbn [Json.iter]. rewrite bind_ok, pick_best_none by assumption.
  reflexivity.
Qed.

(** Every non-empty list splits at its first entry of highest resolution. *)
Lemma first_highest_split (srcs : list dict) :
  srcs <> [] ->
  exists pre e post,
    srcs = pre ++ e :: post
    /\ Forall (fun x => entry_resolution x < entry_resolution e) pre
    /\ Forall (fun x => entry_resolution x <= entry_resolution e) post.
Proof.
  induction srcs as [|x srcs IH]; [congruence|]. intros _.
  destruct srcs as [|y srcs].
  - exists [], x, []. repeat split; constructor.
  - destruct IH as (pre & e & post & Heq & Hpre & Hpost); [congruence|].
    destruct (Z_lt_le_dec (entry_resolution x) (entry_resolution e)) as [Hlt|Hge].
    + exists (x :: pre), e, post. rewrite Heq. repeat split; [|assumption].
      now constructor.
    + exists [], x, (y :: srcs). repeat split; [constructor|].
      rewrite Heq. apply Forall_app. split.
      * eapply Forall_impl; [exact Hpre|]. cbn. intros; lia.
      * constructor; [lia|]. eapply Forall_impl; [exact Hpost|]. cbn. intros; lia.
Qed.


(** What [_get_video_details] does with a decoded body. *)
Lemma get_video_details_body (asset_id data : json) rs snt lg :
  _get_video_details asset_id (World (Ok data :: rs) snt lg) =
  let w' := World rs (snt ++ [Request (JStr (asset_url asset_id))
                                      (Some video_params)]) lg in
  match video_details data with
  | Ok (Some r) => (r, w')
  | Ok None => ((JNull, JStr ""), w')
  | Raise e => ((JNull, JStr ""), log_error asset_id e w')
  end.
Proof. reflexivity. Qed.

Lemma get_assoc (data : dict) (k : string) (v : json) :
  Json.assoc k data = Some v -> Json.get (JObj data) k = Ok v.
Proof. intros H. unfold Json.get, Json.get_default, Json.dict_get. now rewrite H. Qed.

Lemma truthy_dict (e : dict) : e <> [] -> Json.truthy (JObj e) = true.
Proof. destruct e; [congruence | reflexivity]. Qed.

Lemma truthy_arr_map {A} (f : A -> json) (l : list A) :
  l <> [] -> Json.truthy (JArr (map f l)) = true.
Proof. destruct l; [congruence | reflexivity]. Qed.

(** The [media_sources] branch returns the first entry of highest
    resolution when that resolution is not negative and the entry is
    not the empty dict. *)
Lemma from_media_sources_first_highest (data : dict)
      (pre : list dict) (e : dict) (post : list dict) :
  Json.assoc "media_sources" data = Some (JArr (map JObj (pre ++ e :: post))) ->
  e <> [] ->
  0 <= entry_resolution e ->
  Forall (fun x => entry_resolution x < entry_resolution e) pre ->
  Forall (fun x => entry_resolution x <= entry_resolution e) post ->
  from_media_sources (JObj data) =
  Ok (Some (Json.dict_get e "src" JNull, Json.dict_get e "label" JNull)).
Proof.
  intros Hms Hne Hres Hpre Hpost. unfold from_media_sources.
  rewrite (get_assoc _ _ _ Hms), bind_ok.
  rewrite truthy_arr_map by (destruct pre; discriminate).
  cbn [Json.iter]. rewrite bind_ok.
  rewrite pick_best_first_highest by (assumption || lia).
  rewrite bind_ok, truthy_dict by assumption. reflexivity.
Qed.

(** When the [media_sources] branch returns, that is the answer. *)
Lemma get_video_details_media (asset_id : json) (data : dict) (r : json * json)
      (rs : list (result json)) (snt : list request) (lg : list (json * exn)) :
  from_media_sources (JObj data) = Ok (Some r) ->
  fst (_get_video_details asset_id (World (Ok (JObj data) :: rs) snt lg)) = r.
Proof.
  intros H. rewrite get_video_details_body. unfold video_details. now rewrite H.
Qed.

(** ** C1, as amended: among media sources that are JSON objects, video
    resolution returns the stream URL and label of the first entry whose
    quality label parses to the highest value (a later entry of equal
    resolution never replaces it), provided that value is at least 0 and
    the entry is not the empty object; so of "480p", "720p", "1080p" the
    "1080p" entry is chosen, and of two "1080p" entries the first. *)
Theorem video_first_highest_selected :
  (forall (asset_id : json) (data : dict)
          (pre : list dict) (e : dict) (post : list dict)
          (rs : list (result json)) (snt : list request) (lg : list (json * exn)),
      Json.assoc "media_sources" data = Some (JArr (map JObj (pre ++ e :: post))) ->
      e <> [] ->
      0 <= entry_resolution e ->
      Forall (fun x => entry_resolution x < entry_resolution e) pre ->
      Forall (fun x => entry_resolution x <= entry_resolution e) post ->
      fst (_get_video_details asset_id (World (Ok (JObj data) :: rs) snt lg)) =
      (Json.dict_get e "src" JNull, Json.dict_get e "label" JNull))
  /\ (forall (asset_id : json) (u480 u720 u1080 : string)
             (rs : list (result json)) (snt : list request) (lg : list (json * exn)),
        fst (_get_video_details asset_id
               (World (Ok (JObj [("media_sources",
                                  JArr (map JObj [source "480p" u480;
                                                  source "720p" u720;
                                                  source "1080p" u1080]))]) :: rs)
                      snt lg))
        = (JStr u1080, JStr "1080p"))
  /\ (forall (asset_id : json) (first second : string)
             (rs : list (result json)) (snt : list request) (lg : list (json * exn)),
        fst (_get_video_details asset_id
               (World (Ok (JObj [("media_sources",
                                  JArr (map JObj [source "1080p" first;
                                                  source "1080p" second]))]) :: rs)
                      snt lg))
        = (JStr first, JStr "1080p")).
Proof.
  assert (Hgen : forall asset_id data pre e post rs snt lg,
             Json.assoc "media_sources" data
               = Some (JArr (map JObj (pre ++ e :: post))) ->
             e <> [] ->
             0 <= entry_resolution e ->
             Forall (fun x => entry_resolution x < entry_resolution e) pre ->
             Forall (fun x => entry_resolution x <= entry_resolution e) post ->
             fst (_get_video_details asset_id (World (Ok (JObj data) :: rs) snt lg)) =
             (Json.dict_get e "src" JNull, Json.dict_get e "label" JNull)).
  { intros asset_id data pre e post rs snt lg Hms Hne Hres Hpre Hpost.
    apply get_video_details_media.
    unfold from_media_sources. rewrite (get_assoc _ _ _ Hms), bind_ok.
    rewrite truthy_arr_map by (destruct pre; discriminate).
    cbn [Json.iter]. rewrite bind_ok.
    rewrite pick_best_first_highest by (assumption || lia).
    rewrite bind_ok, truthy_dict by assumption. reflexivity. }
  split; [exact Hgen|]. split.
  - intros asset_id u480 u720 u1080 rs snt lg.
    apply (Hgen asset_id _ [source "480p" u480; source "720p" u720]
             (source "1080p" u1080) []).
    + reflexivity.
    + discriminate.
    + vm_compute. discriminate.
    + repeat constructor.
    + constructor.
  - intros asset_id first second rs snt lg.
    apply (Hgen asset_id _ [] (source "1080p" first) [source "1080p" second]).
    + reflexivity.
    + discriminate.
    + vm_compute. discriminate.
    + constructor.
    + repeat constructor. vm_compute. discriminate.
Qed.

(** "480p", "720p", "1080p" in that order: the "1080p" entry is chosen. *)
Lemma video_first_highest_selected_witness :
  fst (_get_video_details (JNum 7)
         (World [Ok (JObj [("media_sources",
                            JArr (map JObj [source "480p" "u480";
                                            source "720p" "u720";
                                            source "1080p" "u1080"]))])] [] []))
  = (JStr "u1080", JStr "1080p").
Proof.
  apply (proj1 video_first_highest_selected (JNum 7) _
           [source "480p" "u480"; source "720p" "u720"]
           (source "1080p" "u1080") []).
  - reflexivity.
  - discriminate.
  - vm_compute. discriminate.
  - repeat constructor.
  - constructor.
Defined.

(** "1080p" then a duplicate "1080p": the first instance is kept. *)
Example video_duplicate_keeps_first :
  fst (_get_video_details (JNum 7)
         (World [Ok (JObj [("media_sources",
                            JArr (map JObj [source "1080p" "first";
                                            source "1080p" "second"]))])] [] []))
  = (JStr "first", JStr "1080p").
Proof. reflexivity. Qed.

(** C1 as stated fails on a label that parses below zero: the only
    entry has the highest resolution of the list and is not selected. *)
Lemma video_negative_label_not_selected :
  let srcs := [source "-5p" "u"] in
  ~ exists e, In e srcs
      /\ Forall (fun x => entry_resolution x <= entry_resolution e) srcs
      /\ fst (_get_video_details (JNum 7)
                (World [Ok (JObj [("media_sources", JArr (map JObj srcs))])] [] []))
         = (Json.dict_get e "src" JNull, Json.dict_get e "label" JNull).
Proof.
  intros srcs (e & Hin & _ & Heq). destruct Hin as [<-|[]].
  vm_compute in Heq. discriminate.
Qed.

(** A label that is absent, not a string, or not an integer literal once
    its "p" are removed, counts as resolution 0. *)
Lemma entry_resolution_unusable (e : dict) :
  label_unusable e -> entry_resolution e = 0.
Proof.
  unfold label_unusable, entry_resolution, Json.dict_get.
  destruct (Json.assoc "label" e) as [[| | |s| |]|]; cbn; try reflexivity.
  intros ->. reflexivity.
Qed.

(** When the [media_sources] branch returns nothing, [download_urls]
    decides. *)
Lemma video_details_fallback (data : json) :
  from_media_sources data = Ok None ->
  video_details data = from_download_urls data.
Proof. intros H. unfold video_details. now rewrite H, bind_ok. Qed.

(** The loop's choice is the empty object: the [if best:] test fails. *)
Lemma from_media_sources_empty_entry (data : dict)
      (pre : list dict) (post : list dict) :
  Json.assoc "media_sources" data = Some (JArr (map JObj (pre ++ [] :: post))) ->
  Forall (fun x => entry_resolution x < entry_resolution []) pre ->
  Forall (fun x => entry_resolution x <= entry_resolution []) post ->
  from_media_sources (JObj data) = Ok None.
Proof.
  intros Hms Hpre Hpost. unfold from_media_sources.
  rewrite (get_assoc _ _ _ Hms), bind_ok.
  rewrite truthy_arr_map by (destruct pre; discriminate).
  cbn [Json.iter]. rewrite bind_ok.
  rewrite pick_best_first_highest by (assumption || (vm_compute; reflexivity)).
  rewrite bind_ok. reflexivity.
Qed.

(** ** C10, as amended: when [media_sources] is a non-empty list of JSON
    objects, take its first entry of highest resolution (an absent or
    unparseable label counts as 0, so when every label is such this is
    the first entry).  If that entry is not the empty object and its
    resolution is 0 or more, video resolution returns its stream URL and
    its label, whatever [download_urls] holds, and no URL when the entry
    has no stream URL; if it is the empty object or its resolution is
    below 0, the answer is the one [download_urls] gives. *)
Theorem video_media_sources_no_fallback (asset_id : json) (data : dict)
        (first : dict) (others : list dict)
        (rs : list (result json)) (snt : list request) (lg : list (json * exn)) :
  let srcs := first :: others in
  let answer :=
    fst (_get_video_details asset_id (World (Ok (JObj data) :: rs) snt lg)) in
  Json.assoc "media_sources" data = Some (JArr (map JObj srcs)) ->
  exists pre e post,
    srcs = pre ++ e :: post
    /\ Forall (fun x => entry_resolution x < entry_resolution e) pre
    /\ Forall (fun x => entry_resolution x <= entry_resolution e) post
    /\ (Forall label_unusable srcs -> pre = [] /\ e = first)
    /\ (e <> [] -> 0 <= entry_resolution e ->
        answer = (Json.dict_get e "src" JNull, Json.dict_get e "label" JNull)
        /\ (Json.assoc "src" e = None -> fst answer = JNull))
    /\ (e = [] \/ entry_resolution e < 0 ->
        video_details (JObj data) = from_download_urls (JObj data)).
Proof.
  intros srcs answer Hms.
  destruct (first_highest_split srcs) as (pre & e & post & Heq & Hpre & Hpost);
    [discriminate|].
  exists pre, e, post. split; [exact Heq|]. split; [exact Hpre|].
  split; [exact Hpost|]. split; [|split].
  - intros Hun. destruct pre as [|x pre].
    + cbn [app] in Heq. split; [reflexivity|]. now inversion Heq.
    + exfalso. cbn [app] in Heq. inversion Heq; subst x.
      apply Forall_cons in Hpre as [Hlt _].
      rewrite Forall_forall in Hun.
      rewrite (entry_resolution_unusable first) in Hlt by (apply Hun; left).
      rewrite (entry_resolution_unusable e) in Hlt
        by (apply Hun; rewrite Heq; right; apply list_elem_of_In, in_elt).
      lia.
  - intros Hne Hres.
    assert (Hans : answer =
                   (Json.dict_get e "src" JNull, Json.dict_get e "label" JNull)).
    { subst answer. rewrite Heq in Hms. apply get_video_details_media.
      now apply (from_media_sources_first_highest _ pre e post). }
    split; [exact Hans|]. intros Hnosrc. rewrite Hans. cbn [fst].
    unfold Json.dict_get. now rewrite Hnosrc.
  - intros Hbad. apply video_details_fallback. rewrite Heq in Hms.
    destruct Hbad as [->|Hneg].
    + now apply (from_media_sources_empty_entry _ pre post).
    + apply (from_media_sources_all_negative _ (pre ++ e :: post) Hms).
      apply Forall_app. split; [|constructor; [lia|]].
      * eapply Forall_impl; [exact Hpre|]. cbn beta. intros; lia.
      * eapply Forall_impl; [exact Hpost|]. cbn beta. intros; lia.
Qed.

(** Two entries without a label and without a stream URL, and a
    download URL at hand: the first entry is the answer. *)
Lemma video_media_sources_no_fallback_witness :
  fst (_get_video_details (JNum 7)
         (World [Ok (JObj [("media_sources",
                            JArr (map JObj [[("id", JNum 1)]; [("id", JNum 2)]]));
                           ("download_urls",
                            JObj [("Video", JArr [JObj [("file", JStr "f")]])])])]
                [] []))
  = (JNull, JNull).
Proof.
  destruct (video_media_sources_no_fallback (JNum 7)
              [("media_sources",
                JArr (map JObj [[("id", JNum 1)]; [("id", JNum 2)]]));
               ("download_urls",
                JObj [("Video", JArr [JObj [("file", JStr "f")]])])]
              [("id", JNum 1)] [[("id", JNum 2)]] [] [] [] eq_refl)
    as (pre & e & post & _ & _ & _ & Hfirst & Hsel & _).
  destruct Hfirst as [_ ->]; [repeat constructor|].
  destruct Hsel as [Hans _]; [discriminate | vm_compute; discriminate|].
  exact Hans.
Defined.

(** The entry of highest resolution has no stream URL: the answer has no
    URL, although another entry and the download URLs have one. *)
Example video_selected_entry_without_url :
  fst (_get_video_details (JNum 7)
         (World [Ok (JObj [("media_sources",
                            JArr [JObj [("label", JStr "720p")];
                                  JObj (source "480p" "u")]);
                           ("download_urls",
                            JObj [("Video", JArr [JObj [("file", JStr "f")]])])])]
                [] []))
  = (JNull, JStr "720p").
Proof. reflexivity. Qed.

(** An empty object that is not the entry of highest resolution does no
    harm. *)
Example video_empty_entry_not_selected :
  fst (_get_video_details (JNum 7)
         (World [Ok (JObj [("media_sources",
                            JArr [JObj (source "720p" "u"); JObj []]);
                           ("download_urls",
                            JObj [("Video", JArr [JObj [("file", JStr "f")]])])])]
                [] []))
  = (JStr "u", JStr "720p").
Proof. reflexivity. Qed.

(** C10 as stated fails when the labels parse below zero: no entry beats
    the initial maximum, and the answer is the download URL, not an entry
    of [media_sources]. *)
Lemma video_falls_back_on_negative_labels :
  let srcs := [source "-1p" "s"; source "-720p" "t"] in
  let answer :=
    fst (_get_video_details (JNum 7)
           (World [Ok (JObj [("media_sources", JArr (map JObj srcs));
                             ("download_urls",
                              JObj [("Video", JArr [JObj [("file", JStr "f")]])])])]
                  [] [])) in
  answer = (JStr "f", JStr "Download")
  /\ ~ exists e, In e srcs
        /\ answer = (Json.dict_get e "src" JNull, Json.dict_get e "label" JNull).
Proof.
  intros srcs answer. split; [reflexivity|].
  intros (e & Hin & Heq). vm_compute in Heq.
  destruct Hin as [<-|[<-|[]]]; discriminate Heq.
Qed.

(** An entry that is the empty object is chosen by the loop (its label
    defaults to "0") and then fails the [if best:] test. *)
Example video_falls_back_on_empty_entry :
  fst (_get_video_details (JNum 7)
         (World [Ok (JObj [("media_sources", JArr [JObj []]);
                           ("download_urls",
                            JObj [("Video", JArr [JObj [("file", JStr "f")]])])])]
                [] []))
  = (JStr "f", JStr "Download").
Proof. reflexivity. Qed.

End VideoResolution.

(** * Beyond the specification *)

(** ** The shape of the module tree *)

Section TreeShape.

Variable course : Course.

Lemma lessons_of_cons (it : dict) (rest : list dict) :
  lessons_of (it :: rest) =
  if is_lecture it then lesson_of it :: lessons_of rest else lessons_of rest.
Proof. unfold lessons_of. cbn [List.filter]. now destruct (is_lecture it). Qed.

(** With a current module, the loop fills it up to the next chapter and
    then builds the chapters' modules. *)
Lemma group_items_current (items : list dict) (done : list ModuleEntry) (m : ModuleEntry) :
  group_items course (map JObj items) (Some (length done)) (done ++ [m]) =
  (done ++ with_lessons m (lessons_of (leading items)) :: chapters_tree items, None).
Proof.
  revert done m. induction items as [|it items IH]; intros done m.
  - cbn. now rewrite with_lessons_nil.
  - cbn [map leading chapters_tree]. rewrite group_items_dict.
    destruct (is_chapter it) eqn:Hch.
    + rewrite (IH (done ++ [m]) (chapter_module it)).
      unfold lessons_of at 2. cbn [List.filter map]. rewrite with_lessons_nil.
      now rewrite <- app_assoc.
    + rewrite lessons_of_cons. destruct (is_lecture it).
      * rewrite alter_last, IH. now rewrite with_lessons_add.
      * apply IH.
Qed.

(** Without a current module, the first lecture opens the startup
    module. *)
Lemma group_items_fresh (items : list dict) (modules : list ModuleEntry) :
  group_items course (map JObj items) None modules =
  (modules
     ++ match lessons_of (leading items) with
        | [] => []
        | ls => [with_lessons (startup_module course) ls]
        end
     ++ chapters_tree items, None).
Proof.
  revert modules. induction items as [|it items IH]; intros modules.
  - cbn. now rewrite app_nil_r.
  - cbn [map leading chapters_tree]. rewrite group_items_dict.
    destruct (is_chapter it) eqn:Hch.
    + rewrite (group_items_current items modules (chapter_module it)).
      unfold lessons_of at 2. cbn [List.filter map app]. reflexivity.
    + rewrite lessons_of_cons. destruct (is_lecture it).
      * rewrite alter_last, (group_items_current items modules).
        rewrite with_lessons_add. reflexivity.
      * apply IH.
Qed.

Lemma leading_no_chapter (items : list dict) :
  existsb is_chapter items = false -> leading items = items.
Proof.
  induction items as [|it items IH]; [reflexivity|]. cbn [existsb leading].
  intros H. apply orb_false_iff in H as [-> H]. now rewrite IH.
Qed.

Lemma chapters_tree_no_chapter (items : list dict) :
  existsb is_chapter items = false -> chapters_tree items = [].
Proof.
  induction items as [|it items IH]; [reflexivity|]. cbn [existsb chapters_tree].
  intros H. apply orb_false_iff in H as [-> H]. now apply IH.
Qed.

(** One turn of the loop over courses on a feed of objects. *)
Lemma course_step_tree (items : list dict) (modules : list ModuleEntry) (w w' : world) :
  _fetch_curriculum (course_id course) w = (Ok (map JObj items), w') ->
  course_step (modules, w) course =
  (modules ++ head_modules course items ++ chapters_tree items, w').
Proof.
  intros Hf.
  rewrite (course_step_fetched course modules w w' _ _ Hf (any_chapter_dicts items)).
  unfold head_modules. destruct (existsb is_chapter items) eqn:Hany; cbn [fst snd].
  - rewrite group_items_fresh. reflexivity.
  - rewrite (group_items_current items modules (default_module course)).
    cbn [fst snd app].
    now rewrite (leading_no_chapter _ Hany), (chapters_tree_no_chapter _ Hany).
Qed.

(** ** X1: the tree of a course is the head module, if any, followed by one
    module per chapter item, in feed order, each with the lectures up to
    the next chapter. *)
Theorem tree_of_course (items : list dict) (w w' : world) :
  _fetch_curriculum (course_id course) w = (Ok (map JObj items), w') ->
  fetch_course_content [course] w =
  (head_modules course items ++ chapters_tree items, w').
Proof.
  intros Hf. unfold fetch_course_content. cbn [fold_left].
  now rewrite (course_step_tree items [] w w' Hf).
Qed.

Lemma chapter_not_lecture (it : dict) : is_chapter it = true -> is_lecture it = false.
Proof.
  unfold is_chapter, is_lecture.
  destruct (Json.dict_get it "_class" JNull) as [| | |s| |]; try discriminate.
  cbn. intros Hs. apply String.eqb_eq in Hs. now subst s.
Qed.

Lemma lessons_in_tree (items : list dict) :
  lessons_of (leading items) ++ concat (map module_lessons (chapters_tree items))
  = lessons_of items.
Proof.
  induction items as [|it items IH]; [reflexivity|].
  cbn [leading chapters_tree]. destruct (is_chapter it) eqn:Hch.
  - rewrite (lessons_of_cons it items), (chapter_not_lecture _ Hch).
    cbn [map concat with_lessons module_lessons chapter_module app]. exact IH.
  - rewrite !lessons_of_cons. destruct (is_lecture it); [cbn [app]; now f_equal | exact IH].
Qed.

Lemma head_modules_lessons (items : list dict) :
  concat (map module_lessons (head_modules course items)) =
  if existsb is_chapter items then lessons_of (leading items) else lessons_of items.
Proof.
  unfold head_modules. destruct (existsb is_chapter items).
  - destruct (lessons_of (leading items)) as [|l ls]; [reflexivity|].
    cbn. now rewrite app_nil_r.
  - cbn. now rewrite app_nil_r.
Qed.

(** ** X2: the lessons of the modules, read in tree order, are the lessons of
    the lecture items in feed order: none is lost, repeated or moved. *)
Theorem tree_keeps_every_lecture (items : list dict) (w w' : world) :
  _fetch_curriculum (course_id course) w = (Ok (map JObj items), w') ->
  concat (map module_lessons (fst (fetch_course_content [course] w)))
  = map lesson_of (List.filter is_lecture items).
Proof.
  intros Hf. unfold fetch_course_content. cbn [fold_left].
  rewrite (course_step_tree items [] w w' Hf). cbn [fst app].
  rewrite map_app, concat_app, head_modules_lessons. fold (lessons_of items).
  destruct (existsb is_chapter items) eqn:Hany; [apply lessons_in_tree|].
  rewrite (chapters_tree_no_chapter _ Hany). cbn. apply app_nil_r.
Qed.

(** Items of another kind change nothing. *)
Lemma leading_interpreted (items : list dict) :
  lessons_of (leading (List.filter interpreted items)) = lessons_of (leading items).
Proof.
  induction items as [|it items IH]; [reflexivity|]. cbn [List.filter].
  unfold interpreted at 1. destruct (is_chapter it) eqn:Hch; cbn [orb].
  - cbn [leading]. now rewrite Hch.
  - destruct (is_lecture it) eqn:Hl; cbn [leading]; rewrite Hch.
    + rewrite !lessons_of_cons, Hl. now f_equal.
    + now rewrite lessons_of_cons, Hl.
Qed.

Lemma chapters_tree_interpreted (items : list dict) :
  chapters_tree (List.filter interpreted items) = chapters_tree items.
Proof.
  induction items as [|it items IH]; [reflexivity|]. cbn [List.filter].
  unfold interpreted at 1. destruct (is_chapter it) eqn:Hch; cbn [orb].
  - cbn [chapters_tree]. now rewrite Hch, IH, leading_interpreted.
  - destruct (is_lecture it) eqn:Hl; cbn [chapters_tree]; now rewrite ?Hch.
Qed.

Lemma existsb_chapter_interpreted (items : list dict) :
  existsb is_chapter (List.filter interpreted items) = existsb is_chapter items.
Proof.
  induction items as [|it items IH]; [reflexivity|]. cbn [List.filter existsb].
  unfold interpreted at 1. destruct (is_chapter it) eqn:Hch; cbn [orb].
  - cbn [existsb]. now rewrite Hch.
  - destruct (is_lecture it); cbn [existsb]; now rewrite ?Hch.
Qed.

Lemma lessons_of_interpreted (items : list dict) :
  lessons_of (List.filter interpreted items) = lessons_of items.
Proof.
  induction items as [|it items IH]; [reflexivity|]. cbn [List.filter].
  unfold interpreted at 1. destruct (is_chapter it) eqn:Hch; cbn [orb].
  - now rewrite !lessons_of_cons, IH.
  - destruct (is_lecture it) eqn:Hl.
    + now rewrite !lessons_of_cons, Hl, IH.
    + now rewrite lessons_of_cons, Hl.
Qed.

Lemma head_modules_interpreted (items : list dict) :
  head_modules course (List.filter interpreted items) = head_modules course items.
Proof.
  unfold head_modules.
  now rewrite leading_interpreted, existsb_chapter_interpreted, lessons_of_interpreted.
Qed.

(** ** X3: quizzes, practices and every other kind of item are skipped: a
    feed and the same feed without them give the same tree. *)
Theorem other_items_are_skipped (items : list dict) (w1 w1' w2 w2' : world) :
  _fetch_curriculum (course_id course) w1 = (Ok (map JObj items), w1') ->
  _fetch_curriculum (course_id course) w2
    = (Ok (map JObj (List.filter interpreted items)), w2') ->
  fst (fetch_course_content [course] w1) = fst (fetch_course_content [course] w2).
Proof.
  intros H1 H2. unfold fetch_course_content. cbn [fold_left].
  rewrite (course_step_tree _ [] _ _ H1), (course_step_tree _ [] _ _ H2).
  cbn [fst app]. now rewrite head_modules_interpreted, chapters_tree_interpreted.
Qed.

(** A value that is not an object stops the loop where it stands. *)
Lemma group_items_bad (pre : list dict) (bad : json) (rest : list json)
      (current : option nat) (modules : list ModuleEntry) :
  Json.is_dict bad = false ->
  group_items course (map JObj pre ++ bad :: rest) current modules =
  (fst (group_items course (map JObj pre) current modules), Some AttributeError).
Proof.
  intros Hbad. revert current modules.
  induction pre as [|it pre IH]; intros current modules.
  - cbn [map app]. destruct bad; try discriminate; reflexivity.
  - cbn [map app]. rewrite !group_items_dict.
    destruct (is_chapter it); [apply IH|].
    destruct (is_lecture it); [|apply IH].
    destruct current; apply IH.
Qed.

Lemma any_chapter_bad (pre : list dict) (bad : json) (rest : list json) :
  Json.is_dict bad = false ->
  any_chapter (map JObj pre ++ bad :: rest) =
  if existsb is_chapter pre then Ok true else Raise AttributeError.
Proof.
  intros Hbad. induction pre as [|it pre IH].
  - cbn [map app any_chapter existsb]. destruct bad; try discriminate; reflexivity.
  - cbn [map app any_chapter existsb]. unfold Json.get, Json.get_default.
    rewrite bind_ok. fold (is_chapter it). destruct (is_chapter it); [reflexivity | exact IH].
Qed.

(** ** X4: a feed with a value that is not an object, after its first
    chapter: the modules built from the items before that value stay in
    the tree and an AttributeError is logged for the course. *)
Theorem malformed_item_keeps_partial_tree (pre : list dict) (bad : json)
        (rest : list json) (w w' : world) :
  _fetch_curriculum (course_id course) w = (Ok (map JObj pre ++ bad :: rest), w') ->
  Json.is_dict bad = false ->
  existsb is_chapter pre = true ->
  fetch_course_content [course] w =
  (head_modules course pre ++ chapters_tree pre,
   log_error (course_name course) AttributeError w').
Proof.
  intros Hf Hbad Hch. unfold fetch_course_content. cbn [fold_left].
  pose proof (any_chapter_bad pre bad rest Hbad) as Hany. rewrite Hch in Hany.
  rewrite (course_step_fetched course [] w w' _ true Hf Hany). cbn [fst snd].
  rewrite group_items_bad by assumption. cbn [fst snd].
  rewrite group_items_fresh. cbn [fst app].
  unfold head_modules. now rewrite Hch.
Qed.

(** ** X5: the same value before any chapter: the course adds no module at
    all, not even for the lectures that came before the value. *)
Theorem malformed_item_drops_course (pre : list dict) (bad : json)
        (rest : list json) (w w' : world) :
  _fetch_curriculum (course_id course) w = (Ok (map JObj pre ++ bad :: rest), w') ->
  Json.is_dict bad = false ->
  existsb is_chapter pre = false ->
  fetch_course_content [course] w =
  ([], log_error (course_name course) AttributeError w').
Proof.
  intros Hf Hbad Hch. unfold fetch_course_content. cbn [fold_left].
  unfold course_step. rewrite Hf, (any_chapter_bad pre bad rest Hbad), Hch.
  reflexivity.
Qed.

End TreeShape.

Section BatchShape.

(** ** X6: the tree of a batch is the tree of its first courses followed by
    the tree of the others, fetched in the world the first ones left: a
    course never changes the modules of the courses before it. *)
Theorem tree_of_batch (first rest : list Course) (w : world) :
  fetch_course_content (first ++ rest) w =
  (fst (fetch_course_content first w)
     ++ fst (fetch_course_content rest (snd (fetch_course_content first w))),
   snd (fetch_course_content rest (snd (fetch_course_content first w)))).
Proof.
  unfold fetch_course_content. rewrite fold_left_app.
  destruct (fold_left course_step first ([], w)) as [ms w1]. cbn [fst snd].
  pose proof (fold_course_step_frame rest ms [] w1) as H.
  now rewrite app_nil_r in H.
Qed.

Lemma curriculum_loop_sent rs url first_call items snt lg :
  exists more, sent (snd (curriculum_loop rs url first_call items snt lg)) = snt ++ more.
Proof.
  revert url first_call items snt.
  induction rs as [|r rs IH]; intros url first_call items snt; cbn [curriculum_loop].
  - destruct (negb (Json.truthy url)); cbn; [exists []; now rewrite app_nil_r | eauto].
  - destruct (negb (Json.truthy url)); [exists []; cbn; now rewrite app_nil_r|].
    destruct r as [data|e]; [|cbn; eauto].
    destruct (_ ≫= _) as [[more next]|e]; [|cbn; eauto].
    destruct (IH next false (items ++ more)
                 (snt ++ [Request url (if first_call then Some curriculum_params else None)]))
      as [more' ->].
    rewrite <- app_assoc. eauto.
Qed.

Lemma fetch_curriculum_first_request (course_id : string) (w : world) :
  exists more,
    sent (snd (_fetch_curriculum course_id w)) =
    sent w ++ Request (JStr (curriculum_url course_id)) (Some curriculum_params) :: more.
Proof.
  unfold _fetch_curriculum.
  assert (Ht : Json.truthy (JStr (curriculum_url course_id)) = true) by reflexivity.
  destruct (pending w) as [|r rs]; cbn [curriculum_loop]; rewrite Ht; cbn [negb].
  - cbn. eauto.
  - destruct r as [data|e]; [|cbn; eauto].
    destruct (_ ≫= _) as [[more next]|e]; [|cbn; eauto].
    destruct (curriculum_loop_sent rs next false ([] ++ more)
                (sent w ++ [Request (JStr (curriculum_url course_id))
                                    (Some curriculum_params)]) (logged w))
      as [more' ->].
    rewrite <- app_assoc. eauto.
Qed.

Lemma course_step_counts (modules : list ModuleEntry) (w : world) (c : Course) :
  let w' := snd (course_step (modules, w) c) in
  (length (logged w') <= S (length (logged w)))%nat
  /\ (S (length (sent w)) <= length (sent w'))%nat.
Proof.
  unfold course_step.
  pose proof (curriculum_loop_logged (pending w)
                (JStr (curriculum_url (course_id c))) true [] (sent w) (logged w)) as Hl.
  destruct (fetch_curriculum_first_request (course_id c) w) as [more Hs].
  unfold _fetch_curriculum in *.
  destruct (curriculum_loop _ _ _ _ _ _) as [[curriculum|e] w']; cbn [snd] in *.
  - destruct (any_chapter curriculum) as [has_chapter|e].
    + destruct (if negb has_chapter then _ else _) as [cur ms].
      destruct (group_items c curriculum cur ms) as [ms' [e|]]; cbn;
        rewrite ?length_app, Hl, Hs, ?length_app; cbn; lia.
    + cbn. rewrite ?length_app, Hl, Hs, ?length_app; cbn; lia.
  - cbn. rewrite ?length_app, Hl, Hs, ?length_app; cbn; lia.
Qed.

(** ** X7: a batch logs at most one error per course and sends at least one
    request per course. *)
Theorem batch_logs_and_requests (courses : list Course) (w : world) :
  let w' := snd (fetch_course_content courses w) in
  (length (logged w') <= length (logged w) + length courses)%nat
  /\ (length (sent w) + length courses <= length (sent w'))%nat.
Proof.
  unfold fetch_course_content. generalize (@nil ModuleEntry) as modules.
  revert w. induction courses as [|c courses IH]; intros w modules.
  - cbn. lia.
  - cbn [fold_left length].
    pose proof (course_step_counts modules w c) as [Hl Hs].
    destruct (course_step (modules, w) c) as [ms w1]. cbn [snd] in *.
    specialize (IH w1 ms). cbn zeta in IH. lia.
Qed.

End BatchShape.

Lemma tree_of_course_witness :
  fst (fetch_course_content [java] (feed_world (map JObj feed_with_quiz)))
  = [MkModule "1" (JStr "Basics")
              [MkLesson "2" (JStr "Hello") JNull JNull;
               MkLesson "4" (JStr "Loops") JNull JNull];
     MkModule "5" (JStr "More") [MkLesson "6" (JStr "Traits") JNull JNull]].
Proof.
  rewrite (tree_of_course java feed_with_quiz
             (feed_world (map JObj feed_with_quiz)) java_fetched eq_refl).
  reflexivity.
Defined.

Lemma tree_keeps_every_lecture_witness :
  concat (map module_lessons
            (fst (fetch_course_content [java] (feed_world (map JObj feed_with_quiz)))))
  = [MkLesson "2" (JStr "Hello") JNull JNull;
     MkLesson "4" (JStr "Loops") JNull JNull;
     MkLesson "6" (JStr "Traits") JNull JNull].
Proof.
  rewrite (tree_keeps_every_lecture java feed_with_quiz
             (feed_world (map JObj feed_with_quiz)) java_fetched eq_refl).
  reflexivity.
Defined.

Lemma other_items_are_skipped_witness :
  fst (fetch_course_content [java] (feed_world (map JObj feed_with_quiz)))
  = fst (fetch_course_content [java]
           (feed_world (map JObj (List.filter interpreted feed_with_quiz)))).
Proof.
  apply (other_items_are_skipped java feed_with_quiz
           (feed_world (map JObj feed_with_quiz)) java_fetched
           (feed_world (map JObj (List.filter interpreted feed_with_quiz))) java_fetched);
    reflexivity.
Defined.

Lemma malformed_item_keeps_partial_tree_witness :
  fst (fetch_course_content [java] (feed_world cut_after_chapter))
  = [MkModule "1" (JStr "Basics") [MkLesson "2" (JStr "Hello") JNull JNull]].
Proof.
  rewrite (malformed_item_keeps_partial_tree java
             [feed_item "chapter" 1 "Basics"; feed_item "lecture" 2 "Hello"]
             (JStr "oops") [JObj (feed_item "lecture" 4 "Loops")]
             (feed_world cut_after_chapter) java_fetched eq_refl eq_refl eq_refl).
  reflexivity.
Defined.

Lemma malformed_item_drops_course_witness :
  fetch_course_content [java] (feed_world cut_before_chapter)
  = ([], log_error (JStr "Java") AttributeError java_fetched).
Proof.
  apply (malformed_item_drops_course java [feed_item "lecture" 2 "Hello"]
           (JNum 0) [JObj (feed_item "chapter" 3 "Basics")]
           (feed_world cut_before_chapter) java_fetched); reflexivity.
Defined.

(** ** Failures and requests of the two crawls *)

Section PaginationFailures.

(** The curriculum loop over pages that all go on, then a failure. *)
Lemma curriculum_loop_fails (pages : list dict) (e : exn)
      (rest : list (result json)) url first_call items snt lg :
  Json.truthy url = true ->
  Forall continues pages -> Forall has_rows pages ->
  curriculum_loop (bodies pages ++ Raise e :: rest) url first_call items snt lg =
  (Raise e,
   World rest
         (snt ++ Request url (if first_call then Some curriculum_params else None)
              :: map (fun d => Request (page_next d) None) pages) lg).
Proof.
  intros Hurl Hcont. revert url first_call items snt Hurl.
  induction Hcont as [|d pages Hd _ IH]; intros url first_call items snt Hurl Hrows.
  - cbn [app bodies map curriculum_loop]. now rewrite Hurl.
  - cbn [app bodies map]. apply Forall_cons in Hrows as [Hd' Hrows].
    rewrite curriculum_loop_page by assumption. fold (bodies pages).
    rewrite IH by (auto using continues_truthy).
    now rewrite <- app_assoc.
Qed.

Lemma courses_loop_fails (pages : list dict) (e : exn)
      (rest : list (result json)) (u : string) all_courses snt lg cs :
  u <> "" ->
  Forall continues pages -> Forall has_rows pages ->
  for_each course_of_result (all_rows pages) = Ok cs ->
  courses_loop (bodies pages ++ Raise e :: rest) (JStr u) all_courses snt lg =
  (Raise e,
   World rest
         (snt ++ listing_request u :: map (fun d => listing_request (next_url d)) pages)
         lg).
Proof.
  intros Hu Hcont. revert u all_courses snt cs Hu.
  induction Hcont as [|d pages Hd _ IH]; intros u all_courses snt cs Hu Hrows Hcs.
  - cbn [app bodies map courses_loop Json.truthy].
    apply String.eqb_neq in Hu. rewrite Hu. cbn [negb]. now rewrite is_initial_str.
  - cbn [app bodies map] in *. apply Forall_cons in Hrows as [Hd' Hrows].
    unfold all_rows in Hcs. cbn [map concat] in Hcs.
    apply for_each_app_ok in Hcs as (ya & yb & Hya & Hyb & ->).
    rewrite (courses_loop_page _ _ _ _ _ _ ya) by assumption.
    fold (bodies pages). rewrite (continues_next _ Hd).
    rewrite (IH (next_url d) _ _ yb); try assumption.
    + now rewrite <- app_assoc.
    + destruct Hd as (u' & Hu' & Hne). unfold next_url. now rewrite Hu'.
Qed.

(** ** X8: listing and curriculum are all or nothing: when a request fails
    after any number of good pages, the call raises that failure and
    returns none of the rows it had gathered; no further request is
    sent. *)
Theorem pagination_is_all_or_nothing (course_id : string) (pages : list dict)
        (e : exn) (rest : list (result json))
        (snt : list request) (lg : list (json * exn)) (cs : list Course) :
  let w := World (bodies pages ++ Raise e :: rest) snt lg in
  Forall continues pages -> Forall has_rows pages ->
  for_each course_of_result (all_rows pages) = Ok cs ->
  (fst (fetch_courses w) = Raise e
   /\ pending (snd (fetch_courses w)) = rest
   /\ length (sent (snd (fetch_courses w))) = (length snt + S (length pages))%nat)
  /\ (fst (_fetch_curriculum course_id w) = Raise e
      /\ pending (snd (_fetch_curriculum course_id w)) = rest
      /\ length (sent (snd (_fetch_curriculum course_id w)))
         = (length snt + S (length pages))%nat).
Proof.
  intros w Hcont Hrows Hcs. split.
  - unfold fetch_courses, w. cbn [pending sent logged].
    rewrite (courses_loop_fails _ _ _ _ _ _ _ cs) by (assumption || discriminate).
    cbn [fst snd pending sent]. repeat split.
    rewrite length_app. cbn [length]. now rewrite List.length_map.
  - unfold _fetch_curriculum, w. cbn [pending sent logged].
    rewrite curriculum_loop_fails by (assumption || reflexivity).
    cbn [fst snd pending sent]. repeat split.
    rewrite length_app. cbn [length]. now rewrite List.length_map.
Qed.

(** ** X9: in the curriculum crawl only the first request carries the query
    parameters; every later request is the [next] of the page before it,
    as it came, without parameters. *)
Theorem curriculum_requests (course_id : string) (pages : list dict) (last : dict)
        (rest : list (result json)) (snt : list request) (lg : list (json * exn)) :
  Forall continues pages -> ends last -> Forall has_rows (pages ++ [last]) ->
  sent (snd (_fetch_curriculum course_id
               (World (bodies (pages ++ [last]) ++ rest) snt lg)))
  = snt ++ Request (JStr (curriculum_url course_id)) (Some curriculum_params)
        :: map (fun d => Request (page_next d) None) pages.
Proof.
  intros Hcont Hend Hrows. unfold _fetch_curriculum. cbn [pending sent logged].
  now rewrite curriculum_loop_pages by (assumption || reflexivity).
Qed.

(** ** X10: in the listing, a cursor that carries "page=" is followed as it
    came, without parameters. *)
Theorem listing_requests (pages : list dict) (last : dict)
        (rest : list (result json)) (snt : list request) (lg : list (json * exn))
        (cs : list Course) :
  Forall continues pages -> ends last -> Forall has_rows (pages ++ [last]) ->
  for_each course_of_result (all_rows (pages ++ [last])) = Ok cs ->
  Forall (fun d => Py.contains "page=" (next_url d) = true) pages ->
  sent (snd (fetch_courses (World (bodies (pages ++ [last]) ++ rest) snt lg)))
  = snt ++ Request (JStr listing_url) (Some listing_params)
        :: map (fun d => Request (page_next d) None) pages.
Proof.
  intros Hcont Hend Hrows Hcs Hpage. unfold fetch_courses. cbn [pending sent logged].
  rewrite (courses_loop_pages _ _ _ _ _ _ _ cs) by (assumption || discriminate).
  cbn [snd sent]. f_equal. f_equal.
  apply map_ext_in. intros d Hd.
  rewrite Forall_forall in Hpage, Hcont. apply list_elem_of_In in Hd.
  unfold listing_request. rewrite (Hpage d Hd), andb_false_r.
  now rewrite (continues_next d (Hcont d Hd)).
Qed.

End PaginationFailures.

Lemma pagination_is_all_or_nothing_witness :
  fst (fetch_courses
         (World (bodies [page [course_row (JStr "/course/a/learn/")]
                              (JStr cursor_with_page)]
                   ++ Raise RequestException :: []) [] []))
  = Raise RequestException.
Proof.
  refine (proj1 (proj1 (pagination_is_all_or_nothing "42"
            [page [course_row (JStr "/course/a/learn/")] (JStr cursor_with_page)]
            RequestException [] [] [] _ _ _ _))).
  - repeat constructor; eexists; (split; [reflexivity | discriminate]).
  - repeat constructor; eexists; reflexivity.
  - reflexivity.
Defined.

Lemma curriculum_requests_witness :
  sent (snd (_fetch_curriculum "42"
               (World (bodies ([page [JNum 1] (JStr "https://u/?page=2")]
                                 ++ [page [JNum 2] JNull]) ++ []) [] [])))
  = [] ++ [Request (JStr (curriculum_url "42")) (Some curriculum_params);
           Request (JStr "https://u/?page=2") None].
Proof.
  apply (curriculum_requests "42" [page [JNum 1] (JStr "https://u/?page=2")]
           (page [JNum 2] JNull) [] [] []).
  - repeat constructor; eexists; (split; [reflexivity | discriminate]).
  - reflexivity.
  - repeat constructor; eexists; reflexivity.
Defined.

Lemma listing_requests_witness :
  sent (snd (fetch_courses
               (World (bodies ([page [] (JStr cursor_with_page)] ++ [page [] JNull])
                         ++ []) [] [])))
  = [] ++ [Request (JStr listing_url) (Some listing_params);
           Request (JStr cursor_with_page) None].
Proof.
  apply (listing_requests [page [] (JStr cursor_with_page)] (page [] JNull) [] [] [] []).
  - repeat constructor; eexists; (split; [reflexivity | discriminate]).
  - reflexivity.
  - repeat constructor; eexists; reflexivity.
  - reflexivity.
  - repeat constructor.
Defined.

(** ** The slug of a course *)

Section Slug.

Lemma rstrip_app_keep (p : ascii -> bool) (q : string) (c : ascii) (t : string) :
  p c = false ->
  Py.rstrip p (q +:+ String c t) = q +:+ String c (Py.rstrip p t).
Proof.
  intros Hc. induction q as [|a q IH]; sapp.
  - cbn [Py.rstrip]. destruct (Py.rstrip p t); [now rewrite Hc | reflexivity].
  - cbn [Py.rstrip]. rewrite IH.
    destruct q; reflexivity.
Qed.

Lemma join_cons (sep p : string) (ps : list string) :
  ps <> [] -> Py.join sep (p :: ps) = p +:+ sep +:+ Py.join sep ps.
Proof. destruct ps; [congruence | reflexivity]. Qed.

Lemma split_join (sep : ascii) (segs : list string) :
  segs <> [] ->
  Forall (fun s => Py.mem sep s = false) segs ->
  Py.split sep (Py.join (String sep "") segs) = segs.
Proof.
  intros Hne Hall. induction Hall as [|s segs Hs Hall IH]; [congruence|].
  destruct segs as [|s' segs].
  - cbn [Py.join]. now apply split_no_sep.
  - rewrite join_cons by discriminate.
    change (String sep "" +:+ ?t) with (String sep t).
    rewrite split_first by assumption. f_equal. apply IH. discriminate.
Qed.

Lemma split_two (sep : ascii) (s : string) :
  Py.mem sep s = true -> (2 <= length (Py.split sep s))%nat.
Proof.
  induction s as [|a s IH]; [discriminate|].
  change (Py.mem sep (String a s)) with (Ascii.eqb sep a || Py.mem sep s).
  cbn [Py.split]. rewrite (Ascii.eqb_sym a sep).
  destruct (Ascii.eqb sep a); cbn [orb].
  - intros _. cbn [length]. pose proof (split_nonempty sep s).
    destruct (Py.split sep s); [congruence | cbn; lia].
  - intros H. specialize (IH H).
    destruct (Py.split sep s) as [|h t]; cbn in *; lia.
Qed.

(** The slug of a row whose URL is a non-empty string. *)
Lemma slug_of_str (row : dict) (u : string) :
  Json.assoc "url" row = Some (JStr u) -> u <> "" ->
  slug_of (JObj row) =
  match Py.second_to_last (Py.split "/" (Py.strip_chars "/" u)) with
  | Some seg => Ok seg
  | None => Raise IndexError
  end.
Proof.
  intros Hurl Hu. unfold slug_of, Json.get, Json.get_default, Json.dict_get.
  rewrite Hurl, !bind_ok. cbn [Json.truthy]. apply String.eqb_neq in Hu.
  rewrite Hu. cbn [negb str_strip_chars]. now rewrite bind_ok.
Qed.

(** ** X11: on a URL that is a non-empty string the slug expression raises
    IndexError exactly when no [/] is left once the outer slashes are
    stripped; otherwise it returns a segment. *)
Theorem slug_raises_without_inner_slash (row : dict) (u : string) :
  Json.assoc "url" row = Some (JStr u) -> u <> "" ->
  (Py.mem "/" (Py.strip_chars "/" u) = false -> slug_of (JObj row) = Raise IndexError)
  /\ (Py.mem "/" (Py.strip_chars "/" u) = true -> exists seg, slug_of (JObj row) = Ok seg).
Proof.
  intros Hurl Hu. rewrite (slug_of_str row u Hurl Hu). split.
  - intros Hno. now rewrite (split_no_sep _ _ Hno).
  - intros Hyes. apply split_two in Hyes. unfold Py.second_to_last.
    destruct (Nat.leb_spec 2 (length (Py.split "/" (Py.strip_chars "/" u)))); [|lia].
    destruct (lookup_lt_is_Some_2 (Py.split "/" (Py.strip_chars "/" u))
                (length (Py.split "/" (Py.strip_chars "/" u)) - 2)) as [seg Hseg];
      [lia|].
    rewrite Hseg. eauto.
Qed.

Lemma segment_first (s : string) :
  segment s -> exists a s', s = String a s' /\ Ascii.eqb a "/" = false.
Proof.
  intros [Hne Hno]. destruct s as [|a s']; [congruence|]. exists a, s'.
  split; [reflexivity|].
  change (Py.mem "/" (String a s')) with (Ascii.eqb "/" a || Py.mem "/" s') in Hno.
  apply orb_false_iff in Hno as [Ha _]. now rewrite Ascii.eqb_sym.
Qed.

Lemma segment_last (s : string) :
  segment s -> exists q c, s = q +:+ String c "" /\ Ascii.eqb c "/" = false.
Proof.
  intros [Hne Hno]. induction s as [|a s IH]; [congruence|].
  change (Py.mem "/" (String a s)) with (Ascii.eqb "/" a || Py.mem "/" s) in Hno.
  apply orb_false_iff in Hno as [Ha Hs].
  destruct s as [|b s].
  - exists "", a. split; [reflexivity | now rewrite Ascii.eqb_sym].
  - destruct (IH ltac:(discriminate) Hs) as (q & c & Hq & Hc).
    exists (String a q), c. sapp. now rewrite Hq.
Qed.

Lemma join_last (sep : string) (pre : list string) (x : string) :
  exists front, Py.join sep (pre ++ [x]) = front +:+ x.
Proof.
  induction pre as [|p pre [front IH]]; [now exists ""|].
  cbn [app]. rewrite join_cons by (destruct pre; discriminate).
  rewrite IH. exists (p +:+ sep +:+ front). now rewrite !app_assoc_s.
Qed.

(** Stripping the slashes around a path gives the path. *)
Lemma strip_slashes (segs : list string) (final : string) :
  Forall segment (segs ++ [final]) ->
  Py.strip_chars "/" ("/" +:+ Py.join "/" (segs ++ [final]) +:+ "/")
  = Py.join "/" (segs ++ [final]).
Proof.
  intros Hall.
  assert (Hfirst : exists a t, Py.join "/" (segs ++ [final]) = String a t
                               /\ Ascii.eqb a "/" = false).
  { destruct segs as [|s segs]; cbn [app] in *.
    - apply Forall_cons in Hall as [Hf _]. exact (segment_first _ Hf).
    - apply Forall_cons in Hall as [Hs _].
      destruct (segment_first _ Hs) as (a & s' & -> & Ha).
      rewrite join_cons by (destruct segs; discriminate). sapp. eauto. }
  assert (Hlast : exists q c, Py.join "/" (segs ++ [final]) = q +:+ String c ""
                              /\ Ascii.eqb c "/" = false).
  { apply Forall_app in Hall as [_ Hf]. apply Forall_cons in Hf as [Hf _].
    destruct (segment_last _ Hf) as (q & c & -> & Hc).
    destruct (join_last "/" segs (q +:+ String c "")) as [front ->].
    exists (front +:+ q), c. now rewrite app_assoc_s. }
  destruct Hfirst as (a & t & Hj & Ha). destruct Hlast as (q & c & Hq & Hc).
  unfold Py.strip_chars, Py.strip_by. sapp. cbn [Py.lstrip Py.mem].
  rewrite Ascii.eqb_refl. cbn [orb]. rewrite Hj at 1. sapp.
  cbn [Py.lstrip Py.mem]. rewrite Ha. cbn [orb]. rewrite <- app_cons, <- Hj.
  rewrite Hq, app_assoc_s. sapp.
  rewrite rstrip_app_keep by (cbn [Py.mem]; now rewrite Hc).
  reflexivity.
Qed.

(** ** X12: for a course URL [/s1/.../slug/last/] of at least two segments the
    slug is the segment before the last. *)
Theorem slug_is_second_to_last_segment (row : dict) (segs : list string)
        (slug final : string) :
  Json.assoc "url" row
    = Some (JStr ("/" +:+ Py.join "/" (segs ++ [slug; final]) +:+ "/")) ->
  Forall segment (segs ++ [slug; final]) ->
  slug_of (JObj row) = Ok slug.
Proof.
  intros Hurl Hall. rewrite (slug_of_str row _ Hurl) by discriminate.
  replace (segs ++ [slug; final]) with ((segs ++ [slug]) ++ [final]) in *
    by now rewrite <- app_assoc.
  rewrite strip_slashes by assumption.
  rewrite split_join.
  - unfold Py.second_to_last. rewrite <- app_assoc. cbn [app].
    rewrite length_app. cbn [length].
    destruct (Nat.leb_spec 2 (length segs + 2)); [|lia].
    replace (length segs + 2 - 2)%nat with (length segs + 0)%nat by lia.
    now rewrite lookup_app_r, Nat.add_0_r, Nat.sub_diag by lia.
  - destruct segs; discriminate.
  - eapply Forall_impl; [exact Hall|]. now intros s [_ Hs].
Qed.

End Slug.

Lemma slug_raises_without_inner_slash_witness :
  slug_of (JObj [("url", JStr "//course//")]) = Raise IndexError.
Proof.
  apply (proj1 (slug_raises_without_inner_slash [("url", JStr "//course//")]
                  "//course//" eq_refl ltac:(discriminate))).
  reflexivity.
Defined.

Lemma slug_is_second_to_last_segment_witness :
  slug_of (JObj [("id", JNum 7); ("url", JStr "/course/python-bootcamp/learn/")])
  = Ok "python-bootcamp".
Proof.
  apply (slug_is_second_to_last_segment _ ["course"] "python-bootcamp" "learn").
  - reflexivity.
  - repeat constructor; discriminate.
Defined.

(** ** Lesson details *)

Lemma contains_char (c : ascii) (s : string) :
  Py.contains (String c EmptyString) s = Py.mem c s.
Proof.
  induction s as [|a s IH]; [reflexivity|].
  rewrite contains_char_cons, IH. cbn [Py.mem].
  now rewrite (Ascii.eqb_sym a c).
Qed.

Lemma last_split (sep : ascii) (s : string) :
  Py.mem sep s = true ->
  exists stem ext,
    s = stem +:+ String sep ext /\ Py.mem sep ext = false
    /\ last (Py.split sep s) = Some ext.
Proof.
  induction s as [|a s IH]; [discriminate|].
  intros Hm. cbn [Py.mem] in Hm. cbn [Py.split].
  rewrite (Ascii.eqb_sym sep a) in Hm.
  destruct (Ascii.eqb_spec a sep) as [->|Hne].
  - destruct (Py.mem sep s) eqn:Hs.
    + destruct (IH eq_refl) as (stem & ext & -> & Hext & Hlast).
      exists (String sep stem), ext. sapp. split; [reflexivity|]. split; [exact Hext|].
      destruct (Py.split sep (stem +:+ String sep ext)) as [|h t]; [discriminate|].
      exact Hlast.
    + exists EmptyString, s. sapp. split; [reflexivity|]. split; [exact Hs|].
      rewrite (split_no_sep _ _ Hs). reflexivity.
  - cbn [orb] in Hm. destruct (IH Hm) as (stem & ext & -> & Hext & Hlast).
    exists (String a stem), ext. sapp. split; [reflexivity|]. split; [exact Hext|].
    destruct (Py.split sep (stem +:+ String sep ext)) as [|h t] eqn:Hsp; [discriminate|].
    destruct t as [|h' t]; [|exact Hlast].
    exfalso. pose proof (split_app_sep sep stem ext) as Hs2.
    rewrite Hsp in Hs2.
    destruct (Py.split sep stem) as [|x l] eqn:Hst; [now apply split_nonempty in Hst|].
    destruct (Py.split sep ext) eqn:He; [now apply split_nonempty in He|].
    apply (f_equal (@length string)) in Hs2.
    rewrite length_app in Hs2. cbn [length] in Hs2. lia.
Qed.

(** ** X13: the extension of a filename is the text after its last dot, and
    empty when the name has no dot: it never contains a dot, and the name
    is stem, dot, extension. *)
Theorem extension_is_text_after_last_dot (s : string) :
  exists ext,
    extension_of (JStr s) = Ok ext
    /\ Py.mem "." ext = false
    /\ (if Py.mem "." s then exists stem, s = stem +:+ "." +:+ ext
        else ext = EmptyString).
Proof.
  unfold extension_of. cbn [Json.has_str]. rewrite bind_ok, contains_char.
  destruct (Py.mem "." s) eqn:Hdot.
  - destruct (last_split _ _ Hdot) as (stem & ext & Hs & Hext & Hlast).
    exists ext. cbn [str_split]. rewrite bind_ok, Hlast.
    split; [reflexivity|]. split; [exact Hext|]. exists stem. now sapp.
  - exists EmptyString. repeat split.
Qed.

Lemma get_video_details_world (asset_id : json) (w : world) :
  sent (snd (_get_video_details asset_id w))
  = sent w ++ [Request (JStr (asset_url asset_id)) (Some video_params)]
  /\ exists l, logged (snd (_get_video_details asset_id w)) = logged w ++ l
               /\ (length l <= 1)%nat.
Proof.
  unfold _get_video_details, http_get.
  destruct (pending w) as [|r rest].
  - cbn. split; [reflexivity|]. exists [(asset_id, RequestException)].
    split; [reflexivity | cbn; lia].
  - destruct (data ← r; video_details data) as [[p|]|e]; cbn;
      (split; [reflexivity|]).
    + exists []. rewrite app_nil_r. split; [reflexivity | cbn; lia].
    + exists []. rewrite app_nil_r. split; [reflexivity | cbn; lia].
    + exists [(asset_id, e)]. split; [reflexivity | cbn; lia].
Qed.

Lemma get_attachment_url_world (asset_id : json) (w : world) :
  sent (snd (_get_attachment_url asset_id w))
  = sent w ++ [Request (JStr (asset_url asset_id)) (Some attachment_params)]
  /\ logged (snd (_get_attachment_url asset_id w)) = logged w.
Proof.
  unfold _get_attachment_url, http_get.
  destruct (pending w) as [|r rest].
  - cbn. split; reflexivity.
  - destruct (data ← r; attachment_file data) as [u|e]; cbn; split; reflexivity.
Qed.

Lemma lesson_videos_logged (lesson : Lesson) (w : world) :
  exists l, logged (snd (lesson_videos lesson w)) = logged w ++ l
            /\ (length l <= 1)%nat
            /\ (video_requests (lesson_asset lesson) = [] -> l = []).
Proof.
  assert (Hnil : exists l, logged w = logged w ++ l /\ (length l <= 1)%nat
                           /\ (video_requests (lesson_asset lesson) = [] -> l = [])).
  { exists []. rewrite app_nil_r. split; [reflexivity|]. split; [cbn; lia | reflexivity]. }
  unfold lesson_videos.
  destruct (Json.truthy (lesson_asset lesson)) eqn:Ht; [|exact Hnil].
  destruct (lesson_asset lesson) as [| | | |?|a] eqn:Ha; try exact Hnil.
  cbn [Json.get Json.get_default].
  fold (is_video a). destruct (is_video a) eqn:Hvid; [|exact Hnil].
  destruct (Json.truthy (Json.dict_get a "id" JNull)) eqn:Hid; [|exact Hnil].
  pose proof (get_video_details_world (Json.dict_get a "id" JNull) w) as (_ & l & Hl & Hlen).
  destruct (_get_video_details (Json.dict_get a "id" JNull) w) as [[video_url quality] w'].
  cbn [snd] in Hl.
  assert (H : exists l, logged w' = logged w ++ l /\ (length l <= 1)%nat
                        /\ (video_requests (JObj a) = [] -> l = [])).
  { exists l. split; [exact Hl|]. split; [exact Hlen|].
    unfold video_requests. rewrite Hvid, Hid. discriminate. }
  destruct (Json.truthy video_url); exact H.
Qed.

Lemma lesson_attachments_logged (supps : list json) (idx : Z)
      (done : list Attachment) (w : world) :
  logged (snd (lesson_attachments supps idx done w)) = logged w.
Proof.
  revert idx done w. induction supps as [|supp rest IH]; intros idx done w;
    [reflexivity|].
  cbn [lesson_attachments].
  destruct (Json.get supp "asset_type") as [ty|e]; [|reflexivity].
  destruct (Json.eq_str ty "File"); [|apply IH].
  destruct (Json.get supp "id") as [supp_id|e]; [|reflexivity].
  destruct (Json.get supp "filename") as [filename|e]; [|reflexivity].
  pose proof (get_attachment_url_world supp_id w) as [_ Hl].
  destruct (_get_attachment_url supp_id w) as [u w']. cbn [snd] in Hl.
  destruct (Json.truthy u); [|now rewrite IH].
  destruct (extension_of filename) as [ext|e]; [now rewrite IH | exact Hl].
Qed.

(** ** X14: only the video request of a lesson can leave a log entry: a call
    adds at most one entry, and none when the lesson has no video to
    request, whatever the attachment requests answer. *)
Theorem attachment_failures_are_silent (lesson : Lesson) (w : world) :
  exists l,
    logged (snd (fetch_lesson_details lesson w)) = logged w ++ l
    /\ (length l <= 1)%nat
    /\ (video_requests (lesson_asset lesson) = [] -> l = []).
Proof.
  destruct (lesson_videos_logged lesson w) as (l & Hl & Hlen & Hnone).
  exists l. split; [|split; assumption].
  unfold fetch_lesson_details.
  destruct (lesson_videos lesson w) as [[vs|e] w1]; cbn [snd] in Hl; [|exact Hl].
  destruct (Json.iter (lesson_supplementary_assets lesson)) as [supps|e]; [|exact Hl].
  pose proof (lesson_attachments_logged supps 1 [] w1) as Ha.
  destruct (lesson_attachments supps 1 [] w1) as [[atts|e] w2]; cbn [snd] in Ha;
    cbn [snd]; congruence.
Qed.

(** ** X15: a lecture item without [supplementary_assets] gives a lesson on
    which the call raises: the tree stores [None] under that key, which
    the attachment loop cannot enumerate. *)
Theorem lecture_without_supplementary_assets_raises (item : dict) (w : world) :
  Json.assoc "supplementary_assets" item = None ->
  fst (fetch_lesson_details (lesson_of item) w)
  = Raise (if Json.truthy (Json.dict_get item "asset" JNull)
              && negb (Json.is_dict (Json.dict_get item "asset" JNull))
           then AttributeError else TypeError).
Proof.
  intros Hnone.
  assert (Hs : Json.dict_get item "supplementary_assets" JNull = JNull)
    by (unfold Json.dict_get; now rewrite Hnone).
  unfold fetch_lesson_details, lesson_of.
  cbn [lesson_supplementary_assets lesson_asset lesson_name].
  rewrite Hs. cbn [Json.iter].
  unfold lesson_videos. cbn [lesson_asset lesson_name].
  destruct (Json.truthy (Json.dict_get item "asset" JNull)) eqn:Ht;
    [|reflexivity].
  destruct (Json.dict_get item "asset" JNull) as [| | | |?|a]; try reflexivity.
  cbn [Json.get Json.get_default Json.is_dict negb andb].
  destruct (Json.eq_str _ "Video"); [|reflexivity].
  destruct (Json.truthy (Json.dict_get a "id" JNull)); [|reflexivity].
  destruct (_get_video_details _ w) as [[video_url quality] w'].
  destruct (Json.truthy video_url); reflexivity.
Qed.

Lemma extension_of_str (s : string) : exists ext, extension_of (JStr s) = Ok ext.
Proof.
  unfold extension_of. cbn [Json.has_str]. rewrite bind_ok.
  destruct (Py.contains "." s); [|now exists EmptyString].
  cbn [str_split]. rewrite bind_ok. pose proof (split_nonempty "." s) as Hne.
  destruct (last (Py.split "." s)) as [ext|] eqn:Hl; [now exists ext|].
  apply last_None in Hl. contradiction.
Qed.

Lemma lesson_attachments_from (supps : list json) :
  forall (idx : Z) (done out : list Attachment) (w w' : world),
    lesson_attachments supps idx done w = (Ok out, w') ->
    exists new,
      out = done ++ new
      /\ Forall (fun a =>
                   idx <= attachment_order a
                   /\ exists supp,
                        supps !! Z.to_nat (attachment_order a - idx) = Some (JObj supp)
                        /\ is_file supp = true
                        /\ attachment_id a = py_str (Json.dict_get supp "id" JNull)
                        /\ attachment_filename a = Json.dict_get supp "filename" JNull
                        /\ Json.truthy (attachment_url a) = true) new.
Proof.
  induction supps as [|supp rest IH]; intros idx done out w w' H.
  - injection H as <- _. exists []. now rewrite app_nil_r.
  - assert (Hshift : forall new,
      Forall (fun a =>
                idx + 1 <= attachment_order a
                /\ exists s,
                     rest !! Z.to_nat (attachment_order a - (idx + 1)) = Some (JObj s)
                     /\ is_file s = true
                     /\ attachment_id a = py_str (Json.dict_get s "id" JNull)
                     /\ attachment_filename a = Json.dict_get s "filename" JNull
                     /\ Json.truthy (attachment_url a) = true) new ->
      Forall (fun a =>
                idx <= attachment_order a
                /\ exists s,
                     (supp :: rest) !! Z.to_nat (attachment_order a - idx) = Some (JObj s)
                     /\ is_file s = true
                     /\ attachment_id a = py_str (Json.dict_get s "id" JNull)
                     /\ attachment_filename a = Json.dict_get s "filename" JNull
                     /\ Json.truthy (attachment_url a) = true) new).
    { intros new Hn. eapply Forall_impl; [exact Hn|].
      intros a (Hle & s & Hs & Hrest).
      split; [lia|]. exists s. split; [|exact Hrest].
      replace (Z.to_nat (attachment_order a - idx))
        with (S (Z.to_nat (attachment_order a - (idx + 1)))) by lia.
      exact Hs. }
    cbn [lesson_attachments] in H.
    destruct supp as [| | | |?|d]; try discriminate.
    cbn [Json.get Json.get_default] in H. fold (is_file d) in H.
    destruct (is_file d) eqn:Hfile.
    + destruct (_get_attachment_url (Json.dict_get d "id" JNull) w) as [u w1].
      destruct (Json.truthy u) eqn:Hu.
      * destruct (extension_of (Json.dict_get d "filename" JNull)) as [ext|e];
          [|discriminate].
        destruct (IH _ _ _ _ _ H) as (new & -> & Hnew).
        eexists (_ :: new). rewrite <- app_assoc. split; [reflexivity|].
        constructor; [|now apply Hshift].
        cbn [attachment_order attachment_id attachment_filename attachment_url].
        split; [lia|]. exists d. replace (idx - idx) with 0 by lia.
        repeat split; assumption.
      * destruct (IH _ _ _ _ _ H) as (new & -> & Hnew).
        exists new. split; [reflexivity | now apply Hshift].
    + destruct (IH _ _ _ _ _ H) as (new & -> & Hnew).
      exists new. split; [reflexivity | now apply Hshift].
Qed.

Lemma lesson_attachments_sorted (supps : list json) :
  forall (idx : Z) (done out : list Attachment) (w w' : world),
    lesson_attachments supps idx done w = (Ok out, w') ->
    exists new,
      out = done ++ new
      /\ Forall (fun a => idx <= attachment_order a) new
      /\ StronglySorted Z.lt (map attachment_order new).
Proof.
  induction supps as [|supp rest IH]; intros idx done out w w' H.
  - injection H as <- _. exists []. rewrite app_nil_r.
    repeat split; constructor.
  - assert (Hweak : forall new,
        Forall (fun a => idx + 1 <= attachment_order a) new ->
        Forall (fun a => idx <= attachment_order a) new).
    { intros new Hn. eapply Forall_impl; [exact Hn|]. intros a Ha.
      cbn beta in *. lia. }
    cbn [lesson_attachments] in H.
    destruct (Json.get supp "asset_type") as [ty|e]; [|discriminate].
    destruct (Json.eq_str ty "File").
    + destruct (Json.get supp "id") as [supp_id|e]; [|discriminate].
      destruct (Json.get supp "filename") as [filename|e]; [|discriminate].
      destruct (_get_attachment_url supp_id w) as [u w1].
      destruct (Json.truthy u).
      * destruct (extension_of filename) as [ext|e]; [|discriminate].
        destruct (IH _ _ _ _ _ H) as (new & -> & Hnew & Hsorted).
        eexists (_ :: new). rewrite <- app_assoc. split; [reflexivity|].
        split.
        -- constructor; [cbn; lia | now apply Hweak].
        -- cbn [map attachment_order]. constructor; [exact Hsorted|].
           rewrite List.Forall_map. eapply Forall_impl; [exact Hnew|].
           intros a Ha. cbn beta in *. lia.
      * destruct (IH _ _ _ _ _ H) as (new & -> & Hnew & Hsorted).
        exists new. split; [reflexivity|]. split; [now apply Hweak | exact Hsorted].
    + destruct (IH _ _ _ _ _ H) as (new & -> & Hnew & Hsorted).
      exists new. split; [reflexivity|]. split; [now apply Hweak | exact Hsorted].
Qed.

(** ** X16: the order of an attachment is the position, counted from 1, of
    the supplementary asset it was built from among all supplementary
    assets of the lesson, files or not; that asset is a file with the
    attachment's id and filename, its URL was found, and the attachments
    come in increasing order. *)
Theorem attachment_order_is_position (lesson : Lesson) (w w' : world)
        (content : LessonContent) :
  fetch_lesson_details lesson w = (Ok content, w') ->
  exists supp_assets,
    Json.iter (lesson_supplementary_assets lesson) = Ok supp_assets
    /\ Forall (attachment_from supp_assets) (attachments content)
    /\ StronglySorted Z.lt (map attachment_order (attachments content)).
Proof.
  unfold fetch_lesson_details. intros H.
  destruct (lesson_videos lesson w) as [[vs|e] w1]; [|discriminate].
  destruct (Json.iter (lesson_supplementary_assets lesson)) as [supps|e];
    [|discriminate].
  exists supps. split; [reflexivity|].
  destruct (lesson_attachments supps 1 [] w1) as [[atts|e] w2] eqn:Hloop;
    [|discriminate].
  injection H as <- _. cbn [attachments].
  destruct (lesson_attachments_from _ _ _ _ _ _ Hloop) as (new & -> & Hfrom).
  destruct (lesson_attachments_sorted _ _ _ _ _ _ Hloop) as (new' & Heq & _ & Hsorted).
  cbn [app] in *. subst new'. split; [exact Hfrom | exact Hsorted].
Qed.

Lemma lesson_attachments_sent (ds : list dict) :
  forall (idx : Z) (done : list Attachment) (w : world),
    Forall (fun d => is_file d = true -> named d) ds ->
    exists out w',
      lesson_attachments (map JObj ds) idx done w = (Ok out, w')
      /\ sent w' = sent w ++ map attachment_request (List.filter is_file ds)
      /\ (length out <= length done + length (List.filter is_file ds))%nat.
Proof.
  induction ds as [|d ds IH]; intros idx done w Hnamed.
  - exists done, w. cbn. rewrite app_nil_r. repeat split. lia.
  - apply Forall_cons in Hnamed as [Hd Hds].
    cbn [map lesson_attachments Json.get Json.get_default List.filter].
    fold (is_file d). destruct (is_file d) eqn:Hfile.
    + destruct (Hd eq_refl) as (s & Hs).
      pose proof (get_attachment_url_world (Json.dict_get d "id" JNull) w) as [Hsent _].
      destruct (_get_attachment_url (Json.dict_get d "id" JNull) w) as [u w1].
      cbn [snd] in Hsent. rewrite Hs.
      destruct (extension_of_str s) as (ext & ->).
      destruct (Json.truthy u).
      * destruct (IH (idx + 1)
                    (done ++ [MkAttachment (py_str (Json.dict_get d "id" JNull)) u
                                           (JStr s) idx ext 0]) w1 Hds)
          as (out & w' & -> & Hw' & Hlen).
        exists out, w'. split; [reflexivity|].
        rewrite Hw', Hsent, <- app_assoc. split; [reflexivity|].
        rewrite length_app in Hlen. cbn [length] in *. lia.
      * destruct (IH (idx + 1) done w1 Hds) as (out & w' & -> & Hw' & Hlen).
        exists out, w'. split; [reflexivity|].
        rewrite Hw', Hsent, <- app_assoc. split; [reflexivity|].
        cbn [length]. lia.
    + exact (IH (idx + 1) done w Hds).
Qed.

Lemma lesson_videos_sent (lesson : Lesson) (w : world) :
  Json.truthy (lesson_asset lesson) = false
  \/ Json.is_dict (lesson_asset lesson) = true ->
  exists vs w',
    lesson_videos lesson w = (Ok vs, w')
    /\ sent w' = sent w ++ video_requests (lesson_asset lesson)
    /\ (length vs <= length (video_requests (lesson_asset lesson)))%nat.
Proof.
  intros Hasset.
  assert (Hnone : video_requests (lesson_asset lesson) = [] ->
                  exists (vs : list Video) w', (Ok [], w) = (Ok vs, w')
                    /\ sent w' = sent w ++ video_requests (lesson_asset lesson)
                    /\ (length vs <= length (video_requests (lesson_asset lesson)))%nat).
  { intros ->. exists [], w. rewrite app_nil_r. repeat split. cbn. lia. }
  unfold lesson_videos.
  destruct (lesson_asset lesson) as [| | | |?|a] eqn:Ha;
    try (destruct Hasset as [Hf|Hd]; [rewrite Hf; now apply Hnone | discriminate]).
  destruct (Json.truthy (JObj a)) eqn:Ht;
    [|destruct a; [now apply Hnone | discriminate Ht]].
  cbn [Json.get Json.get_default]. fold (is_video a).
  unfold video_requests in *.
  destruct (is_video a); [|now apply Hnone].
  destruct (Json.truthy (Json.dict_get a "id" JNull)); [|now apply Hnone].
  cbn [andb].
  pose proof (get_video_details_world (Json.dict_get a "id" JNull) w) as [Hsent _].
  destruct (_get_video_details (Json.dict_get a "id" JNull) w) as [[video_url quality] w'].
  cbn [snd] in Hsent.
  destruct (Json.truthy video_url); eexists _, w';
    (split; [reflexivity|]); (split; [exact Hsent | cbn; lia]).
Qed.

(** ** X17: on a lesson whose asset is absent or an object and whose
    supplementary assets are objects, the files among them named by a
    string, the call returns, whatever the requests answer, and it sends
    the video request, if the asset is a video with an id, and then one
    request for each file, in order, and no other. *)
Theorem lesson_requests (lesson : Lesson) (supp_assets : list dict) (w : world) :
  Json.truthy (lesson_asset lesson) = false
  \/ Json.is_dict (lesson_asset lesson) = true ->
  lesson_supplementary_assets lesson = JArr (map JObj supp_assets) ->
  Forall (fun supp => is_file supp = true -> named supp) supp_assets ->
  exists content w',
    fetch_lesson_details lesson w = (Ok content, w')
    /\ sent w' = sent w ++ video_requests (lesson_asset lesson)
                        ++ map attachment_request (List.filter is_file supp_assets)
    /\ (length (videos content) <= length (video_requests (lesson_asset lesson)))%nat
    /\ (length (attachments content) <= length (List.filter is_file supp_assets))%nat.
Proof.
  intros Hasset Hsupp Hnamed. unfold fetch_lesson_details.
  destruct (lesson_videos_sent lesson w Hasset) as (vs & w1 & -> & Hw1 & Hvs).
  rewrite Hsupp. cbn [Json.iter].
  destruct (lesson_attachments_sent supp_assets 1 [] w1 Hnamed)
    as (atts & w2 & Hloop & Hw2 & Hlen).
  rewrite Hloop. exists (MkContent vs atts), w2.
  split; [reflexivity|]. split; [now rewrite Hw2, Hw1, <- app_assoc|].
  split; [exact Hvs | exact Hlen].
Qed.

Lemma lecture_without_supplementary_assets_raises_witness :
  fst (fetch_lesson_details
         (lesson_of [("_class", JStr "lecture"); ("id", JNum 5);
                     ("title", JStr "Setup")]) lesson_world)
  = Raise TypeError.
Proof.
  exact (lecture_without_supplementary_assets_raises
           [("_class", JStr "lecture"); ("id", JNum 5); ("title", JStr "Setup")]
           lesson_world eq_refl).
Defined.

Lemma attachment_order_is_position_witness :
  map attachment_order
      (match fst (fetch_lesson_details lesson_with_files lesson_world) with
       | Ok content => attachments content
       | Raise _ => []
       end) = [1; 3]
  /\ exists supp_assets,
       Json.iter (lesson_supplementary_assets lesson_with_files) = Ok supp_assets
       /\ Forall (attachment_from supp_assets)
                 [MkAttachment "21" (JStr "a") (JStr "slides.tar.gz") 1 "gz" 0;
                  MkAttachment "23" (JStr "b") (JStr "README") 3 "" 0]
       /\ StronglySorted Z.lt [1; 3].
Proof.
  split; [vm_compute; reflexivity|].
  apply (attachment_order_is_position lesson_with_files lesson_world
           (World [] (sent (snd (fetch_lesson_details lesson_with_files lesson_world))) [])
           (MkContent [MkVideo "11" (JStr "v.m3u8") 1 "Intro - 720p" 0 (JNum 0)]
              [MkAttachment "21" (JStr "a") (JStr "slides.tar.gz") 1 "gz" 0;
               MkAttachment "23" (JStr "b") (JStr "README") 3 "" 0])).
  vm_compute. reflexivity.
Defined.

Lemma lesson_requests_witness :
  exists content w',
    fetch_lesson_details lesson_with_files lesson_world = (Ok content, w')
    /\ sent w' = [Request (JStr "https://www.udemy.com/api-2.0/assets/11/")
                          (Some video_params);
                  Request (JStr "https://www.udemy.com/api-2.0/assets/21/")
                          (Some attachment_params);
                  Request (JStr "https://www.udemy.com/api-2.0/assets/23/")
                          (Some attachment_params)]
    /\ (length (videos content) <= 1)%nat
    /\ (length (attachments content) <= 2)%nat.
Proof.
  apply (lesson_requests lesson_with_files
           [[("asset_type", JStr "File"); ("id", JNum 21);
             ("filename", JStr "slides.tar.gz")];
            [("asset_type", JStr "ExternalLink"); ("id", JNum 22)];
            [("asset_type", JStr "File"); ("id", JNum 23);
             ("filename", JStr "README")]] lesson_world).
  - right. reflexivity.
  - reflexivity.
  - apply Forall_cons. split; [intros _; now exists "slides.tar.gz"|].
    apply Forall_cons. split; [intros H; vm_compute in H; discriminate H|].
    apply Forall_cons. split; [intros _; now exists "README"|].
    constructor.
Defined.

Section CsrfHeader.

Import UdemyTokenFetcher.

(** ** From the fetcher's check to the session's headers *)

Lemma contains_app (sub a b : string) : Py.contains sub (a +:+ sub +:+ b) = true.
Proof.
  induction a as [|x a IH].
  - sapp. destruct (sub +:+ b) eqn:Hs; cbn [Py.contains]; rewrite <- ?Hs;
      rewrite prefix_app; reflexivity.
  - sapp. cbn [Py.contains]. rewrite IH. apply orb_true_r.
Qed.

Lemma split1_csrf (token : string) :
  Py.split1 "=" ("csrftoken=" +:+ token) = ["csrftoken"; token].
Proof. reflexivity. Qed.

Lemma find_csrf_present (parts : list string) :
  existsb (fun p => Py.startswith (Py.strip p) "csrftoken=") parts = true ->
  exists p token,
    In p parts /\ Py.strip p = "csrftoken=" +:+ token
    /\ find_csrf parts = Ok (Some token).
Proof.
  induction parts as [|p parts IH]; [discriminate|].
  cbn [existsb find_csrf].
  destruct (Py.startswith (Py.strip p) "csrftoken=") eqn:Hp.
  - intros _. destruct (prefix_inv _ _ Hp) as [token Htoken].
    exists p, token. split; [now left|]. split; [exact Htoken|].
    rewrite Htoken, split1_csrf. reflexivity.
  - cbn [orb]. intros Hex. destruct (IH Hex) as (q & token & Hin & Hq & Hfind).
    exists q, token. split; [now right|]. split; assumption.
Qed.

(** What an accepted cookie header holds for the CSRF block. *)
Lemma csrf_of_accepted (c : string) :
  _has_required_cookies c = true ->
  Py.contains "csrftoken=" c = true
  /\ exists token,
       find_csrf (Py.split ";" c) = Ok (Some token)
       /\ In ("csrftoken=" +:+ token) (cookie_parts c).
Proof.
  intros Hreq.
  assert (Hany : any_startswith "csrftoken" (cookie_parts c) = true).
  { unfold _has_required_cookies in Hreq. rewrite check_required_forall in Hreq.
    apply Hreq. right. now left. }
  split.
  - apply (any_startswith_present "csrftoken" c) in Hany;
      [|split; [reflexivity | eauto]].
    destruct Hany as (before & ws & after & -> & _ & _).
    rewrite <- (app_assoc_s before ws).
    change ("csrftoken" +:+ "=" +:+ after) with ("csrftoken=" +:+ after).
    apply contains_app.
  - assert (Hex : existsb (fun p => Py.startswith (Py.strip p) "csrftoken=")
                          (Py.split ";" c) = true).
    { apply existsb_exists in Hany as (part & Hin & Hpre).
      apply in_cookie_parts in Hin as (_ & seg & Hseg & ->).
      apply existsb_exists. exists seg. split; [exact Hseg | exact Hpre]. }
    destruct (find_csrf_present _ Hex) as (p & token & Hin & Hp & Hfind).
    exists token. split; [exact Hfind|].
    apply in_cookie_parts. split.
    + rewrite <- Hp. eapply prefix_nonempty; [|rewrite Hp; apply prefix_app].
      discriminate.
    + exists p. split; [exact Hin | now rewrite Hp].
Qed.

Lemma accepted_nonempty (c : string) : _has_required_cookies c = true -> c <> "".
Proof. intros H ->. discriminate H. Qed.

(** ** X18: a cookie header the fetcher's check accepts gives the session its
    CSRF header: header derivation keeps the cookie header as it is and
    sets [X-CSRFToken] to the value of a [csrftoken] cookie of it. *)
Theorem accepted_cookies_set_csrf_header (c : string) (h : headers) :
  _has_required_cookies c = true ->
  exists h' token,
    _apply_cookie_headers (JStr c) h = Ok h'
    /\ header "Cookie" h' = Some (JStr c)
    /\ header "X-CSRFToken" h' = Some (JStr token)
    /\ In ("csrftoken=" +:+ token) (cookie_parts c).
Proof.
  intros Hreq.
  destruct (csrf_of_accepted _ Hreq) as (Hsub & token & Hfind & Hin).
  destruct (apply_cookie_headers_str c h) as (csrf & kv & Hcsrf & _ & Heq).
  rewrite Hfind in Hcsrf. injection Hcsrf as <-. rewrite Hsub in Heq.
  eexists _, token. split; [exact Heq|].
  split; [|split; [|exact Hin]].
  - rewrite set_cache_headers_keeps
      by (repeat constructor; intros Hq; vm_compute in Hq; discriminate Hq).
    unfold cookie_headers.
    rewrite !header_set_ne by (intros Hq; vm_compute in Hq; discriminate Hq).
    apply header_set_eq.
  - rewrite set_cache_headers_keeps
      by (repeat constructor; intros Hq; vm_compute in Hq; discriminate Hq).
    apply header_set_eq.
Qed.

Lemma accepted_cookies_set_csrf_header_witness :
  exists h' token,
    _apply_cookie_headers (JStr spec_cookie) ∅ = Ok h'
    /\ header "Cookie" h' = Some (JStr spec_cookie)
    /\ header "X-CSRFToken" h' = Some (JStr token)
    /\ In ("csrftoken=" +:+ token) (cookie_parts spec_cookie).
Proof.
  apply (accepted_cookies_set_csrf_header spec_cookie ∅). vm_compute. reflexivity.
Defined.

End CsrfHeader.

(** ** From the captured payload to the session *)

Section CapturedPayload.

Import UdemyTokenFetcher.

Variable json_loads : string -> result json.
Variable json_dumps : json -> string.

(** ** X19: the payload the fetcher builds from an accepted cookie header is
    the one the platform recognises: when the decoder reads back what the
    serialiser wrote, authentication takes the cookie path, keeps the
    captured storages (an empty dict for a falsy one), sends the cookie
    header as captured with the CSRF token of one of its cookies, and
    leaves the authorization header alone. *)
Theorem captured_payload_authenticates (default_headers : headers)
        (user_agent : string) (local_storage session_storage : json)
        (cookie_header : string) :
  _has_required_cookies cookie_header = true ->
  json_loads (_build_cookie_payload json_dumps local_storage session_storage
                                    cookie_header)
  = Ok (cookie_payload local_storage session_storage cookie_header) ->
  exists h' token,
    authenticate json_loads default_headers user_agent
      (_build_cookie_payload json_dumps local_storage session_storage cookie_header)
    = Ok (Session h' (or_empty_dict local_storage) (or_empty_dict session_storage))
    /\ header "Cookie" h' = Some (JStr cookie_header)
    /\ header "X-CSRFToken" h' = Some (JStr token)
    /\ In ("csrftoken=" +:+ token) (cookie_parts cookie_header)
    /\ header "Authorization" h' = header "Authorization" default_headers.
Proof.
  intros Hreq Hloads.
  destruct (csrf_of_accepted _ Hreq) as (Hsub & token & Hfind & Hin).
  pose proof (accepted_nonempty _ Hreq) as Hne. apply String.eqb_neq in Hne.
  assert (Hparse : _try_parse_cookie_payload json_loads
                     (_build_cookie_payload json_dumps local_storage session_storage
                                            cookie_header)
                   = Some [ ("token_type", JStr "cookie");
                            ("cookie", JStr cookie_header);
                            ("local_storage", local_storage);
                            ("session_storage", session_storage) ]).
  { unfold _try_parse_cookie_payload. rewrite Hloads. unfold cookie_payload.
    change (Json.dict_get _ "token_type" JNull) with (JStr "cookie").
    change (Json.dict_get _ "cookie" JNull) with (JStr cookie_header).
    cbn [Json.truthy]. rewrite Hne. reflexivity. }
  unfold authenticate. rewrite Hparse.
  fold (base_headers default_headers user_agent).
  change (Json.dict_get _ "cookie" JNull) with (JStr cookie_header).
  change (Json.dict_get _ "local_storage" (JObj [])) with local_storage.
  change (Json.dict_get _ "session_storage" (JObj [])) with session_storage.
  cbn [Json.truthy andb]. rewrite Hne. cbn [negb].
  destruct (apply_cookie_headers_str cookie_header
              (base_headers default_headers user_agent))
    as (csrf & kv & Hcsrf & _ & Heq).
  rewrite Hfind in Hcsrf. injection Hcsrf as <-. rewrite Hsub in Heq.
  cbn [Json.truthy]. rewrite Hne. cbn [negb].
  rewrite Heq, bind_ok. eexists _, token. split; [reflexivity|].
  repeat split.
  - rewrite set_cache_headers_keeps
      by (repeat constructor; intros Hq; vm_compute in Hq; discriminate Hq).
    unfold cookie_headers.
    rewrite !header_set_ne by (intros Hq; vm_compute in Hq; discriminate Hq).
    apply header_set_eq.
  - rewrite set_cache_headers_keeps
      by (repeat constructor; intros Hq; vm_compute in Hq; discriminate Hq).
    apply header_set_eq.
  - exact Hin.
  - rewrite set_cache_headers_keeps
      by (repeat constructor; intros Hq; vm_compute in Hq; discriminate Hq).
    unfold cookie_headers, base_headers.
    now rewrite !header_set_ne by (intros Hq; vm_compute in Hq; discriminate Hq).
Qed.

(** Header derivation on any value: the cookie header is that value and
    the authorization header is not touched. *)
Lemma apply_cookie_headers_any (v : json) (h h' : headers) :
  _apply_cookie_headers v h = Ok h' ->
  header "Cookie" h' = Some v
  /\ header "Authorization" h' = header "Authorization" h.
Proof.
  assert (Hfixed : header "Cookie" (cookie_headers v h) = Some v
                   /\ header "Authorization" (cookie_headers v h)
                      = header "Authorization" h).
  { unfold cookie_headers. split.
    - rewrite !header_set_ne by (intros Hq; vm_compute in Hq; discriminate Hq).
      apply header_set_eq.
    - now rewrite !header_set_ne by (intros Hq; vm_compute in Hq; discriminate Hq). }
  destruct v as [|b|n|c|l|d]; try discriminate.
  - intros Happly.
    destruct (apply_cookie_headers_str c h) as (csrf & kv & _ & _ & Heq).
    rewrite Heq in Happly. injection Happly as <-.
    rewrite !set_cache_headers_keeps
      by (repeat constructor; intros Hq; vm_compute in Hq; discriminate Hq).
    destruct csrf as [token|]; [|exact Hfixed].
    destruct (Py.contains "csrftoken=" c); [|exact Hfixed].
    now rewrite !header_set_ne by (intros Hq; vm_compute in Hq; discriminate Hq).
  - unfold _apply_cookie_headers. cbn [Json.has_str str_split].
    rewrite bind_ok, !bind_raise. fold (cookie_headers (JArr l) h).
    destruct (existsb _ l); intros Happly; injection Happly as <-; exact Hfixed.
  - unfold _apply_cookie_headers. cbn [Json.has_str str_split].
    rewrite bind_ok, !bind_raise. fold (cookie_headers (JObj d) h).
    destruct (existsb _ d); intros Happly; injection Happly as <-; exact Hfixed.
Qed.

(** ** X20: authentication writes one credential header, never both: either
    the token is a bearer token, which becomes the authorization header
    while the cookie header stays as the fresh session had it, or a
    cookie header is written and the authorization header stays. *)
Theorem authenticate_sets_one_credential (default_headers : headers)
        (user_agent token_data : string) (s : session) :
  authenticate json_loads default_headers user_agent token_data = Ok s ->
  (Py.startswith (Py.lower token_data) "bearer " = true
   /\ header "Authorization" (session_headers s) = Some (JStr token_data)
   /\ header "Cookie" (session_headers s) = header "Cookie" default_headers)
  \/ (header "Authorization" (session_headers s)
      = header "Authorization" default_headers
      /\ exists c, header "Cookie" (session_headers s) = Some c).
Proof.
  unfold authenticate. fold (base_headers default_headers user_agent).
  set (h := base_headers default_headers user_agent).
  assert (Hbase : forall name,
             Forall (fun other => Py.lower other <> Py.lower name)
                    ["Sec-GPC"; "Accept-Language"; "Referer"; "User-Agent"] ->
             header name h = header name default_headers).
  { intros name Hne. unfold h, base_headers.
    apply Forall_cons in Hne as [H1 Hne]. apply Forall_cons in Hne as [H2 Hne].
    apply Forall_cons in Hne as [H3 Hne]. apply Forall_cons in Hne as [H4 _].
    now rewrite !header_set_ne by assumption. }
  assert (Hauth : header "Authorization" h = header "Authorization" default_headers)
    by (apply Hbase; repeat constructor; intros Hq; vm_compute in Hq; discriminate Hq).
  assert (Hcookie : header "Cookie" h = header "Cookie" default_headers)
    by (apply Hbase; repeat constructor; intros Hq; vm_compute in Hq; discriminate Hq).
  assert (Hpath : forall v ls ss,
             (h' ← _apply_cookie_headers v h; Ok (Session h' ls ss)) = Ok s ->
             header "Authorization" (session_headers s)
             = header "Authorization" default_headers
             /\ exists c, header "Cookie" (session_headers s) = Some c).
  { intros v ls ss Hs.
    destruct (_apply_cookie_headers v h) as [h'|e] eqn:Happly; [|discriminate Hs].
    rewrite bind_ok in Hs. injection Hs as <-. cbn [session_headers].
    destruct (apply_cookie_headers_any _ _ _ Happly) as [Hc Ha].
    split; [now rewrite Ha | eauto]. }
  assert (Hbearer : forall ls ss,
             Py.startswith (Py.lower token_data) "bearer " = true ->
             (h' ← Ok (set_header "Authorization" (JStr token_data) h);
              Ok (Session h' ls ss)) = Ok s ->
             header "Authorization" (session_headers s) = Some (JStr token_data)
             /\ header "Cookie" (session_headers s) = header "Cookie" default_headers).
  { intros ls ss _ Hs. rewrite bind_ok in Hs. injection Hs as <-.
    cbn [session_headers]. split; [apply header_set_eq|].
    now rewrite header_set_ne by (intros Hq; vm_compute in Hq; discriminate Hq). }
  destruct (_try_parse_cookie_payload json_loads token_data) as [p|].
  - destruct (Json.truthy (JObj p) && Json.truthy (Json.dict_get p "cookie" JNull))
      eqn:Ht.
    + apply andb_true_iff in Ht as [_ ->]. intros Hs. right. exact (Hpath _ _ _ Hs).
    + destruct (Py.startswith token_data "Cookie:").
      * destruct (Json.truthy (JStr (Py.drop 7 token_data)));
          [intros Hs; right; exact (Hpath _ _ _ Hs)|].
        destruct (Py.startswith (Py.lower token_data) "bearer ") eqn:Hb;
          intros Hs; [left; split; [reflexivity | exact (Hbearer _ _ eq_refl Hs)]
                     | right; exact (Hpath _ _ _ Hs)].
      * cbn [Json.truthy].
        destruct (Py.startswith (Py.lower token_data) "bearer ") eqn:Hb;
          intros Hs; [left; split; [reflexivity | exact (Hbearer _ _ eq_refl Hs)]
                     | right; exact (Hpath _ _ _ Hs)].
  - destruct (Py.startswith token_data "Cookie:").
    + destruct (Json.truthy (JStr (Py.drop 7 token_data)));
        [intros Hs; right; exact (Hpath _ _ _ Hs)|].
      destruct (Py.startswith (Py.lower token_data) "bearer ") eqn:Hb;
        intros Hs; [left; split; [reflexivity | exact (Hbearer _ _ eq_refl Hs)]
                   | right; exact (Hpath _ _ _ Hs)].
    + cbn [Json.truthy].
      destruct (Py.startswith (Py.lower token_data) "bearer ") eqn:Hb;
        intros Hs; [left; split; [reflexivity | exact (Hbearer _ _ eq_refl Hs)]
                   | right; exact (Hpath _ _ _ Hs)].
Qed.

End CapturedPayload.

Lemma captured_payload_authenticates_witness :
  exists h' token,
    authenticate
      (loads_one (UdemyTokenFetcher.cookie_payload (JObj [("theme", JStr "dark")]) JNull spec_cookie))
      ∅ "UA"
      (UdemyTokenFetcher._build_cookie_payload dumps_one
         (JObj [("theme", JStr "dark")]) JNull spec_cookie)
    = Ok (Session h' (or_empty_dict (JObj [("theme", JStr "dark")]))
                  (or_empty_dict JNull))
    /\ header "Cookie" h' = Some (JStr spec_cookie)
    /\ header "X-CSRFToken" h' = Some (JStr token)
    /\ In ("csrftoken=" +:+ token) (UdemyTokenFetcher.cookie_parts spec_cookie)
    /\ header "Authorization" h' = header "Authorization" ∅.
Proof.
  apply (captured_payload_authenticates
           (loads_one (UdemyTokenFetcher.cookie_payload (JObj [("theme", JStr "dark")]) JNull spec_cookie))
           dumps_one ∅ "UA" (JObj [("theme", JStr "dark")]) JNull spec_cookie);
    reflexivity.
Defined.

Lemma authenticate_sets_one_credential_witness :
  let s := Session (set_header "Authorization" (JStr "Bearer abc123")
                               (base_headers ∅ "UA")) (JObj []) (JObj []) in
  (Py.startswith (Py.lower "Bearer abc123") "bearer " = true
   /\ header "Authorization" (session_headers s) = Some (JStr "Bearer abc123")
   /\ header "Cookie" (session_headers s) = header "Cookie" ∅)
  \/ (header "Authorization" (session_headers s) = header "Authorization" ∅
      /\ exists c, header "Cookie" (session_headers s) = Some c).
Proof.
  intros s. apply (authenticate_sets_one_credential loads_payload ∅ "UA" "Bearer abc123" s).
  reflexivity.
Defined.

(** ** The progress view *)

Section Progress.

Import ProgressView.

(** ** X21: after any sequence of calls on a fresh view, the progress label
    reads the two counters: completed, " de ", total, " aulas". *)
Theorem label_shows_the_counters (calls : list call) :
  progress_label (run calls init)
  = label_text (_completed_lessons (run calls init)) (_total_lessons (run calls init)).
Proof.
  induction calls as [|c calls IH] using rev_ind; [reflexivity|].
  unfold run in *. rewrite fold_left_app. cbn [fold_left].
  destruct c; cbn [dispatch]; try reflexivity; exact IH.
Qed.

Lemma run_without_reset (calls : list call) :
  forall v,
    forallb (fun c => negb (is_reset c)) calls = true ->
    _total_lessons (run calls v) = _total_lessons v
    /\ _completed_lessons (run calls v)
       = _completed_lessons v + Z.of_nat (length (List.filter is_increment calls)).
Proof.
  induction calls as [|c calls IH]; intros v Hno.
  - cbn. split; [reflexivity | lia].
  - cbn [forallb] in Hno. apply andb_true_iff in Hno as [Hc Hrest].
    cbn [run fold_left]. fold (run calls (dispatch v c)).
    destruct (IH (dispatch v c) Hrest) as [Ht Hn]. rewrite Ht, Hn.
    destruct c; try discriminate Hc; cbn; split; try reflexivity; lia.
Qed.

(** ** X22: the counters are those of the last [set_total_lessons]: the total
    it gave, and the number of [increment_completed_lessons] since; no
    other call moves them. *)
Theorem counters_since_last_total (before after : list call) (total : Z) :
  forallb (fun c => negb (is_reset c)) after = true ->
  _total_lessons (run (before ++ SetTotalLessons total :: after) init) = total
  /\ _completed_lessons (run (before ++ SetTotalLessons total :: after) init)
     = Z.of_nat (length (List.filter is_increment after)).
Proof.
  intros Hno. unfold run. rewrite fold_left_app. cbn [fold_left dispatch].
  fold (run before init).
  fold (run after (set_total_lessons total (run before init))).
  destruct (run_without_reset after (set_total_lessons total (run before init)) Hno)
    as [-> ->].
  cbn. split; [reflexivity | lia].
Qed.

Lemma counters_since_last_total_witness :
  _total_lessons
    (run ([IncrementCompletedLessons; SetTotalLessons 9]
            ++ SetTotalLessons 2
                 :: [IncrementCompletedLessons; LogMessage "ok";
                     IncrementCompletedLessons; OnCancelClicked;
                     IncrementCompletedLessons]) init) = 2
  /\ _completed_lessons
       (run ([IncrementCompletedLessons; SetTotalLessons 9]
               ++ SetTotalLessons 2
                    :: [IncrementCompletedLessons; LogMessage "ok";
                        IncrementCompletedLessons; OnCancelClicked;
                        IncrementCompletedLessons]) init)
     = Z.of_nat (length (List.filter is_increment
                           [IncrementCompletedLessons; LogMessage "ok";
                            IncrementCompletedLessons; OnCancelClicked;
                            IncrementCompletedLessons])).
Proof.
  apply (counters_since_last_total [IncrementCompletedLessons; SetTotalLessons 9]
           [IncrementCompletedLessons; LogMessage "ok"; IncrementCompletedLessons;
            OnCancelClicked; IncrementCompletedLessons] 2).
  reflexivity.
Defined.

End Progress.
